(** * Index and shape lowering of [imperative/python/src/tensor.cpp]

    A shallow embedding of the argument-normalising layer that sits between
    the Python tensor API and the graph engine: dtype/device promotion,
    index unpacking for [__getitem__]/[__setitem__], [reshape], and the
    axis operators [split], [expand_dims], [squeeze], [transpose] and
    [broadcast].

    Python objects are modelled by the observations the C++ code makes of
    them (type checks, attribute reads, element access).  Calls into the
    engine ([py_apply], tensor construction, Python-level methods) are
    parameters gathered in the record [Engine]; every [py_apply] call made
    by the embedded code is appended to an invocation log. *)

From Stdlib Require Import List String Ascii ZArith NArith Lia Bool DecimalString.
From Stdlib Require Import Sorted Permutation.
Import ListNotations.
Local Open Scope string_scope.
Local Open Scope list_scope.
Local Set Warnings "-register-all".

(** String concatenation; [++] is kept for lists. *)
Infix "+++" := String.append (right associativity, at level 60).

(* ================================================================== *)
(** ** Exceptions and results *)

(** The C++ exception classes that matter for control flow.  The handlers
    in the source are all [catch (py::error_already_set&)]: they intercept a
    Python exception raised inside a called Python API, and nothing else.
    [py::index_error], [py::value_error] and [py::cast_error] derive from
    [std::runtime_error] on a separate branch and pass through them.

    [error_pending] is no exception of the code.  It marks a run that
    leaves what this file describes: a C API call has failed, returning -1
    or a null pointer with the Python error indicator set, at a place where
    the code does not test the outcome and goes on with the returned value.
    From there the run is decided by the interpreter, which fails the next
    call it checks with [SystemError], and by what the engine does with a
    null operand.  The embedding names the failed call and follows the run
    no further; no handler of the code intercepts the mark. *)
Inductive exn : Type :=
| index_error (msg : string)
| value_error (msg : string)
| type_error (msg : string)
| cast_error
| error_already_set (msg : string)
| runtime_error (msg : string)
| mgb_assert_failed (msg : string)
| error_pending (call : string).

Inductive result (A : Type) : Type :=
| Ok (a : A)
| Raise (e : exn).
Arguments Ok {A} a.
Arguments Raise {A} e.

Definition rbind {A B} (r : result A) (f : A -> result B) : result B :=
  match r with
  | Ok a => f a
  | Raise e => Raise e
  end.

(** [std::to_string] on an unsigned and on a signed integer. *)
Definition to_string_N (n : N) : string := NilZero.string_of_uint (N.to_uint n).
Definition to_string_Z (z : Z) : string := NilZero.string_of_int (Z.to_int z).

(** Substring test, used to say that a message mentions a piece of text. *)
Fixpoint contains (needle hay : string) : bool :=
  if String.prefix needle hay then true
  else match hay with
       | EmptyString => false
       | String _ rest => contains needle rest
       end.

(* ================================================================== *)
(** ** Python objects *)

(** [PyArray_Descr]: only [kind] is inspected by the code; [type_num]
    tells descriptors of one kind apart. *)
Record PyArray_Descr : Type := mkDescr { kind : ascii; type_num : N }.

Definition NPY_BOOL : PyArray_Descr := mkDescr "b" 0.
Definition NPY_INT32 : PyArray_Descr := mkDescr "i" 5.
Definition NPY_FLOAT32 : PyArray_Descr := mkDescr "f" 11.

(** [CompNode] with its two printed forms. *)
Record CompNode : Type := mkCompNode { cn_physical : string; cn_logical : string }.

Definition CompNode_eqb (a b : CompNode) : bool :=
  String.eqb (cn_physical a) (cn_physical b) && String.eqb (cn_logical a) (cn_logical b).

(** A numpy array: dtype, shape, and its entries flattened in C order. *)
Record NdArray : Type := mkNdArray {
  a_dtype : PyArray_Descr;
  a_shape : list N;
  a_data : list Z
}.

(** A tensor handle: a [TensorWrapper] or, when [t_symvar] is set, a
    [PySymbolVar].  [t_shape = None] is a shape that is not known yet.
    [t_data] holds the flattened entries when the value can be fetched
    (what [numpy()] returns), [t_name] tells handles apart. *)
Record TensorData : Type := mkTensor {
  t_symvar : bool;
  t_dtype : PyArray_Descr;
  t_device : CompNode;
  t_shape : option (list N);
  t_scalar : bool;
  t_data : list Z;
  t_name : N
}.

Inductive PyObject : Type :=
| PyNone
| PyEllipsis
| PyBool (b : bool)
| PyLong (z : Z)
| PyFloat (bits : N)
| PyStr (s : string)
| PySlice (start stop step : PyObject)
| PyTuple (items : list PyObject)
| PyList (items : list PyObject)
| PyArray (a : NdArray)
| PyNpScalar (d : PyArray_Descr)
| PyCompNode (cn : CompNode)
| PyTensor (t : TensorData).

(** [TensorWrapper::try_cast] and [py::isinstance<PySymbolVar>]. *)
Definition TensorWrapper_try_cast (o : PyObject) : option TensorData :=
  match o with
  | PyTensor t => if t_symvar t then None else Some t
  | _ => None
  end.

Definition isinstance_PySymbolVar (o : PyObject) : option TensorData :=
  match o with
  | PyTensor t => if t_symvar t then Some t else None
  | _ => None
  end.

Definition is_tensor_or_symbolvar (arg : PyObject) : bool :=
  match arg with
  | PyTensor _ => true
  | _ => false
  end.

(* ================================================================== *)
(** ** Dtype promotion *)

Definition category_priority (c : ascii) : N :=
  if Ascii.eqb c "f" then 3
  else if Ascii.eqb c "i" then 2
  else if Ascii.eqb c "u" then 2
  else if Ascii.eqb c "b" then 1
  else 0.

Definition max_priority (types : list PyArray_Descr) : N :=
  match types with
  | [] => 0
  | _ => fold_left (fun max_p desc => N.max max_p (category_priority (kind desc)))
                   types 0%N
  end.

Definition scalar2dtype (arg : PyObject) : option PyArray_Descr :=
  match arg with
  | PyBool _ => Some NPY_BOOL
  | PyLong _ => Some NPY_INT32
  | PyFloat _ => Some NPY_FLOAT32
  | _ => None
  end.

(** The leading block of both [_dtype_promotion] and [_get_device]: a sole
    tuple or list argument is replaced by its items. *)
Definition unroll_args (args : list PyObject) : list PyObject :=
  match args with
  | [PyTuple items] => items
  | [PyList items] => items
  | _ => args
  end.


(* ================================================================== *)
(** ** The engine interface and the invocation log *)

(** An index item as [Subtensor::make] takes it:
    (axis, begin, end, step, idx). *)
Definition index_item : Type := (Z * bool * bool * bool * bool)%type.

Inductive OpDef : Type :=
| CondTake
| Subtensor (items : list index_item)
| IndexingMultiAxisVec (items : list index_item)
| SetSubtensor (items : list index_item)
| IndexingSetMultiAxisVec (items : list index_item)
| Reshape (axis : Z) (shape : list Z).

(** What the embedded functions call but do not define. *)
Record Engine : Type := mkEngine {
  (** numpy's type promotion *)
  PyArray_PromoteTypes : PyArray_Descr -> PyArray_Descr -> PyArray_Descr;
  (** [CompNode::load(get_default_device())] *)
  default_comp_node : CompNode;
  (** outcome of [py_apply] on an operator and its inputs *)
  py_apply : OpDef -> list PyObject -> result (list PyObject);
  (** [TensorWrapper::make] on (value, dtype, device) *)
  TensorWrapper_make : PyObject -> PyArray_Descr -> PyObject -> result PyObject;
  (** [opr::ImmutableTensor::make] on the graph of a symbolic reference *)
  ImmutableTensor_make : PyObject -> PyArray_Descr -> CompNode -> result PyObject;
  (** a device given as a string: [dmap_callback] or [CompNode::load] *)
  device_of_str : string -> result PyObject;
  (** the Python methods [reshape] and [_broadcast] of a handle *)
  call_reshape : PyObject -> PyObject -> result PyObject;
  call_broadcast : PyObject -> PyObject -> result PyObject;
  (** [cpp_astensor1d], with the reference operand when one is passed *)
  cpp_astensor1d : PyObject -> option PyObject -> result PyObject;
  (** element access on a tensor-valued shape *)
  tensor_getitem : TensorData -> Z -> result PyObject;
  (** [cpp_use_symbolic_shape()] *)
  cpp_use_symbolic_shape : bool;
  (** a Trace or ModuleTrace segment is active in the TransformationManager *)
  tracing : bool;
  (** [megdnn::param::OptionalAxisV1::INVALID_AXIS] *)
  INVALID_AXIS : Z;
  (** [<], [!=] and [repr] on objects that are not Python integers *)
  object_lt_zero : PyObject -> result bool;
  object_ne_minus_one : PyObject -> result bool;
  object_repr : PyObject -> string
}.

Definition Invocation : Type := (OpDef * list PyObject)%type.

(** Computations that may raise and that log their [py_apply] calls.  The
    log survives a raise: what was applied stays applied.  The log holds
    the operators the embedded code hands to [py_apply] itself.  The
    methods [reshape] and [_broadcast] of a handle, which the code calls
    through the interpreter, are no [py_apply] calls of this code and
    leave no entry; what they apply is the engine's affair. *)
Definition M (A : Type) : Type := list Invocation -> result A * list Invocation.

Definition ret {A} (a : A) : M A := fun log => (Ok a, log).
Definition bind {A B} (c : M A) (f : A -> M B) : M B :=
  fun log =>
    match c log with
    | (Ok a, log') => f a log'
    | (Raise e, log') => (Raise e, log')
    end.
Definition lift {A} (r : result A) : M A := fun log => (r, log).

Notation "x <- c ;; k" := (bind c (fun x => k))
  (at level 61, c at next level, right associativity).
Notation "' pat <- c ;; k" := (bind c (fun x => match x with pat => k end))
  (at level 61, pat pattern, c at next level, right associativity).

Fixpoint rmap {A B} (f : A -> result B) (l : list A) : result (list B) :=
  match l with
  | [] => Ok []
  | a :: rest => rbind (f a) (fun b => rbind (rmap f rest) (fun bs => Ok (b :: bs)))
  end.

(* ================================================================== *)
(** ** Casts and element access *)

(** [size_t] quantities in this code are tuple lengths, loop counters,
    ranks and dimension sizes.  Each is a count or a size the engine or
    numpy already holds in a [size_t], and the sums formed from them stay
    far from 2^64, so they are carried in [N].  The narrow conversions that
    inputs can reach ([int8_t] axes, [int32_t] shape entries and the
    [int32_t] loop counter of reshape, C [long]) keep their range.

    [obj.cast<size_t>()]: a non-negative Python integer, else
    [py::cast_error]. *)
Definition cast_size_t (o : PyObject) : result N :=
  match o with
  | PyLong z => if (0 <=? z)%Z then Ok (Z.to_N z) else Raise cast_error
  | PyBool b => Ok (if b then 1%N else 0%N)
  | _ => Raise cast_error
  end.

Definition in_int32 (z : Z) : bool := (- 2 ^ 31 <=? z)%Z && (z <? 2 ^ 31)%Z.
Definition in_int8 (z : Z) : bool := (- 2 ^ 7 <=? z)%Z && (z <? 2 ^ 7)%Z.

Definition cast_int32 (o : PyObject) : result Z :=
  match o with
  | PyLong z => if in_int32 z then Ok z else Raise cast_error
  | PyBool b => Ok (if b then 1%Z else 0%Z)
  | _ => Raise cast_error
  end.

(** Conversion of a [size_t] to [int32_t] by assignment: the low 32 bits,
    read as two's complement. *)
Definition wrap_int32 (z : Z) : Z := ((z + 2 ^ 31) mod 2 ^ 32 - 2 ^ 31)%Z.

(** A C [long] converted to [size_t]. *)
Definition size_t_of_long (z : Z) : N := Z.to_N (z mod 2 ^ 64).

(** [PyLong_Check]: [bool] is a subclass of [int]. *)
Definition PyLong_Check (o : PyObject) : bool :=
  match o with
  | PyLong _ | PyBool _ => true
  | _ => false
  end.

(** [PyLong_AsLong]: on a non-integer, and on an integer outside the
    range of a C [long], it returns -1 and leaves the Python error
    indicator set; nothing is thrown on the C++ side.  The second function
    tells when the indicator is set.  (A numpy scalar carries no value in
    this embedding and counts as a non-integer here.) *)
Definition PyLong_AsLong (o : PyObject) : Z :=
  match o with
  | PyLong z => if (- 2 ^ 63 <=? z)%Z && (z <? 2 ^ 63)%Z then z else (-1)%Z
  | PyBool b => if b then 1%Z else 0%Z
  | _ => (-1)%Z
  end.

Definition PyLong_AsLong_fails (o : PyObject) : bool :=
  match o with
  | PyLong z => negb ((- 2 ^ 63 <=? z)%Z && (z <? 2 ^ 63)%Z)
  | PyBool _ => false
  | _ => true
  end.

(** [PyArray_PyIntAsInt] on an array: the entry of an array that holds
    one, else -1 with the error indicator set. *)
Definition PyArray_PyIntAsInt (a : NdArray) : Z :=
  match a_data a with
  | [z] => z
  | _ => (-1)%Z
  end.

Definition PyArray_PyIntAsInt_fails (a : NdArray) : bool :=
  match a_data a with
  | [_] => false
  | _ => true
  end.

(** [tup[i]] on a [py::tuple] or [py::list]: out of range raises the
    Python [IndexError], which surfaces as [error_already_set]. *)
Definition tuple_item (l : list PyObject) (i : N) : result PyObject :=
  match nth_error l (N.to_nat i) with
  | Some o => Ok o
  | None => Raise (error_already_set "IndexError: tuple index out of range")
  end.

(** Indices [lo, lo+1, ..., hi-1] of a [size_t] loop. *)
Definition range (lo hi : N) : list N :=
  map N.of_nat (seq (N.to_nat lo) (N.to_nat hi - N.to_nat lo)).

Definition size {A} (l : list A) : N := N.of_nat (List.length l).

(* ================================================================== *)
(** ** Attribute reads

    The object protocol assumed of the handles: numpy arrays and scalars
    expose [dtype], [shape], [ndim]; tensor handles expose in addition
    [device] and [_tuple_shape].  A tensor whose shape is not known yet has
    [shape] and [_tuple_shape] equal to [None], and reading its [ndim]
    raises.  With symbolic shapes switched on, [shape] of a tensor of rank
    at least one is itself a tensor holding the dimensions. *)

Inductive attr : Type :=
| AttrError (msg : string)
| AttrVal (v : PyObject).

Definition hasattr (a : attr) : bool :=
  match a with
  | AttrVal _ => true
  | AttrError _ => false
  end.

Definition attr_get (a : attr) : result PyObject :=
  match a with
  | AttrVal v => Ok v
  | AttrError msg => Raise (error_already_set msg)
  end.

Definition shape_tuple (s : list N) : PyObject := PyTuple (map (fun d => PyLong (Z.of_N d)) s).

Definition getattr_dtype (o : PyObject) : option PyArray_Descr :=
  match o with
  | PyArray a => Some (a_dtype a)
  | PyNpScalar d => Some d
  | PyTensor t => Some (t_dtype t)
  | _ => None
  end.

Definition getattr_ndim (o : PyObject) : attr :=
  match o with
  | PyArray a => AttrVal (PyLong (Z.of_nat (List.length (a_shape a))))
  | PyNpScalar _ => AttrVal (PyLong 0)
  | PyTensor t =>
      match t_shape t with
      | Some s => AttrVal (PyLong (Z.of_nat (List.length s)))
      | None => AttrError "ValueError: unknown ndim"
      end
  | _ => AttrError "AttributeError: ndim"
  end.

Definition getattr__tuple_shape (o : PyObject) : attr :=
  match o with
  | PyTensor t =>
      match t_shape t with
      | Some s => AttrVal (shape_tuple s)
      | None => AttrVal PyNone
      end
  | _ => AttrError "AttributeError: _tuple_shape"
  end.

Definition getattr_device (o : PyObject) : attr :=
  match o with
  | PyTensor t => AttrVal (PyCompNode (t_device t))
  | _ => AttrError "AttributeError: device"
  end.

Definition getattr_shape (symbolic : bool) (o : PyObject) : attr :=
  match o with
  | PyArray a => AttrVal (shape_tuple (a_shape a))
  | PyNpScalar _ => AttrVal (PyTuple [])
  | PyTensor t =>
      match t_shape t with
      | None => AttrVal PyNone
      | Some [] => AttrVal (PyTuple [])
      | Some s =>
          if symbolic then
            AttrVal (PyTensor (mkTensor (t_symvar t) NPY_INT32 (t_device t)
                                 (Some [size s]) false (map Z.of_N s) (t_name t)))
          else AttrVal (shape_tuple s)
      end
  | _ => AttrError "AttributeError: shape"
  end.

Definition is_bool_dtype (args : PyObject) : bool :=
  match getattr_dtype args with
  | Some dtype => Ascii.eqb (kind dtype) "b"
  | None => false
  end.

Definition PySlice_Check (o : PyObject) : bool :=
  match o with
  | PySlice _ _ _ => true
  | _ => false
  end.

Definition is_None (o : PyObject) : bool :=
  match o with
  | PyNone => true
  | _ => false
  end.

Definition is_Ellipsis (o : PyObject) : bool :=
  match o with
  | PyEllipsis => true
  | _ => false
  end.

(** [PyArray_CheckAnyScalar]: Python scalars, numpy scalars, 0-d arrays. *)
Definition PyArray_CheckAnyScalar (o : PyObject) : bool :=
  match o with
  | PyBool _ | PyLong _ | PyFloat _ | PyStr _ | PyNpScalar _ => true
  | PyArray a => match a_shape a with [] => true | _ => false end
  | _ => false
  end.

Definition is_scalar (tensor : PyObject) : bool :=
  match tensor with
  | PyTensor t => t_scalar t
  | _ => PyArray_CheckAnyScalar tensor
  end.

Definition is_bool_list (arg : PyObject) : bool :=
  match arg with
  | PyList [] => false
  | PyList items =>
      forallb (fun handle => match handle with PyBool _ => true | _ => false end) items
  | _ => false
  end.

(** Structural equality of the objects that occur in shape tuples; used
    for [py::tuple::not_equal]. *)
Fixpoint py_eqb (a b : PyObject) : bool :=
  let fix all2 (l1 l2 : list PyObject) : bool :=
    match l1, l2 with
    | [], [] => true
    | x :: r1, y :: r2 => py_eqb x y && all2 r1 r2
    | _, _ => false
    end in
  match a, b with
  | PyNone, PyNone => true
  | PyLong x, PyLong y => Z.eqb x y
  | PyBool x, PyBool y => Bool.eqb x y
  | PyLong x, PyBool y | PyBool y, PyLong x => Z.eqb x (if y then 1 else 0)
  | PyTuple l1, PyTuple l2 => all2 l1 l2
  | PyList l1, PyList l2 => all2 l1 l2
  | _, _ => false
  end.

Fixpoint tuple_eqb (l1 l2 : list PyObject) : bool :=
  match l1, l2 with
  | [], [] => true
  | x :: r1, y :: r2 => py_eqb x y && tuple_eqb r1 r2
  | _, _ => false
  end.

(* ================================================================== *)
(** ** Shape materialisation *)

Definition prod_N (l : list N) : N := fold_right N.mul 1%N l.

(** [PyArray_ToList]: nested lists following the shape, a bare integer for
    a 0-d array.  Entries are read as integers. *)
Fixpoint ToList (shape : list N) (data : list Z) : PyObject :=
  match shape with
  | [] => PyLong (hd 0%Z data)
  | n :: rest =>
      let sz := N.to_nat (prod_N rest) in
      PyList (map (fun k => ToList rest (firstn sz (skipn (k * sz) data)))
                  (seq 0 (N.to_nat n)))
  end.

(** [getattr(val, "numpy")()] followed by [PyArray_ToList]. *)
Definition tensor_ToList (t : TensorData) : result PyObject :=
  match t_shape t with
  | Some s => Ok (ToList s (t_data t))
  | None => Raise (error_already_set "numpy(): value is not available")
  end.

(** The lambda [solve_one] of [_make_shape_tuple]; it returns what it
    appends to [ret].  The two C conversions are appended without a test:
    when one fails, -1 is appended and the error stays pending, which ends
    the run as [error_pending]. *)
Definition append_long (o : PyObject) : result (list PyObject) :=
  if PyLong_AsLong_fails o then Raise (error_pending "PyLong_AsLong")
  else Ok [PyLong (PyLong_AsLong o)].

Definition solve_one (val : PyObject) : result (list PyObject) :=
  match val with
  | PyTensor t =>
      rbind (tensor_ToList t) (fun maybe_list =>
        match maybe_list with
        | PyList may => Ok may
        | other =>
            if PyLong_Check other then append_long other
            else Raise (mgb_assert_failed "PyLong_Check(maybe_list)")
        end)
  | PyArray a =>
      if PyArray_PyIntAsInt_fails a then Raise (error_pending "PyArray_PyIntAsInt")
      else Ok [PyLong (PyArray_PyIntAsInt a)]
  | _ => append_long val
  end.

Definition solve_all (l : list PyObject) : result (list PyObject) :=
  rbind (rmap solve_one l) (fun parts => Ok (List.concat parts)).

Definition _make_shape_tuple (shape : PyObject) : result (list PyObject) :=
  match shape with
  | PyArray a =>
      if PyArray_CheckAnyScalar shape then solve_one shape
      else match ToList (a_shape a) (a_data a) with
           | PyList orig => solve_all orig
           | _ => Ok []
           end
  | PyList orig => solve_all orig
  | PyTuple tup => solve_all tup
  | _ => solve_one shape
  end.

(** [PySequence_Check]; a tensor handle answers yes, its class defines
    [__getitem__]. *)
Definition PySequence_Check (o : PyObject) : bool :=
  match o with
  | PyTuple _ | PyList _ | PyStr _ | PyArray _ | PyTensor _ => true
  | _ => false
  end.

Definition PyArray_Check (o : PyObject) : bool :=
  match o with
  | PyArray _ => true
  | _ => false
  end.

(** [catch (py::error_already_set&) { ; }] around a block. *)
Definition ignore_already_set (r : result unit) : result unit :=
  match r with
  | Raise (error_already_set _) => Ok tt
  | _ => r
  end.

(** A call made through the C API ([PyObject_CallObject], [PyObject_Call])
    whose result is stolen without a test: when the call fails, the null
    pointer goes on as the result and the error stays pending. *)
Definition unchecked {A} (call : string) (r : result A) : result A :=
  match r with
  | Ok a => Ok a
  | Raise _ => Raise (error_pending call)
  end.

(** Left-to-right loop with an early exit on a raise. *)
Fixpoint rfold {A S} (f : S -> A -> result S) (l : list A) (s : S) : result S :=
  match l with
  | [] => Ok s
  | a :: rest => rbind (f s a) (rfold f rest)
  end.

(** A list paired with the loop counter. *)
Definition enumerate {A} (l : list A) : list (N * A) :=
  combine (map N.of_nat (seq 0 (List.length l))) l.

(* ================================================================== *)
(** ** The embedded functions *)

Section Lowering.

Variable E : Engine.

Definition apply_op (op : OpDef) (args : list PyObject) : M (list PyObject) :=
  fun log => (py_apply E op args, log ++ [(op, args)]).

(** *** Promotion *)

Definition promote_types (types : list PyArray_Descr) (cat : N)
  : result PyArray_Descr :=
  let used_types :=
    filter (fun desc => N.eqb (category_priority (kind desc)) cat) types in
  match used_types with
  | [] => Raise (mgb_assert_failed "size of used_types is 0")
  | first :: rest =>
      Ok (fold_left (fun res ty => PyArray_PromoteTypes E ty res) rest first)
  end.

(** One turn of the operand loop of [_dtype_promotion]: the two vectors
    [tensors] and [scalars] grow at the back. *)
Definition promotion_step (acc : list PyArray_Descr * list PyArray_Descr)
           (handle : PyObject) : list PyArray_Descr * list PyArray_Descr :=
  let '(tensors, scalars) := acc in
  match handle with
  | PyNone => acc
  | _ =>
    match TensorWrapper_try_cast handle with
    | Some tw => (tensors ++ [t_dtype tw], scalars)
    | None =>
      match handle with
      | PyArray a => (tensors ++ [a_dtype a], scalars)
      | PyNpScalar d => (tensors ++ [d], scalars)
      | _ =>
        match isinstance_PySymbolVar handle with
        | Some var => (tensors ++ [t_dtype var], scalars)
        | None =>
          match scalar2dtype handle with
          | Some descr => (tensors, scalars ++ [descr])
          | None => acc
          end
        end
      end
    end
  end.

Definition _dtype_promotion (args : list PyObject) : result PyArray_Descr :=
  let '(tensors, scalars) := fold_left promotion_step (unroll_args args) ([], []) in
  let max_pri_scalars := max_priority scalars in
  let max_pri_tensors := max_priority tensors in
  if (max_pri_scalars <=? 0)%N && (max_pri_tensors <=? 0)%N then
    Raise (value_error "invalid input, no dtype avaliable")
  else if (max_pri_tensors <? max_pri_scalars)%N then
    promote_types scalars max_pri_scalars
  else
    promote_types tensors max_pri_tensors.

(** State of the scan in [_get_device]: [None] while [valid] is false. *)
Definition device_step (cur : option CompNode) (handle : PyObject)
  : result (option CompNode) :=
  match handle with
  | PyTensor t =>
      match cur with
      | None => Ok (Some (t_device t))
      | Some cn =>
          let cn1 := t_device t in
          if CompNode_eqb cn1 cn then Ok (Some cn)
          else Raise (value_error
                 ("ambiguous device: " +++ cn_physical cn +++ " (from " +++
                  cn_logical cn +++ ") vs " +++ cn_physical cn1 +++ " (from " +++
                  cn_logical cn1 +++ ")"))
      end
  | _ => Ok cur
  end.

Definition _get_device (args : list PyObject) : result CompNode :=
  rbind (rfold device_step (unroll_args args) None) (fun st =>
    match st with
    | None => Ok (default_comp_node E)
    | Some cn => Ok cn
    end).

(** The exported entry points reject an empty argument vector first. *)
Definition dtype_promotion (args : list PyObject) : result PyArray_Descr :=
  match args with
  | [] => Raise (type_error "empty input is not allowed")
  | _ => _dtype_promotion args
  end.

Definition get_device (args : list PyObject) : result CompNode :=
  match args with
  | [] => Raise (type_error "empty input is not allowed")
  | _ => _get_device args
  end.

(** *** Constants and index operands *)

(** [_Const].  The stride-0 branch only re-lays the array out (squeeze
    and reshape back), the value passed on is the same. *)
Definition _Const (value : PyObject) (dtype : PyArray_Descr)
           (device ref_hdl : PyObject) : result PyObject :=
  let ref := match ref_hdl with
             | PyTuple (r :: _) => r
             | PyTuple [] => PyNone
             | _ => ref_hdl
             end in
  match isinstance_PySymbolVar ref with
  | Some ref_var =>
      rbind (match device with
             | PyNone => Ok (t_device ref_var)
             | PyCompNode cn => Ok cn
             | _ => Raise cast_error
             end)
            (fun cn => ImmutableTensor_make E value dtype cn)
  | None =>
      rbind (match device with
             | PyNone => Ok (PyCompNode (default_comp_node E))
             | PyStr s => device_of_str E s
             | PyCompNode _ => Ok device
             | _ => Raise (error_already_set "AttributeError: _cn")
             end)
            (fun device_obj => TensorWrapper_make E value dtype device_obj)
  end.

Definition _get_index (tensor src : PyObject) : M PyObject :=
  tensor <- (if negb (is_tensor_or_symbolvar tensor) then
               device <- lift (attr_get (getattr_device src)) ;;
               lift (_Const tensor
                       (if is_bool_list tensor || is_bool_dtype tensor
                        then NPY_BOOL else NPY_INT32)
                       device src)
             else ret tensor) ;;
  if negb (is_bool_dtype tensor) then ret tensor
  else
    out <- apply_op CondTake [tensor; tensor] ;;
    lift (tuple_item out 1).

Definition getattr_shape' : PyObject -> attr :=
  getattr_shape (cpp_use_symbolic_shape E).

Definition _try_cond_take (tensor index : PyObject) : M (list PyObject) :=
  if negb (match getattr_dtype index with Some _ => true | None => false end)
     || negb (hasattr (getattr_shape' index))
  then ret []
  else if negb (is_bool_dtype index) then ret []
  else
    ishape <- lift (rbind (attr_get (getattr_shape' index)) _make_shape_tuple) ;;
    tshape <- lift (rbind (attr_get (getattr_shape' tensor)) _make_shape_tuple) ;;
    if negb (tuple_eqb ishape tshape) then ret []
    else
      iobj <- (if PyArray_Check index then
                 device <- lift (attr_get (getattr_device tensor)) ;;
                 lift (_Const index NPY_BOOL device tensor)
               else ret index) ;;
      apply_op CondTake [tensor; iobj].

(** *** Ellipsis removal *)

Definition full_slice : PyObject := PySlice PyNone PyNone PyNone.

(** First loop of [_remove_ellipsis]; the state is
    ([pos], [cur_sum], [has_unknown_ndim_bool_index]). *)
Definition ellipsis_scan_step (tuple_val : list PyObject)
           (st : Z * N * bool) (ih : N * PyObject) : result (Z * N * bool) :=
  let '(pos, cur_sum, has_unknown) := st in
  let '(i, handle) := ih in
  if is_Ellipsis handle then
    if existsb is_Ellipsis (firstn (N.to_nat i) tuple_val)
    then Raise (index_error "only one ellipsis is allowed.")
    else Ok (Z.of_N i, cur_sum, has_unknown)
  else
    match getattr_dtype handle, getattr_ndim handle with
    | Some _, AttrVal ndim =>
        if is_bool_dtype handle then
          if PyLong_Check ndim
          then Ok (pos, cur_sum + size_t_of_long (PyLong_AsLong ndim), has_unknown)%N
          else Ok (pos, cur_sum + 1, true)%N
        else Ok (pos, cur_sum + 1, has_unknown)%N
    | _, _ => Ok (pos, cur_sum + 1, has_unknown)%N
    end.

Definition _remove_ellipsis (tensor : PyObject) (tuple_val : list PyObject)
  : result (list PyObject) :=
  let tuple_size := size tuple_val in
  rbind (rfold (ellipsis_scan_step tuple_val) (enumerate tuple_val) ((-1)%Z, 0%N, false))
    (fun '(pos, cur_sum, has_unknown_ndim_bool_index) =>
      if (pos =? -1)%Z then Ok tuple_val
      else if has_unknown_ndim_bool_index then
        Raise (index_error
          "does not support bool index with unknown shape when using Ellipsis.")
      else
        rbind (match getattr_ndim tensor with
               | AttrVal v => cast_size_t v
               | AttrError _ =>
                   Raise (index_error
                     "does not support Ellipsis when tensor's ndim is unknown.")
               end)
          (fun ndim_sum =>
            let allocated :=
              (Z.of_N ndim_sum - Z.of_N cur_sum + Z.of_N tuple_size - 1)%Z in
            let filled :=
              flat_map (fun '(i, handle) =>
                          if (Z.of_N i =? pos)%Z
                          then map (fun _ => full_slice) (range cur_sum ndim_sum)
                          else [handle])
                       (enumerate tuple_val) in
            if (allocated <? 0)%Z then
              Raise (runtime_error "Could not allocate tuple object!")
            else if (allocated <? Z.of_N (size filled))%Z then
              Raise (error_already_set "IndexError: tuple assignment index out of range")
            else Ok filled)).

(** *** Boolean masks of rank above one *)

Definition py_getitem (o : PyObject) (j : N) : result PyObject :=
  match o with
  | PyTuple l | PyList l => tuple_item l j
  | PyTensor t => tensor_getitem E t (Z.of_N j)
  | _ => Raise (error_already_set "TypeError: object is not subscriptable")
  end.

(** The comparison loop over the dimensions of one mask. *)
Definition check_bool_dim (cur_shape ishape : list PyObject) (tdim offset : N)
           (_ : unit) (j : N) : result unit :=
  let at_ := (tdim + j - offset)%N in
  rbind (rbind (tuple_item cur_shape at_) cast_size_t) (fun c =>
  rbind (rbind (tuple_item ishape j) cast_size_t) (fun m =>
    if negb (c =? m)%N then
      Raise (index_error
        ("boolean index did not match tensor along dimension " +++
         to_string_N (tdim + j) +++ "; dimension is " +++
         to_string_N c +++ " but corresponding boolean dimension is " +++
         to_string_N m))
    else Ok tt)).

(** Loop state of [_expand_bool_dim]:
    ([tensor], [cur_shape], [offset], [tdim], [new_tuple_val]). *)
Definition expand_state : Type :=
  (PyObject * list PyObject * N * N * list PyObject)%type.

Definition expand_step (st : expand_state) (ik : N * PyObject) : result expand_state :=
  let '(tensor, cur_shape, offset, tdim, new_tuple_val) := st in
  let '(i, k) := ik in
  if is_bool_dtype k then
    rbind (rbind (attr_get (getattr_ndim k)) cast_size_t) (fun ndim =>
      if (1 <? ndim)%N then
        rbind (rbind (attr_get (getattr_shape' k)) _make_shape_tuple) (fun ishape =>
        rbind (rfold (check_bool_dim cur_shape ishape tdim offset) (range 0 ndim) tt)
          (fun _ =>
        rbind (call_reshape E k (PyLong (-1))) (fun new_k =>
        rbind (attr_get (getattr_shape' new_k)) (fun kshape =>
        let from_ := (tdim + ndim - offset)%N in
        rbind (rmap (tuple_item cur_shape) (range from_ (size cur_shape))) (fun post =>
          if cpp_use_symbolic_shape E then
            rbind (attr_get (getattr_shape' tensor)) (fun tshape =>
            rbind (rmap (py_getitem tshape) (range 0 i)) (fun pre =>
            rbind (py_getitem kshape 0) (fun k0 =>
            let new_shape := pre ++ [k0] ++ post in
            rbind (unchecked "PyObject_CallObject"
                     (cpp_astensor1d E (PyList new_shape) None)) (fun shape_tensor =>
            rbind (unchecked "PyObject_CallObject"
                     (call_reshape E tensor shape_tensor)) (fun new_tensor =>
            rbind (_make_shape_tuple shape_tensor) (fun cur_shape' =>
              Ok (new_tensor, cur_shape', offset + 1, tdim + ndim,
                  new_tuple_val ++ [k])%N))))))
          else
            rbind (rmap (tuple_item cur_shape) (range 0 i)) (fun pre =>
            rbind (match kshape with
                   | PyTuple l => tuple_item l 0
                   | _ => Raise (error_already_set "SystemError: bad internal call")
                   end) (fun k0 =>
            let new_shape := pre ++ [k0] ++ post in
            rbind (call_reshape E tensor (PyTuple new_shape)) (fun new_tensor =>
              Ok (new_tensor, new_shape, offset + 1, tdim + ndim,
                  new_tuple_val ++ [k])%N))))))))
      else Ok (tensor, cur_shape, offset, tdim, new_tuple_val ++ [k]))
  else Ok (tensor, cur_shape, offset, tdim + 1, new_tuple_val ++ [k])%N.

Definition _expand_bool_dim (tensor : PyObject) (tuple_val : list PyObject)
  : result (PyObject * list PyObject) :=
  rbind (rbind (attr_get (getattr_shape' tensor)) _make_shape_tuple) (fun cur_shape =>
  rbind (rfold expand_step (enumerate tuple_val) (tensor, cur_shape, 0%N, 0%N, []))
    (fun '(tensor', _, _, _, new_tuple_val) => Ok (tensor', new_tuple_val))).

(** *** Index unpacking *)

(** First loop of [_unpack_indexes]; the state is
    ([need_remove_ellipsis], [need_expand_bool_dim], [idx_ndim]). *)
Definition count_step (st : bool * bool * N) (k : PyObject) : result (bool * bool * N) :=
  let '(need_remove_ellipsis, need_expand_bool_dim, idx_ndim) := st in
  match k with
  | PyNone => Raise (index_error "newaxis is not allowed here")
  | PyEllipsis => Ok (true, need_expand_bool_dim, idx_ndim)
  | _ =>
      if is_bool_dtype k && hasattr (getattr_ndim k) then
        rbind (rbind (attr_get (getattr_ndim k)) cast_size_t) (fun ndim =>
          Ok (need_remove_ellipsis,
              if (1 <? ndim)%N then true else need_expand_bool_dim,
              idx_ndim + ndim)%N)
      else Ok (need_remove_ellipsis, need_expand_bool_dim, idx_ndim + 1)%N
  end.

(** The guarded rank test between the two loops. *)
Definition rank_check (inp : PyObject) (idx_ndim : N) : result unit :=
  match getattr_ndim inp with
  | AttrError _ => Ok tt
  | AttrVal v =>
      rbind (cast_size_t v) (fun inp_ndim =>
        if (inp_ndim <? idx_ndim)%N then
          Raise (index_error
            ("too many indices for tensor: tensor is " +++ to_string_N inp_ndim +++
             "-dimensional, but " +++ to_string_N idx_ndim +++ " were indexed"))
        else Ok tt)
  end.

(** The lambda [push] of the second loop: the flag it appends to the
    item and the operand it appends to [tensors], if any. *)
Definition push (inp v : PyObject) : M (bool * list PyObject) :=
  if is_None v then ret (false, [])
  else
    t <- _get_index v inp ;;
    ret (true, [t]).

(** Second loop of [_unpack_indexes]; [cur_axis] is its value before the
    turn, the accumulator is ([tensors], [items], [use_subtensor]). *)
Fixpoint build_items (inp : PyObject) (tuple_val : list PyObject) (cur_axis : Z)
         (acc : list PyObject * list index_item * bool)
  : M (list PyObject * list index_item * bool) :=
  match tuple_val with
  | [] => ret acc
  | handle :: rest =>
      let '(tensors, items, use_subtensor) := acc in
      let cur_axis := (cur_axis + 1)%Z in
      let use_subtensor :=
        if negb (is_scalar handle) && negb (PySlice_Check handle)
        then false else use_subtensor in
      match handle with
      | PySlice start stop step =>
          if is_None start && is_None stop && is_None step then
            build_items inp rest cur_axis (tensors, items, use_subtensor)
          else
            ' (b1, t1) <- push inp start ;;
            ' (b2, t2) <- push inp stop ;;
            ' (b3, t3) <- push inp step ;;
            build_items inp rest cur_axis
              (tensors ++ t1 ++ t2 ++ t3,
               items ++ [(cur_axis, b1, b2, b3, false)], use_subtensor)
      | _ =>
          ' (b4, t4) <- push inp handle ;;
          build_items inp rest cur_axis
            (tensors ++ t4, items ++ [(cur_axis, false, false, false, b4)],
             use_subtensor)
      end
  end.

Definition as_index_tuple (idx : PyObject) : list PyObject :=
  match idx with
  | PyTuple items => items
  | _ => [idx]
  end.

(** The five components of the tuple [_unpack_indexes] returns. *)
Record unpacked : Type := mkUnpacked {
  up_inp : PyObject;
  up_tensors : list PyObject;
  up_items : list index_item;
  up_use_subtensor : bool;
  up_need_expand_bool_dim : bool
}.

Definition _unpack_indexes (inp idx : PyObject) : M unpacked :=
  let tuple_val := as_index_tuple idx in
  ' (need_remove_ellipsis, need_expand_bool_dim, idx_ndim) <-
      lift (rfold count_step tuple_val (false, false, 0%N)) ;;
  _ <- lift (rank_check inp idx_ndim) ;;
  tuple_val <- lift (if need_remove_ellipsis
                     then _remove_ellipsis inp tuple_val else Ok tuple_val) ;;
  ' (inp, tuple_val) <-
      lift (if need_expand_bool_dim then
              rbind (attr_get (getattr_shape' inp)) (fun shape =>
                if negb (is_None shape) then _expand_bool_dim inp tuple_val
                else Ok (inp, tuple_val))
            else Ok (inp, tuple_val)) ;;
  ' (tensors, items, use_subtensor) <-
      build_items inp tuple_val (-1) ([], [], true) ;;
  ret (mkUnpacked inp tensors items use_subtensor need_expand_bool_dim).

(** *** get and set *)

(** [item[0].cast<int8_t>()] when the items are copied to [cpp_items]. *)
Definition cast_item (item : index_item) : result index_item :=
  let '(axis, _, _, _, _) := item in
  if in_int8 axis then Ok item else Raise cast_error.

(** [_getitem_cpp] after the conditional-take shortcut. *)
Definition getitem_lowering (inp_hdl idx_hdl : PyObject) : M PyObject :=
  up <- _unpack_indexes inp_hdl idx_hdl ;;
  cpp_items <- lift (rmap cast_item (up_items up)) ;;
  let op := if up_use_subtensor up then Subtensor cpp_items
            else IndexingMultiAxisVec cpp_items in
  out <- apply_op op (up_inp up :: up_tensors up) ;;
  lift (tuple_item out 0).

Definition _getitem_cpp (inp_hdl idx_hdl : PyObject) : M PyObject :=
  try_res <- _try_cond_take inp_hdl idx_hdl ;;
  if (size try_res =? 2)%N then lift (tuple_item try_res 0)
  else getitem_lowering inp_hdl idx_hdl.

(** The two string loops in the shape test of [_setitem_cpp]: the
    separator is appended after every entry but the first. *)
Definition shape_text_step (acc : string) (jd : N * PyObject) : result string :=
  let '(j, d) := jd in
  rbind (cast_size_t d) (fun n =>
    let acc := acc +++ to_string_N n in
    Ok (if (j =? 0)%N then acc else acc +++ ",")).

Definition shape_text (shape : list PyObject) : result string :=
  rfold shape_text_step (enumerate shape) "".

(** One turn of the trailing-dimension loop. *)
Definition broadcast_check_dim (value_shape tmp_result_shape : list PyObject)
           (_ : unit) (i : N) : result unit :=
  rbind (rbind (tuple_item value_shape (size value_shape - i - 1)) cast_size_t) (fun vs =>
  rbind (rbind (tuple_item tmp_result_shape (size tmp_result_shape - i - 1)) cast_size_t)
    (fun ts =>
      if negb (vs =? 1)%N && negb (vs =? ts)%N then
        rbind (shape_text tmp_result_shape) (fun lhs =>
        rbind (shape_text value_shape) (fun rhs =>
          Raise (value_error
            ("cannot copy tensor with shape (" +++ rhs +++
             ") to subtensor with shape (" +++ lhs +++ ")"))))
      else Ok tt)).

(** The body of the [try] block.  Both shapes are borrowed as tuples
    without a test, and [size()] of one that is no tuple ([None]) is
    [PyTuple_Size] failing: it returns -1, read as the largest [size_t],
    and sets the error indicator.  The loop test reads the size of the
    value first and the size of the region only when the first is above
    [i].  So an empty value shape ends the block at once; a value without
    shape on a region of rank 0 leaves the loop empty and the error of
    [PyTuple_Size] pending; in the other cases the loop is entered and the
    first access to the object that is no tuple raises inside the block. *)
Definition broadcast_check (val tmp_result : PyObject) : result unit :=
  rbind (attr_get (getattr__tuple_shape val)) (fun value_tuple_shape =>
  rbind (attr_get (getattr__tuple_shape tmp_result)) (fun tmp_result_tuple_shape =>
    match value_tuple_shape, tmp_result_tuple_shape with
    | PyTuple value_shape, PyTuple tmp_result_shape =>
        rfold (broadcast_check_dim value_shape tmp_result_shape)
              (range 0 (N.min (size value_shape) (size tmp_result_shape))) tt
    | PyTuple value_shape, _ =>
        if (size value_shape =? 0)%N then Ok tt
        else Raise (error_already_set "SystemError: bad internal call")
    | _, PyTuple tmp_result_shape =>
        if (size tmp_result_shape =? 0)%N then Raise (error_pending "PyTuple_Size")
        else Raise (error_already_set "SystemError: bad internal call")
    | _, _ => Raise (error_already_set "SystemError: bad internal call")
    end)).

(** The value operand of [_setitem_cpp], made a tensor when it is not one. *)
Definition setitem_value (inp_hdl val_hdl : PyObject) : result PyObject :=
  if negb (is_tensor_or_symbolvar val_hdl) then
    match getattr_dtype inp_hdl with
    | None => Raise (error_already_set "AttributeError: dtype")
    | Some dtype =>
        rbind (attr_get (getattr_device inp_hdl)) (fun device =>
          _Const val_hdl dtype device inp_hdl)
    end
  else Ok val_hdl.

(** [_setitem_cpp].  The outcome of [_broadcast] is stolen without a
    test and handed to the assignment operator.  The outcome of the last
    [reshape] is returned as it is, so a failure there is the failure of
    the call. *)
Definition _setitem_cpp (inp_hdl idx_hdl val_hdl : PyObject) : M PyObject :=
  org_shape <- lift (attr_get (getattr_shape' inp_hdl)) ;;
  val <- lift (setitem_value inp_hdl val_hdl) ;;
  up <- _unpack_indexes inp_hdl idx_hdl ;;
  cpp_items <- lift (rmap cast_item (up_items up)) ;;
  let op := if up_use_subtensor up then Subtensor cpp_items
            else IndexingMultiAxisVec cpp_items in
  out <- apply_op op (up_inp up :: up_tensors up) ;;
  tmp_result <- lift (tuple_item out 0) ;;
  _ <- lift (ignore_already_set (broadcast_check val tmp_result)) ;;
  _ <- lift (if is_tensor_or_symbolvar val then Ok tt
             else Raise (error_already_set "AttributeError: _broadcast")) ;;
  shape <- lift (attr_get (getattr_shape' tmp_result)) ;;
  val <- lift (unchecked "PyObject_CallObject" (call_broadcast E val shape)) ;;
  let set_op := if up_use_subtensor up then SetSubtensor cpp_items
                else IndexingSetMultiAxisVec cpp_items in
  result <- apply_op set_op (up_inp up :: val :: up_tensors up) ;;
  res <- lift (tuple_item result 0) ;;
  if up_need_expand_bool_dim up then lift (call_reshape E res org_shape)
  else ret res.

(** *** reshape *)

Definition _expand_args (args : PyObject) : PyObject :=
  match args with
  | PyTuple args_tup =>
      match args_tup with
      | [a0] =>
          if PySequence_Check a0 || is_tensor_or_symbolvar a0 then a0
          else PyList args_tup
      | _ => PyList args_tup
      end
  | _ => args
  end.

Fixpoint tuple2vector_loop (tup : list PyObject) (shp : list Z)
  : result (list Z * bool) :=
  match tup with
  | [] => Ok (shp, true)
  | o :: rest =>
      if negb (PyLong_Check o) then Ok (shp, false)
      else rbind (cast_int32 o) (fun v => tuple2vector_loop rest (shp ++ [v]))
  end.

Definition tuple2vector (shape : PyObject) : result (list Z * bool) :=
  match shape with
  | PyTuple tup => tuple2vector_loop tup []
  | _ => Ok ([], false)
  end.

Definition enable_fastpath (inp : PyObject) : bool :=
  match TensorWrapper_try_cast inp with
  | None => false
  | Some _ => negb (tracing E)
  end.

Definition py_lt_zero (obj : PyObject) : result bool :=
  match obj with
  | PyLong z => Ok (z <? 0)%Z
  | PyBool _ => Ok false
  | _ => object_lt_zero E obj
  end.

Definition py_ne_minus_one (obj : PyObject) : result bool :=
  match obj with
  | PyLong z => Ok (negb (z =? -1)%Z)
  | PyBool _ => Ok true
  | _ => object_ne_minus_one E obj
  end.

Definition py_repr (obj : PyObject) : string :=
  match obj with
  | PyLong z => to_string_Z z
  | PyBool b => if b then "True" else "False"
  | _ => object_repr E obj
  end.

(** One turn of the validation loop of [_reshape_cpp] over the shape
    tuple; the state is [unspec_axis]. *)
Definition unspec_step (unspec_axis : Z) (io : N * PyObject) : result Z :=
  let '(i, obj) := io in
  rbind (py_lt_zero obj) (fun negative =>
    if negative then
      rbind (py_ne_minus_one obj) (fun other =>
        if other then
          Raise (value_error
            ("expect shape [" +++ to_string_N i +++ "] >= -1, got " +++ py_repr obj))
        else if (0 <=? unspec_axis)%Z then
          Raise (value_error
            ("multiple -1 in shape: " +++ to_string_Z unspec_axis +++ " & " +++
             to_string_N i))
        else Ok (wrap_int32 (Z.of_N i)))
    else Ok unspec_axis).

Definition reshape_unspec_axis (shape_tuple : PyObject) : result Z :=
  match shape_tuple with
  | PyTuple tup => rfold unspec_step (enumerate tup) (-1)%Z
  | _ => Ok (-1)%Z
  end.

(** [_reshape_cpp] from the construction of the operator on. *)
Definition reshape_lowering (inp_hdl shape_hdl shape_tuple : PyObject)
           (unspec_axis : Z) : M PyObject :=
  ' (shape, fastpath) <- lift (tuple2vector shape_tuple) ;;
  let fastpath := fastpath && enable_fastpath inp_hdl in
  let axis := if (0 <=? unspec_axis)%Z then unspec_axis else INVALID_AXIS E in
  ' (op, p) <-
      (if fastpath then ret (Reshape axis shape, [inp_hdl])
       else
         _ <- lift (attr_get (getattr_device inp_hdl)) ;;
         shape_tensor <- lift (unchecked "PyObject_Call"
                                 (cpp_astensor1d E shape_hdl (Some inp_hdl))) ;;
         ret (Reshape axis [], [inp_hdl; shape_tensor])) ;;
  out <- apply_op op p ;;
  lift (tuple_item out 0).

Definition _reshape_cpp (inp_hdl args : PyObject) : M PyObject :=
  let shape_hdl := _expand_args args in
  shape_tuple <- lift (match _make_shape_tuple shape_hdl with
                       | Ok l => Ok (PyTuple l)
                       | Raise (error_already_set _) => Ok shape_hdl
                       | Raise e => Raise e
                       end) ;;
  unspec_axis <- lift (reshape_unspec_axis shape_tuple) ;;
  reshape_lowering inp_hdl shape_hdl shape_tuple unspec_axis.

End Lowering.

Arguments mkUnpacked inp tensors items use_subtensor need_expand_bool_dim : rename.

(* ================================================================== *)
(** ** A small engine for running the lowering on concrete inputs

    It promotes within a category to the larger type number, builds
    tensors eagerly on the device it is given, and answers every
    selection and assignment operator with its first input; reshape and
    broadcast replace the shape of the handle. *)

Module Demo.

Definition cpu0 : CompNode := mkCompNode "cpu0:0" "cpux".
Definition gpu0 : CompNode := mkCompNode "gpu0:0" "gpux".

Definition NPY_FLOAT64 : PyArray_Descr := mkDescr "f" 12.

Definition promote (a b : PyArray_Descr) : PyArray_Descr :=
  if (type_num a <? type_num b)%N then b else a.

Definition value_shape (value : PyObject) : list N :=
  match value with
  | PyArray a => a_shape a
  | PyList items | PyTuple items => [size items]
  | _ => []
  end.

Definition value_data (value : PyObject) : list Z :=
  match value with
  | PyArray a => a_data a
  | PyList items | PyTuple items => map PyLong_AsLong items
  | _ => [PyLong_AsLong value]
  end.

Definition make_tensor (symvar : bool) (value : PyObject) (dtype : PyArray_Descr)
           (cn : CompNode) : result PyObject :=
  Ok (PyTensor (mkTensor symvar dtype cn (Some (value_shape value))
                  (match value_shape value with [] => true | _ => false end)
                  (value_data value) 0)).

Definition with_shape (o : PyObject) (s : list N) : result PyObject :=
  match o with
  | PyTensor t =>
      Ok (PyTensor (mkTensor (t_symvar t) (t_dtype t) (t_device t) (Some s)
                      false (t_data t) (t_name t)))
  | PyArray a => Ok (PyArray (mkNdArray (a_dtype a) s (a_data a)))
  | _ => Raise (error_already_set "AttributeError: reshape")
  end.

Definition current_shape (o : PyObject) : list N :=
  match o with
  | PyTensor t => match t_shape t with Some s => s | None => [] end
  | PyArray a => a_shape a
  | _ => []
  end.

(** The target shape an argument of [reshape] or [_broadcast] denotes;
    a lone -1 flattens. *)
Definition target_shape (o arg : PyObject) : list N :=
  match arg with
  | PyLong z => if (z =? -1)%Z then [prod_N (current_shape o)] else [Z.to_N z]
  | PyTuple items | PyList items => map (fun d => Z.to_N (PyLong_AsLong d)) items
  | PyTensor t => map Z.to_N (t_data t)
  | _ => current_shape o
  end.

Definition reshape (o arg : PyObject) : result PyObject :=
  with_shape o (target_shape o arg).

(** A static target shape with its -1 entry filled in from the number
    of elements. *)
Definition infer_shape (cur : list N) (shape : list Z) : list N :=
  let known := prod_N (map (fun z => if (z =? -1)%Z then 1%N else Z.to_N z) shape) in
  map (fun z => if (z =? -1)%Z then (prod_N cur / known)%N else Z.to_N z) shape.

Definition astensor1d (x : PyObject) (ref : option PyObject) : result PyObject :=
  Ok (PyTensor (mkTensor false NPY_INT32 cpu0 (Some (value_shape x)) false
                  (value_data x) 0)).

Definition apply (op : OpDef) (args : list PyObject) : result (list PyObject) :=
  match op, args with
  | CondTake, inp :: _ =>
      Ok [PyTensor (mkTensor false NPY_FLOAT32 cpu0 None false [] 1);
          PyTensor (mkTensor false NPY_INT32 cpu0 None false [] 2)]
  | Reshape _ (d :: shape), inp :: _ =>
      rbind (with_shape inp (infer_shape (current_shape inp) (d :: shape)))
            (fun r => Ok [r])
  | Reshape _ [], [inp; shape_tensor] =>
      rbind (reshape inp shape_tensor) (fun r => Ok [r])
  | _, inp :: _ => Ok [inp]
  | _, [] => Raise (mgb_assert_failed "operator without input")
  end.

Definition engine : Engine :=
  {| PyArray_PromoteTypes := promote;
     default_comp_node := cpu0;
     py_apply := apply;
     TensorWrapper_make := fun value dtype device =>
       match device with
       | PyCompNode cn => make_tensor false value dtype cn
       | _ => Raise cast_error
       end;
     ImmutableTensor_make := make_tensor true;
     device_of_str := fun s => Ok (PyCompNode (mkCompNode s s));
     call_reshape := reshape;
     call_broadcast := reshape;
     cpp_astensor1d := astensor1d;
     tensor_getitem := fun t j => Ok (PyLong (nth (Z.to_nat j) (t_data t) 0%Z));
     cpp_use_symbolic_shape := false;
     tracing := false;
     INVALID_AXIS := 7%Z;
     object_lt_zero := fun _ => Raise (error_already_set "TypeError: '<' not supported");
     object_ne_minus_one := fun _ => Ok true;
     object_repr := fun _ => "<object>" |}.

(** A float32 tensor of the given shape on [cpu0]. *)
Definition tensor (name : N) (shape : list N) : PyObject :=
  PyTensor (mkTensor false NPY_FLOAT32 cpu0 (Some shape)
              (match shape with [] => true | _ => false end) [] name).

(** A boolean tensor of the given shape on [cpu0]. *)
Definition mask (name : N) (shape : list N) : PyObject :=
  PyTensor (mkTensor false NPY_BOOL cpu0 (Some shape) false [] name).

(** A tensor of the given dtype, rank 1. *)
Definition typed (d : PyArray_Descr) (cn : CompNode) : PyObject :=
  PyTensor (mkTensor false d cn (Some [2%N]) false [] 0).

End Demo.

(* ================================================================== *)
(** ** Axis and shape operators

    [split], [expand_dims], [squeeze], [transpose] and [broadcast]
    normalise their arguments, build one operator and apply it. *)

Inductive AxisOp : Type :=
| Split (axis : Z) (nsections : Z)
| AddAxis (axis : list Z)
| RemoveAxis (axis : list Z)
| Dimshuffle (pattern : list Z)
| Broadcast (shape : list Z).

(** What these functions call but do not define. *)
Record AxisEngine : Type := mkAxisEngine {
  (** outcome of [py_apply] on one of the operators above *)
  py_apply_axis : AxisOp -> list PyObject -> result (list PyObject);
  (** [__int__] of an object that is no Python integer *)
  object_int : PyObject -> result PyObject;
  (** conversion to a C [int] of an array, a numpy scalar or a handle *)
  object_as_int : PyObject -> result Z;
  (** [PySequence_List] on a sequence that is no tuple, list or string *)
  object_list : PyObject -> result (list PyObject);
  (** [obj[key]] and [obj.__len__()] outside tuples *)
  object_getitem : PyObject -> PyObject -> result PyObject;
  object_len : PyObject -> result PyObject;
  (** [>] and [-] when an operand is no Python integer *)
  object_gt : PyObject -> PyObject -> result bool;
  object_sub : PyObject -> PyObject -> result PyObject;
  (** the Python method [to] of a handle *)
  call_to : PyObject -> PyObject -> result PyObject
}.

(** [std::sort] on a vector of integers: the ascending arrangement. *)
Fixpoint insert_sorted (a : Z) (l : list Z) : list Z :=
  match l with
  | [] => [a]
  | b :: rest => if (a <=? b)%Z then a :: l else b :: insert_sorted a rest
  end.

Definition std_sort (l : list Z) : list Z := fold_right insert_sorted [] l.

(** The range of [Py_ssize_t]. *)
Definition in_ssize_t (z : Z) : bool := (- 2 ^ 63 <=? z)%Z && (z <? 2 ^ 63)%Z.

(** The value of a Python integer. *)
Definition int_value (o : PyObject) : option Z :=
  match o with
  | PyLong z => Some z
  | PyBool b => Some (if b then 1 else 0)%Z
  | _ => None
  end.

Definition is_py_sequence (arg : PyObject) : bool :=
  if PyArray_Check arg
     || match TensorWrapper_try_cast arg with Some _ => true | None => false end
     || match isinstance_PySymbolVar arg with Some _ => true | None => false end
  then false
  else PySequence_Check arg.

(** The shape a handle has now: [m_tensor->shape()] of a tensor,
    [infer_shape_fallible] of a symbolic variable; [None] when it is not
    known.  Anything else fails the cast to [PySymbolVar*]. *)
Definition static_shape (inp_hdl : PyObject) : result (option (list N)) :=
  match TensorWrapper_try_cast inp_hdl with
  | Some p => Ok (t_shape p)
  | None =>
      match isinstance_PySymbolVar inp_hdl with
      | Some var => Ok (t_shape var)
      | None => Raise cast_error
      end
  end.

(** [axis[i] += static_cast<int32_t>(ndim)] on the negative entries. *)
Definition add_ndim (ndim : N) (a : Z) : Z :=
  if (a <? 0)%Z then wrap_int32 (a + wrap_int32 (Z.of_N ndim)) else a.

(** [axis[i] -= static_cast<int32_t>(i)] on every entry. *)
Definition sub_position (axis : list Z) : list Z :=
  map (fun ia : N * Z => let '(i, a) := ia in wrap_int32 (a - wrap_int32 (Z.of_N i)))
      (enumerate axis).

(** The positions of the dimensions of size one, pushed as [int32_t]. *)
Definition ones_positions (s : list N) : list Z :=
  flat_map (fun id : N * N => let '(i, d) := id in
              if (d =? 1)%N then [wrap_int32 (Z.of_N i)] else [])
           (enumerate s).

(** [fast_ndim].  On a tensor the shape pointer is dereferenced without
    a test; [None] stands for that read through a null pointer, whose
    outcome the language leaves open. *)
Definition fast_ndim (tensor : PyObject) : option (result N) :=
  match TensorWrapper_try_cast tensor with
  | Some p =>
      match t_shape p with
      | Some s => Some (Ok (size s))
      | None => None
      end
  | None => Some (rbind (attr_get (getattr_ndim tensor)) cast_size_t)
  end.

(** One turn of the pattern loop of [_transpose_cpp]. *)
Definition pattern_step (pattern : list Z) (o : PyObject) : result (list Z) :=
  if PyLong_Check o then rbind (cast_int32 o) (fun v => Ok (pattern ++ [v]))
  else
    match o with
    | PyStr s => Ok (if String.eqb s "x" then pattern ++ [(-1)%Z] else pattern)
    | _ => Raise cast_error
    end.

Section AxisLowering.

Variable E : Engine.
Variable X : AxisEngine.

(** [PySequence_List]. *)
Definition PySequence_List (o : PyObject) : result (list PyObject) :=
  match o with
  | PyTuple items | PyList items => Ok items
  | PyStr s => Ok (map (fun c => PyStr (String c EmptyString)) (list_ascii_of_string s))
  | _ => object_list X o
  end.

(** [obj.attr("__int__")()]. *)
Definition py_int (o : PyObject) : result PyObject :=
  match o with
  | PyLong z => Ok (PyLong z)
  | PyBool b => Ok (PyLong (if b then 1 else 0))
  | PyFloat _ | PyArray _ | PyNpScalar _ | PyTensor _ => object_int X o
  | _ => Raise (error_already_set "AttributeError: __int__")
  end.

(** [obj.cast<int>()] on an object as it was passed in. *)
Definition cast_int (o : PyObject) : result Z :=
  match o with
  | PyLong _ | PyBool _ => cast_int32 o
  | PyArray _ | PyNpScalar _ | PyTensor _ => object_as_int X o
  | _ => Raise cast_error
  end.

(** [obj[key]]; on a tuple a Python integer counts from the end when it
    is negative. *)
Definition py_subscript (o key : PyObject) : result PyObject :=
  match o with
  | PyTuple items =>
      match int_value key with
      | Some z =>
          if negb (in_ssize_t z) then
            Raise (error_already_set
                     "IndexError: cannot fit 'int' into an index-sized integer")
          else
            let n := Z.of_nat (List.length items) in
            let i := if (z <? 0)%Z then (z + n)%Z else z in
            if (0 <=? i)%Z && (i <? n)%Z then tuple_item items (Z.to_N i)
            else Raise (error_already_set "IndexError: tuple index out of range")
      | None => object_getitem X o key
      end
  | PyNone =>
      Raise (error_already_set "TypeError: 'NoneType' object is not subscriptable")
  | _ => object_getitem X o key
  end.

(** [obj.attr("__len__")()]. *)
Definition py_len (o : PyObject) : result PyObject :=
  match o with
  | PyTuple items | PyList items => Ok (PyLong (Z.of_nat (List.length items)))
  | PyNone => Raise (error_already_set "AttributeError: __len__")
  | _ => object_len X o
  end.

(** [a > b] and [a - b] on Python objects. *)
Definition py_gt (a b : PyObject) : result bool :=
  match int_value a, int_value b with
  | Some x, Some y => Ok (y <? x)%Z
  | _, _ => object_gt X a b
  end.

Definition py_sub (a b : PyObject) : result PyObject :=
  match int_value a, int_value b with
  | Some x, Some y => Ok (PyLong (x - y))
  | _, _ => object_sub X a b
  end.

(** *** split *)

(** The loop over the division points, [prev] being the point before
    the first of [points]. *)
Fixpoint split_partitions (inp_hdl nsplits : PyObject) (prev : PyObject)
         (points : list PyObject) : result (list PyObject) :=
  match points with
  | [] => Ok []
  | cur :: rest =>
      rbind (py_gt prev cur) (fun decreasing =>
        if decreasing then
          Raise (value_error ("Invalid nsplits_or_secions: " +++ py_repr E nsplits))
        else
          rbind (py_sub cur prev) (fun pos =>
          rbind (if is_tensor_or_symbolvar pos then Ok pos
                 else rbind (attr_get (getattr_device inp_hdl)) (fun device =>
                        _Const E pos NPY_INT32 device inp_hdl)) (fun part =>
          rbind (split_partitions inp_hdl nsplits cur rest) (fun parts =>
            Ok (part :: parts)))))
  end.

Definition _split_cpp (inp_hdl nsplits_or_sections_hdl axis_hdl : PyObject)
  : result PyObject :=
  rbind (attr_get (getattr_shape' E inp_hdl)) (fun shape_obj =>
  rbind (py_subscript shape_obj axis_hdl) (fun n_total =>
  rbind (rbind (py_len shape_obj) cast_int32) (fun ndim =>
  rbind (cast_int axis_hdl) (fun axis =>
    if (ndim <=? axis)%Z then
      Raise (value_error ("Invalid axis " +++ to_string_Z axis))
    else if is_py_sequence nsplits_or_sections_hdl then
      rbind (PySequence_List nsplits_or_sections_hdl) (fun sections =>
      rbind (split_partitions inp_hdl nsplits_or_sections_hdl (PyLong 0)
               (sections ++ [n_total])) (fun partitions =>
      rbind (py_apply_axis X (Split axis 0) (inp_hdl :: partitions)) (fun out =>
        Ok (PyTuple out))))
    else
      rbind (rbind (py_int nsplits_or_sections_hdl) cast_int32) (fun n_sections =>
        if (n_sections <=? 0)%Z then
          Raise (value_error "Number sections must be larger than 0")
        else
          rbind (py_gt (PyLong n_sections) n_total) (fun too_many =>
            if too_many then
              Raise (value_error
                ("The size " +++ py_repr E n_total +++ " at dim " +++
                 to_string_Z axis +++ " cannot be split into " +++
                 to_string_Z n_sections +++ " sections"))
            else
              rbind (py_apply_axis X (Split axis n_sections) [inp_hdl]) (fun out =>
                Ok (PyTuple out)))))))).

(** *** expand_dims and squeeze *)

Definition list2vector (li : PyObject) : result (list Z) :=
  if is_py_sequence li then
    rbind (PySequence_List li) (fun tmp_list =>
      rmap (fun o => rbind (py_int o) cast_int32) tmp_list)
  else rbind (rbind (py_int li) cast_int32) (fun a => Ok [a]).

Definition _expand_dims_cpp (inp_hdl axis_hdl : PyObject) : result PyObject :=
  rbind (list2vector axis_hdl) (fun axis =>
  rbind (static_shape inp_hdl) (fun shape =>
  rbind (rmap (fun a =>
                 match shape with
                 | Some s => Ok (add_ndim (size axis + size s) a)
                 | None =>
                     if (a <? 0)%Z then
                       Raise (index_error
                         "Does not support negative index when tensor's ndim is unknown")
                     else Ok a
                 end) axis) (fun axis =>
    if (size axis =? 0)%N then Raise (index_error "axis could not be empty")
    else
      rbind (py_apply_axis X (AddAxis (std_sort axis)) [inp_hdl]) (fun ret =>
        tuple_item ret 0)))).

(** [_squeeze_cpp].  [None] is the run in which [ndim], declared without
    a value, is read before anything was assigned to it: a negative axis
    on a handle whose shape is not known. *)
Definition _squeeze_cpp (inp_hdl axis_hdl : PyObject) : option (result PyObject) :=
  match (if negb (is_None axis_hdl) then list2vector axis_hdl else Ok []) with
  | Raise e => Some (Raise e)
  | Ok axis =>
      match static_shape inp_hdl with
      | Raise e => Some (Raise e)
      | Ok shape =>
          let finish (axis : list Z) : result PyObject :=
            rbind (py_apply_axis X (RemoveAxis (sub_position (std_sort axis)))
                     [inp_hdl]) (fun ret => tuple_item ret 0) in
          match shape with
          | Some s =>
              let axis := if is_None axis_hdl then axis ++ ones_positions s
                          else axis in
              Some (finish (map (add_ndim (size s)) axis))
          | None =>
              if existsb (fun a => (a <? 0)%Z) axis then None
              else Some (finish axis)
          end
      end
  end.

(** *** transpose *)

(** The list [lis] of [_transpose_cpp]. *)
Definition transpose_list (obj : PyObject) : result (list PyObject) :=
  if negb (is_tensor_or_symbolvar obj) && PySequence_Check obj then
    PySequence_List obj
  else
    match obj with
    | PyTensor t =>
        rbind (tensor_ToList t) (fun maybe_list =>
          match maybe_list with
          | PyList items => Ok items
          | _ => Ok []
          end)
    | _ => Raise (error_already_set "AttributeError: numpy")
    end.

Definition _transpose_cpp (inp_hdl args : PyObject) : option (result PyObject) :=
  let obj := _expand_args args in
  match transpose_list obj with
  | Raise e => Some (Raise e)
  | Ok lis =>
      match fast_ndim inp_hdl with
      | None => None
      | Some (Raise e) => Some (Raise e)
      | Some (Ok nd) =>
          Some
            (if (nd =? 0)%N then
               if negb (size lis =? 0)%N then
                 Raise (index_error
                          "transpose for scalar does not accept additional args")
               else
                 rbind (attr_get (getattr_device inp_hdl)) (fun device =>
                   call_to X inp_hdl device)
             else
               rbind (if (size lis =? 0)%N then
                        rbind (rbind (attr_get (getattr_ndim inp_hdl)) cast_size_t)
                          (fun ndim =>
                             Ok (map (fun i => wrap_int32 (Z.of_N (ndim - i - 1)))
                                     (range 0 ndim)))
                      else rfold pattern_step lis [])
                 (fun pattern =>
                    rbind (py_apply_axis X (Dimshuffle pattern) [inp_hdl]) (fun ret =>
                      tuple_item ret 0)))
      end
  end.

(** *** broadcast *)

(** One turn of the loop over the entries of the target shape; [n] is the
    number of entries, the state is ([lis] as rewritten so far,
    [new_shape], [auto_infer]). *)
Definition broadcast_step (inp_hdl : PyObject) (n : N)
           (st : list PyObject * list PyObject * bool) (io : N * PyObject)
  : result (list PyObject * list PyObject * bool) :=
  let '(lis, new_shape, auto_infer) := st in
  let '(i, o) := io in
  if is_None o then
    let right := (n - i)%N in
    rbind (attr_get (getattr__tuple_shape inp_hdl)) (fun tshp =>
      match tshp with
      | PyNone => Raise (index_error "does not support `None` with unknown shape")
      | PyTuple inp_shape =>
          if (right <=? size inp_shape)%N then
            rbind (tuple_item inp_shape (size inp_shape - right)) (fun d =>
              Ok (lis ++ [if enable_fastpath E inp_hdl then d else o],
                  new_shape ++ [d], true))
          else Raise (value_error "invalid broadcast shape")
      | _ => Raise (error_already_set "SystemError: bad internal call")
      end)
  else
    rbind (if PyLong_Check o then
             rbind (cast_int32 o) (fun s =>
               if (s <? 0)%Z then
                 Raise (value_error
                   ("expect shape[" +++ to_string_N i +++
                    "] >= 0 or use `None` to auto infer, got " +++ to_string_Z s))
               else Ok tt)
           else Ok tt)
      (fun _ => Ok (lis ++ [o], new_shape ++ [o], auto_infer)).

Definition _broadcast_cpp (inp_hdl args : PyObject) : result PyObject :=
  let shape_hdl := _expand_args args in
  rbind (match shape_hdl with
         | PyList items | PyTuple items =>
             rfold (broadcast_step inp_hdl (size items)) (enumerate items)
                   ([], [], false)
         | _ => Ok ([], [], false)
         end) (fun '(lis, new_shape, auto_infer) =>
  rbind (if auto_infer then
           if enable_fastpath E inp_hdl then Ok (PyTuple lis)
           else
             rbind (attr_get (getattr_device inp_hdl)) (fun _ =>
               unchecked "PyObject_Call"
                 (cpp_astensor1d E (PyList new_shape) (Some inp_hdl)))
         else Ok shape_hdl) (fun shape_hdl =>
  rbind (match _make_shape_tuple shape_hdl with
         | Ok l => Ok (PyTuple l)
         | Raise (error_already_set _) => Ok shape_hdl
         | Raise e => Raise e
         end) (fun shape_tuple =>
  rbind (tuple2vector shape_tuple) (fun '(shape, fastpath) =>
  let fastpath := fastpath && enable_fastpath E inp_hdl in
  rbind (if fastpath then Ok (Broadcast shape, [inp_hdl])
         else
           rbind (attr_get (getattr_device inp_hdl)) (fun _ =>
           rbind (unchecked "PyObject_Call"
                    (cpp_astensor1d E shape_hdl (Some inp_hdl))) (fun shape_tensor =>
             Ok (Broadcast [], [inp_hdl; shape_tensor])))) (fun '(op, p) =>
  rbind (py_apply_axis X op p) (fun ret => tuple_item ret 0)))))).

End AxisLowering.

(** A small instance for running these functions: every operator answers
    with its first input, [Split] with as many copies as it has sections
    or partitions; objects that are no Python integers refuse the integer
    protocol. *)
Module DemoAxis.

Definition apply (op : AxisOp) (args : list PyObject) : result (list PyObject) :=
  match op, args with
  | Split _ n, inp :: parts =>
      Ok (repeat inp (if (n =? 0)%Z then List.length parts else Z.to_nat n))
  | _, inp :: _ => Ok [inp]
  | _, [] => Raise (mgb_assert_failed "operator without input")
  end.

Definition refuse {A} (what : string) : result A :=
  Raise (error_already_set ("TypeError: " +++ what)).

Definition engine : AxisEngine :=
  {| py_apply_axis := apply;
     object_int := fun _ => refuse "__int__";
     object_as_int := fun _ => Raise cast_error;
     object_list := fun _ => refuse "object is not iterable";
     object_getitem := fun _ _ => refuse "object is not subscriptable";
     object_len := fun _ => refuse "object has no len()";
     object_gt := fun _ _ => refuse "'>' not supported";
     object_sub := fun _ _ => refuse "unsupported operand type(s) for -";
     call_to := fun inp _ => Ok inp |}.

End DemoAxis.

(* ================================================================== *)
(** ** Specification-side definitions *)

(** The tensor group and the scalar group of an operand list, as a
    partition: tensor handles, numpy arrays and numpy scalars on one side,
    exact Python [bool], [int] and [float] on the other; [None] and
    anything else take no part. *)
Definition tensor_descr (handle : PyObject) : option PyArray_Descr :=
  match handle with
  | PyTensor t => Some (t_dtype t)
  | PyArray a => Some (a_dtype a)
  | PyNpScalar d => Some d
  | _ => None
  end.

Definition scalar_descr (handle : PyObject) : option PyArray_Descr :=
  match handle with
  | PyBool _ => Some NPY_BOOL
  | PyLong _ => Some NPY_INT32
  | PyFloat _ => Some NPY_FLOAT32
  | _ => None
  end.

Definition group_of (pick : PyObject -> option PyArray_Descr) (ops : list PyObject)
  : list PyArray_Descr :=
  flat_map (fun h => match pick h with Some d => [d] | None => [] end) ops.

Definition tensor_group : list PyObject -> list PyArray_Descr := group_of tensor_descr.
Definition scalar_group : list PyObject -> list PyArray_Descr := group_of scalar_descr.

(** The largest category present in a group, 0 for an empty one. *)
Definition max_category (g : list PyArray_Descr) : N :=
  fold_right (fun d m => N.max (category_priority (kind d)) m) 0%N g.

(** An operand list that consists of one tuple or one list. *)
Definition is_single_sequence (ops : list PyObject) : bool :=
  match ops with
  | [PyTuple _] | [PyList _] => true
  | _ => false
  end.

(** Promotion and device resolution do not tell a bare operand list from
    the same operands wrapped in one tuple or one list. *)
Definition unrolling_is_transparent (E : Engine) (ops : list PyObject) : Prop :=
  _dtype_promotion E [PyTuple ops] = _dtype_promotion E ops /\
  _dtype_promotion E [PyList ops] = _dtype_promotion E ops /\
  _get_device E [PyTuple ops] = _get_device E ops /\
  _get_device E [PyList ops] = _get_device E ops.

Definition entry_points_transparent (E : Engine) (ops : list PyObject) : Prop :=
  dtype_promotion E [PyTuple ops] = dtype_promotion E ops /\
  dtype_promotion E [PyList ops] = dtype_promotion E ops /\
  get_device E [PyTuple ops] = get_device E ops /\
  get_device E [PyList ops] = get_device E ops.

(** [enumerate] started at a later counter, for inductions over a loop. *)
Definition enumerate_from {A} (n : nat) (l : list A) : list (N * A) :=
  combine (map N.of_nat (seq n (List.length l))) l.

(** The shape of an object as the lowering reads it: the [shape]
    attribute passed through [_make_shape_tuple]. *)
Definition shape_of (E : Engine) (o : PyObject) : result (list PyObject) :=
  rbind (attr_get (getattr_shape' E o)) _make_shape_tuple.

(** The rank of the indexed operand when reading [ndim] gives one. *)
Definition static_rank (inp : PyObject) : option N :=
  match getattr_ndim inp with
  | AttrVal (PyLong n) => if (0 <=? n)%Z then Some (Z.to_N n) else None
  | _ => None
  end.

(** Axes one entry of an index tuple consumes: none for an ellipsis, its
    rank for a boolean mask whose rank can be read, one otherwise. *)
Definition entry_axes (k : PyObject) : N :=
  match k with
  | PyEllipsis => 0
  | _ =>
      if is_bool_dtype k then
        match getattr_ndim k with
        | AttrVal (PyLong n) => Z.to_N n
        | _ => 1
        end
      else 1
  end%N.

Definition consumed_axes (tuple_val : list PyObject) : N :=
  fold_right (fun k acc => (entry_axes k + acc)%N) 0%N tuple_val.

Definition ellipsis_count (tuple_val : list PyObject) : nat :=
  List.length (filter is_Ellipsis tuple_val).



(** Every entry is a slice or a scalar. *)
Definition basic_entry (handle : PyObject) : bool :=
  is_scalar handle || PySlice_Check handle.

(** The arguments of a reshape call given as plain integers. *)
Definition shape_args (l : list Z) : PyObject := PyTuple (map PyLong l).

Definition in_long (z : Z) : bool := (- 2 ^ 63 <=? z)%Z && (z <? 2 ^ 63)%Z.

(** The ways a reshape call passes the integers [l]: as the arguments
    themselves, or as one tuple or one list. *)
Definition denotes_shape (args : PyObject) (l : list Z) : Prop :=
  args = shape_args l \/
  args = PyTuple [PyTuple (map PyLong l)] \/
  args = PyTuple [PyList (map PyLong l)].

(** Positions of the first two entries equal to -1, counted from [i]. *)
Fixpoint first_two_wildcards (l : list Z) (i : N) (seen : option N) : option (N * N) :=
  match l with
  | [] => None
  | z :: rest =>
      if (z =? -1)%Z then
        match seen with
        | Some p1 => Some (p1, i)
        | None => first_two_wildcards rest (i + 1) (Some i)
        end
      else first_two_wildcards rest (i + 1) seen
  end.

(** The two-wildcard rule read without any reservation: a shape with two
    entries -1 is refused with a [ValueError] whose text shows the
    positions of the first two. *)
Definition two_wildcards_rule_as_stated : Prop :=
  forall (E : Engine) (inp : PyObject) (l : list Z) (p1 p2 : N)
         (log : list Invocation),
    first_two_wildcards l 0 None = Some (p1, p2) ->
    exists msg log',
      _reshape_cpp E inp (shape_args l) log = (Raise (value_error msg), log') /\
      contains (to_string_N p1) msg = true /\
      contains (to_string_N p2) msg = true.


(** The selection operator get and set apply to the unpacked index. *)
Definition gather_op (up : unpacked) (cpp_items : list index_item) : OpDef :=
  if up_use_subtensor up then Subtensor cpp_items
  else IndexingMultiAxisVec cpp_items.

(** The size of dimension [i] counted from the last. *)
Definition dim_from_last (s : list N) (i : N) : N :=
  nth (N.to_nat (size s - i - 1)) s 0%N.

(** The trailing-dimension rule between a value shape and the shape of
    the selected region. *)
Definition trailing_dims_fit (value_shape region_shape : list N) : Prop :=
  forall i, (i < N.min (size value_shape) (size region_shape))%N ->
    dim_from_last value_shape i = 1%N \/
    dim_from_last value_shape i = dim_from_last region_shape i.

(** Number of entries equal to -1 in a shape list. *)
Definition wildcard_count (l : list Z) : nat :=
  List.length (filter (fun z => (z =? -1)%Z) l).

(** The two texts reshape reports. *)
Definition multiple_wildcards (p1 p2 : N) : string :=
  "multiple -1 in shape: " +++ to_string_N p1 +++ " & " +++ to_string_N p2.

Definition bad_shape_entry (i : N) (z : Z) : string :=
  "expect shape [" +++ to_string_N i +++ "] >= -1, got " +++ to_string_Z z.

(** The text of the mask error for dimension [d], where the tensor has
    size [c] and the mask size [m]. *)
Definition mask_mismatch (d c m : N) : string :=
  "boolean index did not match tensor along dimension " +++ to_string_N d +++
  "; dimension is " +++ to_string_N c +++
  " but corresponding boolean dimension is " +++ to_string_N m.

(** A shape as the tuple of Python integers the loops read. *)
Definition dims (s : list N) : list PyObject := map (fun d => PyLong (Z.of_N d)) s.

(** The devices of the tensor operands, in order. *)
Definition tensor_devices (ops : list PyObject) : list CompNode :=
  flat_map (fun h => match h with PyTensor t => [t_device t] | _ => [] end) ops.

(** The text [_get_device] reports for two devices that differ. *)
Definition ambiguous_device (cn cn1 : CompNode) : string :=
  "ambiguous device: " +++ cn_physical cn +++ " (from " +++ cn_logical cn +++
  ") vs " +++ cn_physical cn1 +++ " (from " +++ cn_logical cn1 +++ ")".

(** Device resolution in closed form: the device of the first tensor
    operand, unless a later tensor operand sits on another one. *)
Definition resolve_device (default : CompNode) (devs : list CompNode) : result CompNode :=
  match devs with
  | [] => Ok default
  | cn :: rest =>
      match find (fun c => negb (CompNode_eqb c cn)) rest with
      | None => Ok cn
      | Some cn1 => Raise (value_error (ambiguous_device cn cn1))
      end
  end.

(** The axis of an index item, and the number of operands it takes from
    the operand list: one for each flag that is set. *)
Definition item_axis (it : index_item) : Z :=
  let '(axis, _, _, _, _) := it in axis.

Definition item_operands (it : index_item) : nat :=
  let '(_, b, e, s, i) := it in
  ((if b then 1 else 0) + (if e then 1 else 0) +
   (if s then 1 else 0) + (if i then 1 else 0))%nat.

Definition operand_count (items : list index_item) : nat :=
  list_sum (map item_operands items).

(** An invocation of [CondTake] on some operand paired with itself, the
    form in which [_get_index] turns a boolean operand into positions. *)
Definition self_cond_take (inv : Invocation) : Prop :=
  exists t, inv = (CondTake, [t; t]).


(** An axis as [expand_dims] and [squeeze] resolve it against a rank: a
    negative one counts from the end. *)
Definition resolve_axis (rank : Z) (a : Z) : Z :=
  if (a <? 0)%Z then (a + rank)%Z else a.

(** The tail of every axis-operator call: the first output. *)
Definition first_output (outs : result (list PyObject)) : result PyObject :=
  rbind outs (fun ret => tuple_item ret 0).

(** Deleting the entry at one position, and deleting at several
    positions one after the other, each position being read in the list
    the deletions before it left. *)
Definition delete_at {A} (i : nat) (l : list A) : list A :=
  firstn i l ++ skipn (S i) l.

Definition delete_each {A} (axes : list Z) (l : list A) : list A :=
  fold_left (fun acc a => delete_at (Z.to_nat a) acc) axes l.

(** The list without the entries whose position, counted from [k], is
    among [ps]. *)
Fixpoint without_positions {A} (k : Z) (ps : list Z) (l : list A) : list A :=
  match l with
  | [] => []
  | x :: rest =>
      if existsb (Z.eqb k) ps then without_positions (k + 1) ps rest
      else x :: without_positions (k + 1) ps rest
  end.

(** [sub_position] and [ones_positions] with the counter started later,
    for inductions over the loops. *)
Definition sub_position_from (j : nat) (axis : list Z) : list Z :=
  map (fun ia : N * Z => let '(i, a) := ia in wrap_int32 (a - wrap_int32 (Z.of_N i)))
      (enumerate_from j axis).

Definition ones_positions_from (k : nat) (s : list N) : list Z :=
  flat_map (fun id : N * N => let '(i, d) := id in
              if (d =? 1)%N then [wrap_int32 (Z.of_N i)] else [])
           (enumerate_from k s).

(** The axes 0 .. n-1 in reverse order. *)
Definition reversed_axes (n : nat) : list Z := rev (map Z.of_nat (seq 0 n)).

(** What one entry of a transpose pattern contributes: an integer
    itself, the string "x" a new axis written -1, any other string
    nothing. *)
Definition entry_pattern (o : PyObject) : list Z :=
  match o with
  | PyLong z => [z]
  | PyBool b => [if b then 1 else 0]%Z
  | PyStr s => if String.eqb s "x" then [(-1)%Z] else []
  | _ => []
  end.

(** The entries the pattern loop reads without a failed cast: Python
    integers that fit an [int32_t], and strings. *)
Definition pattern_entry (o : PyObject) : bool :=
  match o with
  | PyLong z => in_int32 z
  | PyBool _ | PyStr _ => true
  | _ => false
  end.

(** The ways a call passes the entries [es] as one sequence. *)
Definition one_sequence (args : PyObject) (es : list PyObject) : Prop :=
  args = PyTuple [PyList es] \/ args = PyTuple [PyTuple es].

(** Consecutive entries never decrease. *)
Fixpoint nondecreasing (l : list Z) : bool :=
  match l with
  | x :: (y :: _) as rest => (x <=? y)%Z && nondecreasing rest
  | _ => true
  end.

(** The differences between consecutive entries. *)
Fixpoint gaps (l : list Z) : list Z :=
  match l with
  | x :: (y :: _) as rest => (y - x)%Z :: gaps rest
  | _ => []
  end.

Definition Z_sum (l : list Z) : Z := fold_right Z.add 0%Z l.

(** The text [_split_cpp] reports for a section count above the size. *)
Definition cannot_split (d : N) (axis n_sections : Z) : string :=
  "The size " +++ to_string_N d +++ " at dim " +++ to_string_Z axis +++
  " cannot be split into " +++ to_string_Z n_sections +++ " sections".

(** The whole tuple of outputs, as [_split_cpp] returns it. *)
Definition all_outputs (outs : result (list PyObject)) : result PyObject :=
  rbind outs (fun out => Ok (PyTuple out)).

(** An entry of a broadcast target: an integer, or [None] for a
    dimension to be taken from the input. *)
Definition shape_entry (o : option Z) : PyObject :=
  match o with
  | Some z => PyLong z
  | None => PyNone
  end.

Definition is_unset (o : option Z) : bool :=
  match o with
  | None => true
  | Some _ => false
  end.

(** The target with every [None] replaced by the dimension of the input
    shape [s] that stands at the same distance from the end; [right] is
    the distance of the first entry. *)
Fixpoint resolve_entries (s : list N) (right : nat) (es : list (option Z)) : list Z :=
  match es with
  | [] => []
  | o :: rest =>
      match o with
      | Some z => z
      | None => Z.of_N (nth (List.length s - right) s 0%N)
      end :: resolve_entries s (right - 1) rest
  end.

(** Every integer of the target is a non-negative [int32_t], and every
    [None] has a dimension of the input to stand for. *)
Fixpoint target_ok (s : list N) (right : nat) (es : list (option Z)) : bool :=
  match es with
  | [] => true
  | o :: rest =>
      match o with
      | Some z => (0 <=? z)%Z && (z <? 2 ^ 31)%Z
      | None => (right <=? List.length s)%nat
      end && target_ok s (right - 1) rest
  end.

(** The text [_broadcast_cpp] reports for a negative entry. *)
Definition negative_entry (i : N) (z : Z) : string :=
  "expect shape[" +++ to_string_N i +++
  "] >= 0 or use `None` to auto infer, got " +++ to_string_Z z.

(** Python floats and Python integers among the operands. *)
Definition is_PyFloat (o : PyObject) : bool :=
  match o with
  | PyFloat _ => true
  | _ => false
  end.

Definition is_PyLong (o : PyObject) : bool :=
  match o with
  | PyLong _ => true
  | _ => false
  end.

(** Arguments that [_expand_args] turns into a list of themselves:
    anything but one lone sequence or handle. *)
Definition spread (l : list PyObject) : Prop :=
  forall a, l = [a] -> PySequence_Check a || is_tensor_or_symbolvar a = false.





(* ================================================================== *)
(** ** General lemmas *)

Lemma enumerate_is_from {A} (l : list A) : enumerate l = enumerate_from 0 l.
Proof. reflexivity. Qed.

Lemma enumerate_from_cons {A} (n : nat) (a : A) (l : list A) :
  enumerate_from n (a :: l) = (N.of_nat n, a) :: enumerate_from (S n) l.
Proof. reflexivity. Qed.

Lemma enumerate_from_nil {A} (n : nat) : enumerate_from n (@nil A) = [].
Proof. reflexivity. Qed.





(* ================================================================== *)
(** ** Dtype promotion and device resolution *)

Section PromotionFacts.

Variable E : Engine.

Lemma promotion_step_partition (ts ss : list PyArray_Descr) (h : PyObject) :
  promotion_step (ts, ss) h =
  (ts ++ tensor_group [h], ss ++ scalar_group [h]).
Proof.
  unfold tensor_group, scalar_group, group_of.
  destruct h as [| | | | | | | | | | | |t]; simpl; rewrite ?app_nil_r; try reflexivity.
  unfold promotion_step, TensorWrapper_try_cast, isinstance_PySymbolVar.
  destruct (t_symvar t); reflexivity.
Qed.

Lemma promotion_loop_partition (ops : list PyObject) :
  forall ts ss,
    fold_left promotion_step ops (ts, ss) =
    (ts ++ tensor_group ops, ss ++ scalar_group ops).
Proof.
  induction ops as [|h ops IH]; intros ts ss; cbn [fold_left].
  - unfold tensor_group, scalar_group, group_of; simpl. now rewrite !app_nil_r.
  - rewrite promotion_step_partition, IH.
    unfold tensor_group, scalar_group, group_of; simpl.
    now rewrite <- !app_assoc.
Qed.

Lemma max_priority_fold (g : list PyArray_Descr) :
  forall m,
    fold_left (fun max_p desc => N.max max_p (category_priority (kind desc))) g m =
    N.max m (max_category g).
Proof.
  induction g as [|d g IH]; intros m; simpl.
  - lia.
  - rewrite IH. lia.
Qed.

Lemma max_priority_is_max_category (g : list PyArray_Descr) :
  max_priority g = max_category g.
Proof.
  destruct g as [|d g]; [reflexivity|].
  unfold max_priority. rewrite max_priority_fold. lia.
Qed.

Lemma max_category_bounds (g : list PyArray_Descr) :
  Forall (fun d => (category_priority (kind d) <= max_category g)%N) g /\
  (max_category g = 0%N \/
   exists d, In d g /\ category_priority (kind d) = max_category g).
Proof.
  induction g as [|d g [IHall IHex]]; simpl.
  - split; [constructor | now left].
  - split.
    + constructor; [lia|].
      eapply Forall_impl; [|exact IHall]. simpl. intros; lia.
    + destruct (N.max_spec (category_priority (kind d)) (max_category g))
        as [[Hlt Hmax]|[Hle Hmax]]; rewrite Hmax.
      * destruct IHex as [H0|[d' [Hin Hd']]]; [lia|].
        right. exists d'. split; [now right | exact Hd'].
      * right. exists d. split; [now left | reflexivity].
Qed.

Lemma dtype_promotion_unfold (args : list PyObject) :
  _dtype_promotion E args =
  let T := tensor_group (unroll_args args) in
  let S := scalar_group (unroll_args args) in
  if (max_priority S <=? 0)%N && (max_priority T <=? 0)%N then
    Raise (value_error "invalid input, no dtype avaliable")
  else if (max_priority T <? max_priority S)%N then promote_types E S (max_priority S)
  else promote_types E T (max_priority T).
Proof.
  unfold _dtype_promotion. rewrite promotion_loop_partition. reflexivity.
Qed.

(** C7.  Dtype promotion partitions the operands into the tensor group
    and the scalar group, takes the largest category of each (bool below
    integer below float), and promotes within the scalar group only when
    its largest category is strictly above that of the tensor group; on a
    tie, and whenever the tensor group is higher, the tensor group is
    promoted.  One integer scalar with one float tensor gives the
    tensor's dtype. *)
Theorem dtype_promotion_prefers_tensors (args : list PyObject) :
  let ops := unroll_args args in
  let T := tensor_group ops in
  let S := scalar_group ops in
  fold_left promotion_step ops ([], []) = (T, S) /\
  max_priority T = max_category T /\
  max_priority S = max_category S /\
  (category_priority "b" < category_priority "i" < category_priority "f")%N /\
  ((max_category T < max_category S)%N ->
   _dtype_promotion E args = promote_types E S (max_category S)) /\
  ((max_category S <= max_category T)%N -> (0 < max_category T)%N ->
   _dtype_promotion E args = promote_types E T (max_category T)) /\
  (forall z t, kind (t_dtype t) = "f"%char ->
     _dtype_promotion E [PyLong z; PyTensor t] = Ok (t_dtype t) /\
     _dtype_promotion E [PyTensor t; PyLong z] = Ok (t_dtype t)).
Proof.
  intros ops T S.
  split; [apply (promotion_loop_partition ops [] [])|].
  split; [apply max_priority_is_max_category|].
  split; [apply max_priority_is_max_category|].
  split; [vm_compute; split; reflexivity|].
  split; [|split].
  - intros Hlt. rewrite dtype_promotion_unfold. cbv zeta.
    fold ops. fold T. fold S. rewrite !max_priority_is_max_category.
    replace (max_category S <=? 0)%N with false by (symmetry; apply N.leb_gt; lia).
    simpl. replace (max_category T <? max_category S)%N with true
      by (symmetry; apply N.ltb_lt; lia).
    reflexivity.
  - intros Hle Hpos. rewrite dtype_promotion_unfold. cbv zeta.
    fold ops. fold T. fold S. rewrite !max_priority_is_max_category.
    replace (max_category T <=? 0)%N with false by (symmetry; apply N.leb_gt; lia).
    rewrite andb_false_r.
    replace (max_category T <? max_category S)%N with false
      by (symmetry; apply N.ltb_ge; lia).
    reflexivity.
  - intros z t Hk.
    rewrite !dtype_promotion_unfold.
    unfold tensor_group, scalar_group, group_of, promote_types; simpl.
    rewrite Hk. split; reflexivity.
Qed.

Lemma unroll_args_wrapped_tuple (ops : list PyObject) :
  unroll_args [PyTuple ops] = ops.
Proof. reflexivity. Qed.

Lemma unroll_args_wrapped_list (ops : list PyObject) :
  unroll_args [PyList ops] = ops.
Proof. reflexivity. Qed.

Lemma unroll_args_bare (ops : list PyObject) :
  is_single_sequence ops = false -> unroll_args ops = ops.
Proof.
  intros H. destruct ops as [|h [|h' ops]]; try reflexivity;
    destruct h; try reflexivity; discriminate H.
Qed.

(** C8, as the code has it.  A bare operand list and the same operands
    wrapped in one tuple or list promote alike and resolve to the same
    device, provided the operand list is not itself one tuple or list
    (only one level is unrolled); the exported entry points agree as
    well once the list is not empty. *)
Theorem unrolling_transparent_unless_single_sequence (ops : list PyObject) :
  is_single_sequence ops = false ->
  unrolling_is_transparent E ops /\
  (ops <> [] -> entry_points_transparent E ops).
Proof.
  intros Hs. pose proof (unroll_args_bare ops Hs) as Hb.
  assert (Ht : unrolling_is_transparent E ops).
  { unfold unrolling_is_transparent, _dtype_promotion, _get_device.
    rewrite unroll_args_wrapped_tuple, unroll_args_wrapped_list, Hb.
    repeat split; reflexivity. }
  split; [exact Ht|].
  intros Hne. destruct Ht as (H1 & H2 & H3 & H4).
  unfold entry_points_transparent, dtype_promotion, get_device.
  destruct ops as [|h ops]; [contradiction|].
  repeat split; assumption.
Qed.

End PromotionFacts.

(** C8, witness: two operands, an integer and a float tensor. *)
Lemma unrolling_transparent_witness :
  let ops := [PyLong 1; Demo.typed NPY_FLOAT32 Demo.cpu0] in
  unrolling_is_transparent Demo.engine ops /\
  (ops <> [] -> entry_points_transparent Demo.engine ops).
Proof.
  apply (unrolling_transparent_unless_single_sequence Demo.engine
           [PyLong 1; Demo.typed NPY_FLOAT32 Demo.cpu0]).
  reflexivity.
Defined.

(** C8, as stated, fails on an operand list that is a single list: bare,
    the list is unrolled and its float tensor promotes to float32; wrapped
    once more, the inner list is an operand of no group and promotion
    raises. *)
Lemma unrolling_not_transparent_on_single_list :
  ~ unrolling_is_transparent Demo.engine [PyList [Demo.typed NPY_FLOAT32 Demo.cpu0]].
Proof.
  intros (H & _). vm_compute in H. discriminate H.
Qed.

(** C7, witness: a float tensor and a Python float tie at the float
    category, and the tensor group is the one promoted. *)
Lemma dtype_promotion_prefers_tensors_witness :
  let args := [PyFloat 0; Demo.typed Demo.NPY_FLOAT64 Demo.cpu0] in
  _dtype_promotion Demo.engine args =
  promote_types Demo.engine (tensor_group args) (max_category (tensor_group args)).
Proof.
  intros args.
  destruct (dtype_promotion_prefers_tensors Demo.engine args)
    as (_ & _ & _ & _ & _ & Htie & _).
  apply Htie; vm_compute; [discriminate | reflexivity].
Defined.

(* ================================================================== *)
(** ** Running the log monad *)

Lemma bind_lift_ok {A B} (a : A) (f : A -> M B) (log : list Invocation) :
  bind (lift (Ok a)) f log = f a log.
Proof. reflexivity. Qed.

Lemma bind_lift_raise {A B} (e : exn) (f : A -> M B) (log : list Invocation) :
  bind (lift (@Raise A e)) f log = (Raise e, log).
Proof. reflexivity. Qed.

Lemma bind_ret {A B} (a : A) (f : A -> M B) (log : list Invocation) :
  bind (ret a) f log = f a log.
Proof. reflexivity. Qed.

Lemma bind_run {A B} (c : M A) (f : A -> M B) (log log' : list Invocation) (a : A) :
  c log = (Ok a, log') -> bind c f log = f a log'.
Proof. intros H. unfold bind. now rewrite H. Qed.

Lemma bind_run_raise {A B} (c : M A) (f : A -> M B) (log log' : list Invocation)
      (e : exn) :
  c log = (Raise e, log') -> bind c f log = (Raise e, log').
Proof. intros H. unfold bind. now rewrite H. Qed.

(* ================================================================== *)
(** ** The counting loop and the rank test *)

(** Reading [ndim] never gives something [cast<size_t>] refuses. *)
Lemma ndim_cast_ok (k v : PyObject) :
  getattr_ndim k = AttrVal v ->
  exists n, v = PyLong (Z.of_N n) /\ cast_size_t v = Ok n.
Proof.
  destruct k as [| | | | | | | | |a|d| |t]; simpl; try discriminate.
  - intros [= <-]. exists (N.of_nat (List.length (a_shape a))).
    rewrite nat_N_Z. split; [reflexivity|]. simpl.
    destruct (Z.leb_spec 0 (Z.of_nat (List.length (a_shape a)))); [|lia].
    now rewrite <- nat_N_Z, N2Z.id.
  - intros [= <-]. exists 0%N. split; reflexivity.
  - destruct (t_shape t) as [s|]; [|discriminate].
    intros [= <-]. exists (N.of_nat (List.length s)).
    rewrite nat_N_Z. split; [reflexivity|]. simpl.
    destruct (Z.leb_spec 0 (Z.of_nat (List.length s))); [|lia].
    now rewrite <- nat_N_Z, N2Z.id.
Qed.

Lemma count_step_ok (need_remove need_expand : bool) (idx_ndim : N) (k : PyObject) :
  k <> PyNone ->
  exists need_expand',
    count_step (need_remove, need_expand, idx_ndim) k =
    Ok (need_remove || is_Ellipsis k, need_expand', (idx_ndim + entry_axes k)%N).
Proof.
  intros Hk.
  destruct (is_bool_dtype k) eqn:Hb; [destruct (getattr_ndim k) as [msg|v] eqn:Hn|].
  - destruct k; try contradiction; try discriminate Hb;
      unfold count_step, entry_axes; rewrite Hb, Hn;
      cbn [hasattr andb is_Ellipsis]; rewrite orb_false_r; eexists; reflexivity.
  - destruct (ndim_cast_ok k v Hn) as (n & -> & Hc).
    destruct k; try contradiction; try discriminate Hb;
      unfold count_step, entry_axes; rewrite Hb, Hn;
      cbn [hasattr andb is_Ellipsis attr_get rbind]; rewrite Hc;
      cbn [rbind]; rewrite orb_false_r, N2Z.id; eexists; reflexivity.
  - destruct k; try contradiction;
      unfold count_step, entry_axes; rewrite ?Hb;
      cbn [andb is_Ellipsis]; rewrite ?orb_false_r, ?orb_true_r, ?N.add_0_r;
      eexists; reflexivity.
Qed.

Lemma count_loop_ok (l : list PyObject) :
  ~ In PyNone l ->
  forall need_remove need_expand idx_ndim,
  exists need_expand',
    rfold count_step l (need_remove, need_expand, idx_ndim) =
    Ok (need_remove || existsb is_Ellipsis l, need_expand',
        (idx_ndim + consumed_axes l)%N).
Proof.
  induction l as [|k l IH]; intros Hno nr ne n.
  - exists ne. simpl. now rewrite orb_false_r, N.add_0_r.
  - assert (Hk : k <> PyNone) by (intros ->; apply Hno; now left).
    destruct (count_step_ok nr ne n k Hk) as (ne1 & Hstep).
    destruct (IH (fun H => Hno (or_intror H)) (nr || is_Ellipsis k) ne1
                 (n + entry_axes k)%N) as (ne2 & Hrest).
    exists ne2. cbn [rfold]. rewrite Hstep. cbn [rbind]. rewrite Hrest.
    cbn [existsb consumed_axes fold_right].
    now rewrite orb_assoc, N.add_assoc.
Qed.

Lemma count_loop_newaxis (l : list PyObject) :
  In PyNone l ->
  forall st, rfold count_step l st = Raise (index_error "newaxis is not allowed here").
Proof.
  induction l as [|k l IH]; intros Hin [[nr ne] n]; [contradiction|].
  destruct k as [| | | | | | | | | | | |t] eqn:Hk;
    try (destruct Hin as [Hin|Hin]; [discriminate Hin|];
         cbn [rfold];
         match goal with
         | |- rbind (count_step _ ?k) _ = _ =>
             let H := fresh in
             assert (H : k <> PyNone) by discriminate;
             destruct (count_step_ok nr ne n k H) as (ne1 & ->)
         end;
         cbn [rbind]; now apply IH).
  reflexivity.
Qed.

Lemma static_rank_ndim (inp : PyObject) (r : N) :
  static_rank inp = Some r -> getattr_ndim inp = AttrVal (PyLong (Z.of_N r)).
Proof.
  unfold static_rank. destruct (getattr_ndim inp) as [msg|v]; [discriminate|].
  destruct v; try discriminate.
  destruct (Z.leb_spec 0 z); [|discriminate].
  intros [= <-]. now rewrite Z2N.id.
Qed.


(** With no rank to read, the test lets every count through. *)
Lemma rank_check_unknown (inp : PyObject) (msg : string) (idx_ndim : N) :
  getattr_ndim inp = AttrError msg -> rank_check inp idx_ndim = Ok tt.
Proof. intros H. unfold rank_check. now rewrite H. Qed.

Lemma rank_check_cases (inp : PyObject) (idx_ndim : N) :
  rank_check inp idx_ndim = Ok tt \/
  exists msg, rank_check inp idx_ndim = Raise (index_error msg).
Proof.
  unfold rank_check. destruct (getattr_ndim inp) as [msg|v] eqn:Hn; [now left|].
  destruct (ndim_cast_ok inp v Hn) as (n & -> & ->). simpl.
  destruct (n <? idx_ndim)%N; [right; eexists; reflexivity | now left].
Qed.


(* ================================================================== *)
(** ** The ellipsis scan *)

Lemma ellipsis_count_cons (h : PyObject) (l : list PyObject) :
  ellipsis_count (h :: l) =
  if is_Ellipsis h then S (ellipsis_count l) else ellipsis_count l.
Proof. unfold ellipsis_count. simpl. now destruct (is_Ellipsis h). Qed.

Lemma ellipsis_count_positive (l : list PyObject) :
  (1 <= ellipsis_count l)%nat -> existsb is_Ellipsis l = true.
Proof.
  induction l as [|h l IH]; [cbn; lia|].
  rewrite ellipsis_count_cons. cbn [existsb].
  destruct (is_Ellipsis h); [reflexivity|exact IH].
Qed.

Lemma firstn_app_exact {A} (pre suf : list A) :
  firstn (N.to_nat (N.of_nat (List.length pre))) (pre ++ suf) = pre.
Proof.
  rewrite Nat2N.id, firstn_app, firstn_all, Nat.sub_diag, firstn_O.
  apply app_nil_r.
Qed.

Lemma scan_step_ellipsis (tv : list PyObject) (pos : Z) (cur_sum : N) (unk : bool)
      (i : N) (h : PyObject) :
  is_Ellipsis h = true ->
  ellipsis_scan_step tv (pos, cur_sum, unk) (i, h) =
  if existsb is_Ellipsis (firstn (N.to_nat i) tv)
  then Raise (index_error "only one ellipsis is allowed.")
  else Ok (Z.of_N i, cur_sum, unk).
Proof. intros Hh. unfold ellipsis_scan_step. now rewrite Hh. Qed.

(** On any other entry the scan moves on; the position found so far and
    the unknown-rank flag are kept. *)
Lemma scan_step_other (tv : list PyObject) (pos : Z) (cur_sum : N) (unk : bool)
      (i : N) (h : PyObject) :
  is_Ellipsis h = false ->
  exists cur_sum',
    ellipsis_scan_step tv (pos, cur_sum, unk) (i, h) = Ok (pos, cur_sum', unk).
Proof.
  intros Hh. unfold ellipsis_scan_step. rewrite Hh.
  destruct (getattr_dtype h) as [d|]; [|eexists; reflexivity].
  destruct (getattr_ndim h) as [msg|v] eqn:Hn; [eexists; reflexivity|].
  destruct (ndim_cast_ok h v Hn) as (n & -> & _).
  destruct (is_bool_dtype h); cbn [PyLong_Check]; eexists; reflexivity.
Qed.

Lemma app_shift {A} (pre : list A) (h : A) (suf : list A) :
  pre ++ h :: suf = (pre ++ [h]) ++ suf.
Proof. now rewrite <- app_assoc. Qed.

Lemma length_snoc {A} (pre : list A) (h : A) :
  S (List.length pre) = List.length (pre ++ [h]).
Proof. rewrite length_app. simpl. lia. Qed.

Lemma ellipsis_scan_raises (suf : list PyObject) :
  forall pre st,
    (existsb is_Ellipsis pre = true /\ existsb is_Ellipsis suf = true) \/
    (2 <= ellipsis_count suf)%nat ->
    rfold (ellipsis_scan_step (pre ++ suf)) (enumerate_from (List.length pre) suf) st =
    Raise (index_error "only one ellipsis is allowed.").
Proof.
  induction suf as [|h suf IH]; intros pre [[pos cs] unk] Hc.
  - destruct Hc as [[_ H]|H]; [discriminate H | cbn in H; lia].
  - rewrite enumerate_from_cons. cbn [rfold].
    rewrite ellipsis_count_cons in Hc. cbn [existsb] in Hc.
    destruct (is_Ellipsis h) eqn:Hh.
    + rewrite scan_step_ellipsis by exact Hh. rewrite firstn_app_exact.
      destruct (existsb is_Ellipsis pre) eqn:Hp; [reflexivity|].
      cbn [rbind]. rewrite app_shift, (length_snoc pre h). apply IH. left. split.
      * rewrite existsb_app. cbn [existsb]. rewrite Hh. now rewrite orb_true_r.
      * destruct Hc as [[H _]|H]; [discriminate H|].
        apply ellipsis_count_positive. lia.
    + destruct (scan_step_other (pre ++ h :: suf) pos cs unk
                  (N.of_nat (List.length pre)) h Hh) as (cs' & ->).
      cbn [rbind]. rewrite app_shift, (length_snoc pre h). apply IH.
      destruct Hc as [[Hp Hs]|Hc]; [left|right; exact Hc].
      split; [|exact Hs].
      rewrite existsb_app. now rewrite Hp.
Qed.

(** With at most one ellipsis the scan ends normally, and the
    unknown-rank flag it returns is the one it started with. *)
Lemma ellipsis_scan_quiet (suf : list PyObject) :
  forall pre pos cs unk,
    (existsb is_Ellipsis pre = true -> ellipsis_count suf = 0%nat) ->
    (ellipsis_count suf <= 1)%nat ->
    exists pos' cs',
      rfold (ellipsis_scan_step (pre ++ suf)) (enumerate_from (List.length pre) suf)
            (pos, cs, unk) = Ok (pos', cs', unk).
Proof.
  induction suf as [|h suf IH]; intros pre pos cs unk Hpre Hle.
  - exists pos, cs. reflexivity.
  - rewrite enumerate_from_cons. cbn [rfold].
    rewrite ellipsis_count_cons in Hpre, Hle.
    destruct (is_Ellipsis h) eqn:Hh.
    + rewrite scan_step_ellipsis by exact Hh. rewrite firstn_app_exact.
      destruct (existsb is_Ellipsis pre) eqn:Hp; [specialize (Hpre eq_refl); lia|].
      cbn [rbind]. rewrite app_shift, (length_snoc pre h). apply IH; lia.
    + destruct (scan_step_other (pre ++ h :: suf) pos cs unk
                  (N.of_nat (List.length pre)) h Hh) as (cs' & ->).
      cbn [rbind]. rewrite app_shift, (length_snoc pre h). apply IH; [|exact Hle].
      rewrite existsb_app. cbn [existsb]. rewrite Hh, !orb_false_r. exact Hpre.
Qed.

Lemma remove_ellipsis_raises (inp : PyObject) (l : list PyObject) :
  (2 <= ellipsis_count l)%nat ->
  _remove_ellipsis inp l = Raise (index_error "only one ellipsis is allowed.").
Proof.
  intros H. unfold _remove_ellipsis. rewrite enumerate_is_from.
  rewrite (ellipsis_scan_raises l [] _ (or_intror H)). reflexivity.
Qed.

Lemma remove_ellipsis_no_index_error (inp : PyObject) (l : list PyObject) (r : N) :
  (ellipsis_count l <= 1)%nat ->
  static_rank inp = Some r ->
  forall msg, _remove_ellipsis inp l <> Raise (index_error msg).
Proof.
  intros Hle Hr msg. unfold _remove_ellipsis. rewrite enumerate_is_from.
  destruct (ellipsis_scan_quiet l [] (-1)%Z 0%N false) as (pos & cs & Hscan);
    [discriminate | exact Hle |].
  change (@nil PyObject ++ l) with l in Hscan.
  change (List.length (@nil PyObject)) with 0%nat in Hscan.
  rewrite Hscan. cbn [rbind].
  destruct (pos =? -1)%Z; [discriminate|].
  rewrite (static_rank_ndim inp r Hr). cbn [cast_size_t].
  destruct (0 <=? Z.of_N r)%Z eqn:Hz; [|apply Z.leb_gt in Hz; lia].
  cbn [rbind].
  match goal with
  | |- (if ?a then _ else if ?b then _ else _) <> _ =>
      destruct a; [discriminate|]; destruct b; discriminate
  end.
Qed.

(* ================================================================== *)
(** ** Shapes as the lowering reads them *)

Lemma solve_all_longs (l : list Z) :
  Forall (fun z => in_long z = true) l -> solve_all (map PyLong l) = Ok (map PyLong l).
Proof.
  intros H. unfold solve_all.
  assert (Hp : rmap solve_one (map PyLong l) = Ok (map (fun z => [PyLong z]) l)).
  { induction H as [|z l Hz _ IH]; [reflexivity|].
    cbn [map rmap solve_one rbind]. unfold append_long.
    cbn [PyLong_AsLong_fails PyLong_AsLong]. unfold in_long in Hz.
    rewrite Hz, IH. reflexivity. }
  rewrite Hp. cbn [rbind]. f_equal.
  clear. induction l as [|z l IH]; [reflexivity|]. cbn. now rewrite IH.
Qed.

Lemma dims_in_long (s : list N) :
  Forall (fun d => (d < 2 ^ 63)%N) s ->
  Forall (fun z => in_long z = true) (map Z.of_N s).
Proof.
  intros H. apply Forall_map. eapply Forall_impl; [|exact H].
  intros d Hd. cbv beta in Hd. unfold in_long.
  apply andb_true_intro. split; [apply Z.leb_le | apply Z.ltb_lt]; lia.
Qed.

Lemma ToList_vector (data : list Z) :
  forall k,
    map (fun i => ToList [] (firstn (N.to_nat (prod_N [])) (skipn (i * N.to_nat (prod_N [])) data)))
        (seq k (List.length data - k)) =
    map PyLong (skipn k data).
Proof.
  intros k. remember (List.length data - k)%nat as m eqn:Hm.
  revert k Hm. induction m as [|m IH]; intros k Hm.
  - rewrite skipn_all2 by lia. reflexivity.
  - cbn [seq map]. rewrite IH by lia.
    change (N.to_nat (prod_N [])) with 1%nat. rewrite Nat.mul_1_r.
    assert (Hk : (k < List.length data)%nat) by lia.
    destruct (skipn k data) as [|z tl] eqn:Hs.
    + apply (f_equal (@List.length Z)) in Hs. rewrite length_skipn in Hs.
      cbn in Hs. lia.
    + cbn [firstn ToList hd map]. f_equal.
      replace (S k) with (1 + k)%nat by lia.
      rewrite <- skipn_skipn, Hs. reflexivity.
Qed.

(** Reading the shape of a tensor whose shape is known gives its
    dimensions, with symbolic shapes switched on or off. *)
Lemma shape_of_tensor (E : Engine) (t : TensorData) (s : list N) :
  t_shape t = Some s ->
  Forall (fun d => (d < 2 ^ 63)%N) s ->
  shape_of E (PyTensor t) = Ok (dims s).
Proof.
  intros Ht Hs. unfold shape_of, getattr_shape'. cbn [getattr_shape]. rewrite Ht.
  assert (Hplain : _make_shape_tuple (shape_tuple s) = Ok (dims s)).
  { unfold shape_tuple, dims. rewrite <- (map_map Z.of_N PyLong).
    cbn [_make_shape_tuple]. apply solve_all_longs, dims_in_long, Hs. }
  destruct s as [|d s]; [reflexivity|].
  destruct (cpp_use_symbolic_shape E); cbn [attr_get rbind]; [|exact Hplain].
  unfold _make_shape_tuple, solve_one, tensor_ToList.
  cbn [t_shape t_data rbind ToList]. f_equal. unfold size.
  rewrite Nat2N.id.
  pose proof (ToList_vector (map Z.of_N (d :: s)) 0) as Hv.
  rewrite Nat.sub_0_r, length_map in Hv. cbn [skipn] in Hv.
  transitivity (map PyLong (map Z.of_N (d :: s)));
    [exact Hv | unfold dims; now rewrite map_map].
Qed.






Lemma dtype_has_shape (E : Engine) (o : PyObject) (d : PyArray_Descr) :
  getattr_dtype o = Some d -> exists v, getattr_shape' E o = AttrVal v.
Proof.
  unfold getattr_shape'.
  destruct o as [| | | | | | | | |a|d'| |t]; simpl; try discriminate; intros _;
    try (eexists; reflexivity).
  destruct (t_shape t) as [[|dim s]|]; try (eexists; reflexivity).
  destruct (cpp_use_symbolic_shape E); eexists; reflexivity.
Qed.

(* ================================================================== *)
(** ** The conditional-take shortcut *)

Section ShortcutFacts.

Variable E : Engine.

(** When the shortcut does not apply it returns the empty tuple and
    applies nothing. *)
Lemma try_cond_take_skips (tensor index : PyObject) (log : list Invocation) :
  getattr_dtype index = None \/
  is_bool_dtype index = false \/
  (exists ishape tshape,
      shape_of E index = Ok ishape /\ shape_of E tensor = Ok tshape /\
      tuple_eqb ishape tshape = false) ->
  _try_cond_take E tensor index log = (Ok [], log).
Proof.
  intros H. unfold _try_cond_take.
  destruct (getattr_dtype index) as [d|] eqn:Hd; [|reflexivity].
  destruct (dtype_has_shape E index d Hd) as (v & Hv). rewrite Hv.
  cbn [negb hasattr orb].
  destruct (is_bool_dtype index) eqn:Hb; [|reflexivity]. cbn [negb].
  destruct H as [H|[H|(il & tl & Hi & Ht & Hne)]]; try discriminate H.
  unfold shape_of in Hi, Ht. rewrite Hv in Hi.
  rewrite Hi, bind_lift_ok, Ht, bind_lift_ok, Hne. reflexivity.
Qed.




End ShortcutFacts.



(* ================================================================== *)
(** ** Index unpacking: what stops it before any item is built *)

Section UnpackFacts.

Variable E : Engine.

Lemma unpack_stops_in_count (inp idx : PyObject) (e : exn) (log : list Invocation) :
  rfold count_step (as_index_tuple idx) (false, false, 0%N) = Raise e ->
  _unpack_indexes E inp idx log = (Raise e, log).
Proof. intros H. unfold _unpack_indexes. rewrite H. reflexivity. Qed.

Lemma unpack_stops_in_rank_check (inp idx : PyObject) (nr ne : bool) (n : N)
      (e : exn) (log : list Invocation) :
  rfold count_step (as_index_tuple idx) (false, false, 0%N) = Ok (nr, ne, n) ->
  rank_check inp n = Raise e ->
  _unpack_indexes E inp idx log = (Raise e, log).
Proof.
  intros H1 H2. unfold _unpack_indexes. rewrite H1, bind_lift_ok, H2. reflexivity.
Qed.

Lemma unpack_stops_in_ellipsis (inp idx : PyObject) (ne : bool) (n : N)
      (e : exn) (log : list Invocation) :
  rfold count_step (as_index_tuple idx) (false, false, 0%N) = Ok (true, ne, n) ->
  rank_check inp n = Ok tt ->
  _remove_ellipsis inp (as_index_tuple idx) = Raise e ->
  _unpack_indexes E inp idx log = (Raise e, log).
Proof.
  intros H1 H2 H3. unfold _unpack_indexes.
  rewrite H1, bind_lift_ok, H2, bind_lift_ok, H3. reflexivity.
Qed.

Lemma getitem_stops_in_unpack (inp idx : PyObject) (e : exn) (log : list Invocation) :
  _try_cond_take E inp idx log = (Ok [], log) ->
  _unpack_indexes E inp idx log = (Raise e, log) ->
  _getitem_cpp E inp idx log = (Raise e, log).
Proof.
  intros Ht Hu. unfold _getitem_cpp.
  rewrite (bind_run _ _ log log [] Ht). cbn [size List.length N.of_nat N.eqb].
  unfold getitem_lowering. now rewrite (bind_run_raise _ _ log log e Hu).
Qed.

Lemma setitem_stops_in_unpack (inp idx val_hdl org val : PyObject) (e : exn)
      (log : list Invocation) :
  attr_get (getattr_shape' E inp) = Ok org ->
  setitem_value E inp val_hdl = Ok val ->
  _unpack_indexes E inp idx log = (Raise e, log) ->
  _setitem_cpp E inp idx val_hdl log = (Raise e, log).
Proof.
  intros Ho Hv Hu. unfold _setitem_cpp.
  rewrite Ho, bind_lift_ok, Hv, bind_lift_ok.
  now rewrite (bind_run_raise _ _ log log e Hu).
Qed.

(** A failure of index unpacking on an index that is no array or tensor
    is the failure of get and of set, with the log untouched. *)
Lemma unpack_failure_spreads (inp idx : PyObject) (e : exn) (log : list Invocation) :
  getattr_dtype idx = None ->
  _unpack_indexes E inp idx log = (Raise e, log) ->
  _getitem_cpp E inp idx log = (Raise e, log) /\
  (forall val_hdl org val,
      attr_get (getattr_shape' E inp) = Ok org ->
      setitem_value E inp val_hdl = Ok val ->
      _setitem_cpp E inp idx val_hdl log = (Raise e, log)).
Proof.
  intros Hd Hu. split.
  - apply getitem_stops_in_unpack; [|exact Hu].
    apply try_cond_take_skips. now left.
  - intros val_hdl org val Ho Hv.
    now apply (setitem_stops_in_unpack inp idx val_hdl org val).
Qed.

Lemma In_None_dec (l : list PyObject) : {In PyNone l} + {~ In PyNone l}.
Proof.
  destruct (existsb is_None l) eqn:Hex.
  - left. apply existsb_exists in Hex. destruct Hex as (x & Hin & Hx).
    destruct x; try discriminate Hx. exact Hin.
  - right. intros Hin.
    assert (H : existsb is_None l = true)
      by (apply existsb_exists; exists PyNone; split; [exact Hin|reflexivity]).
    rewrite H in Hex. discriminate Hex.
Qed.

(** C10.  If None occurs among the entries of the index, the first loop
    of index unpacking raises [IndexError("newaxis is not allowed here")];
    get and set fail with that error and the invocation log is as it was
    on entry: no item was built and no operator was applied. *)
Theorem newaxis_rejected_before_lowering (inp idx : PyObject)
        (log : list Invocation) :
  In PyNone (as_index_tuple idx) ->
  let e := index_error "newaxis is not allowed here" in
  rfold count_step (as_index_tuple idx) (false, false, 0%N) = Raise e /\
  _unpack_indexes E inp idx log = (Raise e, log) /\
  _getitem_cpp E inp idx log = (Raise e, log) /\
  (forall val_hdl org val,
      attr_get (getattr_shape' E inp) = Ok org ->
      setitem_value E inp val_hdl = Ok val ->
      _setitem_cpp E inp idx val_hdl log = (Raise e, log)).
Proof.
  intros Hin e.
  pose proof (count_loop_newaxis (as_index_tuple idx) Hin (false, false, 0%N)) as Hc.
  pose proof (unpack_stops_in_count inp idx e log Hc) as Hu.
  split; [exact Hc|]. split; [exact Hu|].
  apply unpack_failure_spreads; [|exact Hu].
  destruct idx; try reflexivity; simpl in Hin; destruct Hin as [H|[]];
    discriminate H.
Qed.

Lemma unpack_refuses_ellipses (inp : PyObject) (l : list PyObject)
      (log : list Invocation) :
  (2 <= ellipsis_count l)%nat ->
  exists msg,
    _unpack_indexes E inp (PyTuple l) log = (Raise (index_error msg), log).
Proof.
  intros H2. destruct (In_None_dec l) as [Hin|Hno].
  - eexists. apply unpack_stops_in_count.
    exact (count_loop_newaxis l Hin (false, false, 0%N)).
  - destruct (count_loop_ok l Hno false false 0%N) as (ne & Hc).
    rewrite ellipsis_count_positive in Hc by lia. cbn [orb] in Hc.
    destruct (rank_check_cases inp (0 + consumed_axes l)%N) as [Hr|(msg & Hr)].
    + eexists. apply (unpack_stops_in_ellipsis inp (PyTuple l) ne _ _ log Hc Hr).
      now apply remove_ellipsis_raises.
    + exists msg. exact (unpack_stops_in_rank_check inp (PyTuple l) _ _ _ _ log Hc Hr).
Qed.

(** C6.  An index tuple with two or more ellipses is refused with an
    [IndexError] by index unpacking, hence by get and by set, and nothing
    is applied.  With one ellipsis (or none) and a rank that can be read,
    ellipsis removal raises no [IndexError]. *)
Theorem ellipsis_uniqueness (inp : PyObject) (l : list PyObject)
        (log : list Invocation) :
  ((2 <= ellipsis_count l)%nat ->
   exists msg,
     _unpack_indexes E inp (PyTuple l) log = (Raise (index_error msg), log) /\
     _getitem_cpp E inp (PyTuple l) log = (Raise (index_error msg), log) /\
     (forall val_hdl org val,
         attr_get (getattr_shape' E inp) = Ok org ->
         setitem_value E inp val_hdl = Ok val ->
         _setitem_cpp E inp (PyTuple l) val_hdl log =
         (Raise (index_error msg), log))) /\
  ((ellipsis_count l <= 1)%nat ->
   forall r, static_rank inp = Some r ->
   forall msg, _remove_ellipsis inp l <> Raise (index_error msg)).
Proof.
  split.
  - intros H2. destruct (unpack_refuses_ellipses inp l log H2) as (msg & Hu).
    exists msg. split; [exact Hu|].
    now apply unpack_failure_spreads.
  - intros Hle r Hr msg. now apply (remove_ellipsis_no_index_error inp l r).
Qed.



End UnpackFacts.

(* ================================================================== *)
(** ** The shape test of set *)

Lemma rfold_unit_ok {A} (f : unit -> A -> result unit) (l : list A) :
  (forall i, In i l -> f tt i = Ok tt) -> rfold f l tt = Ok tt.
Proof.
  induction l as [|a l IH]; intros H; [reflexivity|].
  cbn [rfold]. rewrite (H a (or_introl eq_refl)). cbn [rbind].
  apply IH. intros i Hi. apply H. now right.
Qed.

Lemma rfold_unit_raise {A} (f : unit -> A -> result unit) (l : list A) (e : exn) :
  (forall i, In i l -> f tt i = Ok tt \/ f tt i = Raise e) ->
  (exists i, In i l /\ f tt i = Raise e) ->
  rfold f l tt = Raise e.
Proof.
  induction l as [|a l IH]; intros Hall (i & Hin & Hi); [contradiction|].
  cbn [rfold]. destruct (Hall a (or_introl eq_refl)) as [Ha|Ha]; rewrite Ha.
  - cbn [rbind]. apply IH; [intros j Hj; apply Hall; now right|].
    destruct Hin as [<-|Hin]; [rewrite Ha in Hi; discriminate Hi|].
    now exists i.
  - reflexivity.
Qed.

Lemma in_range (lo hi i : N) : In i (range lo hi) <-> (lo <= i < hi)%N.
Proof.
  unfold range. rewrite in_map_iff. split.
  - intros (k & <- & Hk). apply in_seq in Hk. lia.
  - intros H. exists (N.to_nat i). split; [apply N2Nat.id|]. apply in_seq. lia.
Qed.

Lemma cast_size_t_dim (d : N) : cast_size_t (PyLong (Z.of_N d)) = Ok d.
Proof.
  cbn [cast_size_t]. destruct (Z.leb_spec 0 (Z.of_N d)); [|lia]. now rewrite N2Z.id.
Qed.

Lemma shape_tuple_item (s : list N) (i : N) :
  (i < size s)%N ->
  tuple_item (map (fun d => PyLong (Z.of_N d)) s) i = Ok (PyLong (Z.of_N (nth (N.to_nat i) s 0%N))).
Proof.
  intros Hi. unfold tuple_item, size in *.
  rewrite nth_error_map.
  rewrite (nth_error_nth' s 0%N) by lia. reflexivity.
Qed.

Lemma shape_text_total (s : list N) :
  forall n acc, exists txt,
    rfold shape_text_step (enumerate_from n (map (fun d => PyLong (Z.of_N d)) s)) acc =
    Ok txt.
Proof.
  induction s as [|d s IH]; intros n acc; [exists acc; reflexivity|].
  cbn [map]. rewrite enumerate_from_cons. cbn [rfold].
  unfold shape_text_step at 1. rewrite cast_size_t_dim. cbn [rbind]. apply IH.
Qed.

Section SetShapeFacts.

Variable E : Engine.

Lemma broadcast_check_dim_eval (vs ts : list N) (i : N) :
  (i < N.min (size vs) (size ts))%N ->
  let V := map (fun d => PyLong (Z.of_N d)) vs in
  let T := map (fun d => PyLong (Z.of_N d)) ts in
  broadcast_check_dim V T tt i =
  if negb (dim_from_last vs i =? 1)%N &&
     negb (dim_from_last vs i =? dim_from_last ts i)%N
  then rbind (shape_text T) (fun lhs =>
       rbind (shape_text V) (fun rhs =>
         Raise (value_error
           ("cannot copy tensor with shape (" +++ rhs +++
            ") to subtensor with shape (" +++ lhs +++ ")"))))
  else Ok tt.
Proof.
  intros Hi V T. unfold broadcast_check_dim.
  assert (HV : size V = size vs) by (unfold size, V; now rewrite length_map).
  assert (HT : size T = size ts) by (unfold size, T; now rewrite length_map).
  rewrite HV, HT. unfold V, T.
  rewrite !shape_tuple_item by lia. cbn [rbind].
  rewrite !cast_size_t_dim. cbn [rbind]. reflexivity.
Qed.

(** The shape test of set on two known shapes: it passes exactly under
    the trailing-dimension rule, and otherwise raises a [ValueError]. *)
Lemma broadcast_check_rule (val tmp_result : PyObject) (vs ts : list N) :
  getattr__tuple_shape val = AttrVal (shape_tuple vs) ->
  getattr__tuple_shape tmp_result = AttrVal (shape_tuple ts) ->
  (trailing_dims_fit vs ts -> broadcast_check val tmp_result = Ok tt) /\
  (~ trailing_dims_fit vs ts ->
   exists msg, broadcast_check val tmp_result = Raise (value_error msg)).
Proof.
  intros Hv Ht. unfold broadcast_check. rewrite Hv, Ht. cbn [attr_get rbind].
  unfold shape_tuple.
  assert (HV : size (map (fun d => PyLong (Z.of_N d)) vs) = size vs)
    by (unfold size; now rewrite length_map).
  assert (HT : size (map (fun d => PyLong (Z.of_N d)) ts) = size ts)
    by (unfold size; now rewrite length_map).
  rewrite HV, HT.
  destruct (shape_text_total ts 0 "") as (lhs & Hl).
  destruct (shape_text_total vs 0 "") as (rhs & Hr).
  split.
  - intros Hfit. apply rfold_unit_ok. intros i Hi. apply in_range in Hi.
    rewrite broadcast_check_dim_eval by lia.
    destruct (Hfit i (proj2 Hi)) as [H1|H2].
    + rewrite H1. reflexivity.
    + rewrite H2, N.eqb_refl. now rewrite andb_false_r.
  - intros Hno. eexists. apply rfold_unit_raise.
    + intros i Hi. apply in_range in Hi.
      rewrite broadcast_check_dim_eval by lia.
      unfold shape_text. rewrite !enumerate_is_from, Hl, Hr. cbn [rbind].
      match goal with |- context [if ?c then _ else _] => destruct c end;
        [right; reflexivity | now left].
    + assert (Hex : exists i, (i < N.min (size vs) (size ts))%N /\
                      dim_from_last vs i <> 1%N /\
                      dim_from_last vs i <> dim_from_last ts i).
      { clear - Hno. unfold trailing_dims_fit in Hno.
        assert (Hdec : forall m,
                   (forall i, (i < N.of_nat m)%N ->
                      dim_from_last vs i = 1%N \/
                      dim_from_last vs i = dim_from_last ts i) \/
                   (exists i, (i < N.of_nat m)%N /\
                      dim_from_last vs i <> 1%N /\
                      dim_from_last vs i <> dim_from_last ts i)).
        { induction m as [|m [IH|(i & Hi & Hb)]].
          - left. intros i Hi. lia.
          - destruct (N.eq_dec (dim_from_last vs (N.of_nat m)) 1) as [H1|H1];
              [|destruct (N.eq_dec (dim_from_last vs (N.of_nat m))
                           (dim_from_last ts (N.of_nat m))) as [H2|H2]].
            + left. intros i Hi.
              destruct (N.eq_dec i (N.of_nat m)) as [->|Hne]; [now left|].
              apply IH. lia.
            + left. intros i Hi.
              destruct (N.eq_dec i (N.of_nat m)) as [->|Hne]; [now right|].
              apply IH. lia.
            + right. exists (N.of_nat m). split; [lia|]. now split.
          - right. exists i. split; [lia|exact Hb]. }
        destruct (Hdec (N.to_nat (N.min (size vs) (size ts)))) as [Hall|Hex].
        - exfalso. apply Hno. intros i Hi. apply Hall. lia.
        - destruct Hex as (i & Hi & Hb). exists i. split; [lia|exact Hb]. }
      destruct Hex as (i & Hi & H1 & H2). exists i. split.
      * apply in_range. lia.
      * rewrite broadcast_check_dim_eval by lia.
        apply N.eqb_neq in H1, H2. rewrite H1, H2. cbn [negb andb].
        unfold shape_text. rewrite !enumerate_is_from, Hl, Hr. reflexivity.
Qed.

(** A [ValueError] out of the shape test ends set right after the
    selection was applied. *)
Lemma setitem_stops_in_shape_test (inp idx val_hdl org val tmp_result : PyObject)
      (up : unpacked) (cpp_items : list index_item) (out : list PyObject)
      (msg : string) (log log1 : list Invocation) :
  attr_get (getattr_shape' E inp) = Ok org ->
  setitem_value E inp val_hdl = Ok val ->
  _unpack_indexes E inp idx log = (Ok up, log1) ->
  rmap cast_item (up_items up) = Ok cpp_items ->
  py_apply E (gather_op up cpp_items) (up_inp up :: up_tensors up) =
    Ok (tmp_result :: out) ->
  broadcast_check val tmp_result = Raise (value_error msg) ->
  _setitem_cpp E inp idx val_hdl log =
  (Raise (value_error msg),
   log1 ++ [(gather_op up cpp_items, up_inp up :: up_tensors up)]).
Proof.
  intros Ho Hv Hu Hc Ha Hb. unfold _setitem_cpp.
  rewrite Ho, bind_lift_ok, Hv, bind_lift_ok.
  rewrite (bind_run _ _ log log1 up Hu).
  rewrite Hc, bind_lift_ok.
  unfold gather_op in Ha.
  rewrite (bind_run _ _ log1
             (log1 ++ [(gather_op up cpp_items, up_inp up :: up_tensors up)])
             (tmp_result :: out)); [|unfold apply_op, gather_op; now rewrite Ha].
  cbn [tuple_item N.to_nat nth_error]. rewrite bind_lift_ok, Hb. reflexivity.
Qed.

(** C1, the defect.  When the value has shape (2,5) and the selected
    region has shape (2,3), set raises a [ValueError] right after the
    selection, but its text prints the two shapes as [25,] and [23,]:
    the separator is appended after each entry other than the first.
    Neither "(2,3)" nor "(2,5)" occurs in it. *)
Theorem setitem_mismatch_text_misjoined (inp idx val_hdl org val tmp_result : PyObject)
        (up : unpacked) (cpp_items : list index_item) (out : list PyObject)
        (log log1 : list Invocation) :
  attr_get (getattr_shape' E inp) = Ok org ->
  setitem_value E inp val_hdl = Ok val ->
  _unpack_indexes E inp idx log = (Ok up, log1) ->
  rmap cast_item (up_items up) = Ok cpp_items ->
  py_apply E (gather_op up cpp_items) (up_inp up :: up_tensors up) =
    Ok (tmp_result :: out) ->
  getattr__tuple_shape val = AttrVal (shape_tuple [2; 5]%N) ->
  getattr__tuple_shape tmp_result = AttrVal (shape_tuple [2; 3]%N) ->
  let msg := "cannot copy tensor with shape (25,) to subtensor with shape (23,)" in
  _setitem_cpp E inp idx val_hdl log =
  (Raise (value_error msg),
   log1 ++ [(gather_op up cpp_items, up_inp up :: up_tensors up)]) /\
  contains "(2,3)" msg = false /\
  contains "(2,5)" msg = false.
Proof.
  intros Ho Hv Hu Hc Ha Hvs Hts msg.
  split; [|split; reflexivity].
  apply (setitem_stops_in_shape_test inp idx val_hdl org val tmp_result up
           cpp_items out msg log log1); try assumption.
  unfold broadcast_check. rewrite Hvs, Hts. reflexivity.
Qed.

End SetShapeFacts.

(** C1, witness: a (2,5) value assigned through the full slice of a (2,3)
    tensor. *)
Lemma setitem_mismatch_text_misjoined_witness :
  fst (_setitem_cpp Demo.engine (Demo.tensor 1 [2; 3]%N) full_slice
         (Demo.tensor 2 [2; 5]%N) []) =
  Raise (value_error "cannot copy tensor with shape (25,) to subtensor with shape (23,)").
Proof.
  rewrite (proj1 (setitem_mismatch_text_misjoined Demo.engine
                    (Demo.tensor 1 [2; 3]%N) full_slice (Demo.tensor 2 [2; 5]%N)
                    (shape_tuple [2; 3]%N) (Demo.tensor 2 [2; 5]%N)
                    (Demo.tensor 1 [2; 3]%N)
                    (mkUnpacked (Demo.tensor 1 [2; 3]%N) [] [] true false)
                    [] [] [] []
                    eq_refl eq_refl eq_refl eq_refl eq_refl eq_refl eq_refl)).
  reflexivity.
Defined.

(* ================================================================== *)
(** ** Boolean masks of rank above one *)

(** The example of the specification: a (3,5) mask on a (3,4,5) tensor is
    refused at dimension 1, where the tensor has 4 and the mask 5.  No
    engine call is reached. *)
Lemma mask_mismatch_reported (E : Engine) (log : list Invocation) :
  _unpack_indexes E (Demo.tensor 1 [3; 4; 5]%N) (Demo.mask 2 [3; 5]%N) log =
  (Raise (index_error
     "boolean index did not match tensor along dimension 1; dimension is 4 but corresponding boolean dimension is 5"),
   log).
Proof.
  destruct E as [? ? ? ? ? ? ? ? ? ? sym ? ? ? ? ?].
  destruct sym; vm_compute; reflexivity.
Qed.

(** C4, the defect.  On a tensor of shape (3,4,5), the index made of a
    boolean mask of shape (3) followed by a boolean mask of shape (4,5)
    puts the second mask on axes 1 and 2, whose sizes (4,5) are the shape
    of the mask.  The loop does not advance its axis counter over the
    rank-1 mask, compares the second mask with axes 0 and 1 instead, and
    raises [IndexError] for dimension 0 although every dimension matches.
    Unpacking, get and set all fail so, with nothing applied. *)
Theorem mask_after_rank1_mask_misaligned (E : Engine) (log : list Invocation) :
  let inp := Demo.tensor 1 [3; 4; 5]%N in
  let idx := PyTuple [Demo.mask 2 [3]%N; Demo.mask 3 [4; 5]%N] in
  let e := index_error
    "boolean index did not match tensor along dimension 0; dimension is 3 but corresponding boolean dimension is 4" in
  shape_of E (Demo.mask 3 [4; 5]%N) = Ok [PyLong 4; PyLong 5] /\
  _unpack_indexes E inp idx log = (Raise e, log) /\
  _getitem_cpp E inp idx log = (Raise e, log) /\
  _setitem_cpp E inp idx (Demo.tensor 4 [1]%N) log = (Raise e, log).
Proof.
  intros inp idx e.
  assert (Hu : _unpack_indexes E inp idx log = (Raise e, log)).
  { destruct E as [? ? ? ? ? ? ? ? ? ? sym ? ? ? ? ?].
    destruct sym; vm_compute; reflexivity. }
  split.
  - destruct E as [? ? ? ? ? ? ? ? ? ? sym ? ? ? ? ?].
    destruct sym; vm_compute; reflexivity.
  - split; [exact Hu|].
    destruct (unpack_failure_spreads E inp idx e log eq_refl Hu) as (Hg & Hs).
    split; [exact Hg|].
    destruct (dtype_has_shape E inp NPY_FLOAT32 eq_refl) as (org & Ho).
    apply (Hs (Demo.tensor 4 [1]%N) org (Demo.tensor 4 [1]%N)); [|reflexivity].
    now rewrite Ho.
Qed.

(** The same misalignment after a mask of rank three: on a (2,3,4,5,6)
    tensor, a (2,3,4) mask followed by a (5,6) mask is refused at
    "dimension 3", the offset having been advanced by one instead of two. *)
Lemma mask_after_rank3_mask_misaligned :
  fst (_unpack_indexes Demo.engine (Demo.tensor 1 [2; 3; 4; 5; 6]%N)
         (PyTuple [Demo.mask 2 [2; 3; 4]%N; Demo.mask 3 [5; 6]%N]) []) =
  Raise (index_error
    "boolean index did not match tensor along dimension 3; dimension is 6 but corresponding boolean dimension is 5").
Proof. vm_compute. reflexivity. Qed.

(** A lone mask of rank two that matches is accepted: the [reshape]
    methods of the mask and of the tensor are called, so that the two
    masked axes become one of the flattened length, and the one operator
    unpacking itself hands to [py_apply] is the [CondTake] of the mask. *)
Lemma matching_mask_collapses_axes :
  exists up log,
    _unpack_indexes Demo.engine (Demo.tensor 1 [3; 4; 5]%N) (Demo.mask 2 [3; 4]%N) [] =
    (Ok up, log) /\
    getattr__tuple_shape (up_inp up) = AttrVal (shape_tuple [12; 5]%N) /\
    up_items up = [(0%Z, false, false, false, true)] /\
    up_use_subtensor up = false /\
    up_need_expand_bool_dim up = true /\
    List.map fst log = [CondTake].
Proof. eexists. eexists. vm_compute. repeat split. Qed.

(* ================================================================== *)
(** ** reshape: the validation loop *)

Lemma to_string_Z_of_N (n : N) : to_string_Z (Z.of_N n) = to_string_N n.
Proof. destruct n; reflexivity. Qed.

Lemma rfold_app {A S} (f : S -> A -> result S) (l1 l2 : list A) (s : S) :
  rfold f (l1 ++ l2) s = rbind (rfold f l1 s) (rfold f l2).
Proof.
  revert s. induction l1 as [|a l1 IH]; intros s; [reflexivity|].
  cbn [app rfold]. destruct (f s a); [apply IH|reflexivity].
Qed.

Lemma enumerate_from_app {A} (l1 l2 : list A) :
  forall n, enumerate_from n (l1 ++ l2) =
            enumerate_from n l1 ++ enumerate_from (n + List.length l1) l2.
Proof.
  induction l1 as [|a l1 IH]; intros n.
  - cbn [app List.length]. now rewrite Nat.add_0_r.
  - cbn [app List.length]. rewrite !enumerate_from_cons, IH.
    cbn [app]. now rewrite Nat.add_succ_r.
Qed.

Lemma expand_shape_args (l : list Z) : _expand_args (shape_args l) = PyList (map PyLong l).
Proof. destruct l as [|z [|z' l]]; reflexivity. Qed.

Lemma materialise_ints (args : PyObject) (l : list Z) :
  denotes_shape args l ->
  Forall (fun z => in_long z = true) l ->
  _make_shape_tuple (_expand_args args) = Ok (map PyLong l).
Proof.
  intros Hd H.
  assert (Hs : _make_shape_tuple (_expand_args args) = solve_all (map PyLong l)).
  { destruct Hd as [->|[->| ->]]; [rewrite expand_shape_args| |]; reflexivity. }
  rewrite Hs. now apply solve_all_longs.
Qed.

Lemma wrap_int32_small (n : nat) :
  (Z.of_nat n < 2 ^ 31)%Z -> wrap_int32 (Z.of_N (N.of_nat n)) = Z.of_nat n.
Proof.
  intros H. unfold wrap_int32. rewrite nat_N_Z.
  rewrite Z.mod_small by lia. lia.
Qed.

Lemma wildcard_count_cons (z : Z) (l : list Z) :
  wildcard_count (z :: l) =
  if (z =? -1)%Z then S (wildcard_count l) else wildcard_count l.
Proof. unfold wildcard_count. cbn [filter]. now destruct (z =? -1)%Z. Qed.

Section ReshapeFacts.

Variable E : Engine.

Lemma unspec_step_int (u : Z) (i : N) (z : Z) :
  unspec_step E u (i, PyLong z) =
  if (z <? 0)%Z then
    if negb (z =? -1)%Z then Raise (value_error (bad_shape_entry i z))
    else if (0 <=? u)%Z
         then Raise (value_error
                ("multiple -1 in shape: " +++ to_string_Z u +++ " & " +++ to_string_N i))
         else Ok (wrap_int32 (Z.of_N i))
  else Ok u.
Proof. reflexivity. Qed.

Lemma scan_nonneg (a : list Z) :
  Forall (fun z => 0 <= z)%Z a ->
  forall n u, rfold (unspec_step E) (enumerate_from n (map PyLong a)) u = Ok u.
Proof.
  induction 1 as [|z a Hz _ IH]; intros n u; [reflexivity|].
  cbn [map]. rewrite enumerate_from_cons. cbn [rfold]. rewrite unspec_step_int.
  replace (z <? 0)%Z with false by (symmetry; apply Z.ltb_ge; lia).
  cbn [rbind]. apply IH.
Qed.

(** A prefix with no entry below -1 and at most one -1 is scanned
    without a raise, whatever follows. *)
Lemma scan_quiet (a : list Z) :
  forall n u,
    Forall (fun z => -1 <= z)%Z a ->
    ((0 <= u)%Z -> wildcard_count a = 0%nat) ->
    (wildcard_count a <= 1)%nat ->
    (Z.of_nat (n + List.length a) <= 2 ^ 31)%Z ->
    exists u', rfold (unspec_step E) (enumerate_from n (map PyLong a)) u = Ok u'.
Proof.
  induction a as [|z a IH]; intros n u Hall Hu Hle Hn; [exists u; reflexivity|].
  cbn [map]. rewrite enumerate_from_cons. cbn [rfold]. rewrite unspec_step_int.
  rewrite wildcard_count_cons in Hu, Hle. cbn [List.length] in Hn.
  inversion Hall as [|? ? Hz Hall']; subst.
  destruct (Z.ltb_spec z 0) as [Hneg|Hpos].
  - assert (z = -1)%Z as -> by lia. cbn [negb Z.eqb Pos.eqb] in *.
    destruct (Z.leb_spec 0 u) as [H0|H0]; [specialize (Hu H0); discriminate Hu|].
    cbn [rbind]. apply IH; try assumption; try lia.
  - replace (z =? -1)%Z with false in * by (symmetry; apply Z.eqb_neq; lia).
    cbn [rbind]. apply IH; try assumption; lia.
Qed.

Lemma scan_rejects_below (l : list Z) :
  Exists (fun z => z < -1)%Z l ->
  forall n u, exists msg,
    rfold (unspec_step E) (enumerate_from n (map PyLong l)) u = Raise (value_error msg).
Proof.
  induction l as [|z l IH]; intros Hex n u; [inversion Hex|].
  cbn [map]. rewrite enumerate_from_cons. cbn [rfold]. rewrite unspec_step_int.
  destruct (Z.ltb_spec z 0) as [Hneg|Hpos].
  - destruct (Z.eqb_spec z (-1)) as [->|Hne]; cbn [negb].
    + destruct (0 <=? u)%Z; [eexists; reflexivity|].
      cbn [rbind]. apply IH. inversion Hex as [? ? Hz|? ? Hl]; [lia|exact Hl].
    + eexists; reflexivity.
  - cbn [rbind]. apply IH. inversion Hex as [? ? Hz|? ? Hl]; [lia|exact Hl].
Qed.

Lemma scan_rejects_second (l : list Z) :
  forall n u,
    (Z.of_nat (n + List.length l) <= 2 ^ 31)%Z ->
    ((0 <= u)%Z -> (1 <= wildcard_count l)%nat) ->
    ((u < 0)%Z -> (2 <= wildcard_count l)%nat) ->
    exists msg,
      rfold (unspec_step E) (enumerate_from n (map PyLong l)) u =
      Raise (value_error msg).
Proof.
  induction l as [|z l IH]; intros n u Hn H1 H2.
  - exfalso. cbn in H1, H2. destruct (Z.leb_spec 0 u); [specialize (H1 H)|]; lia.
  - cbn [map]. rewrite enumerate_from_cons. cbn [rfold]. rewrite unspec_step_int.
    rewrite wildcard_count_cons in H1, H2. cbn [List.length] in Hn.
    destruct (Z.ltb_spec z 0) as [Hneg|Hpos].
    + destruct (Z.eqb_spec z (-1)) as [->|Hne]; cbn [negb].
      * destruct (Z.leb_spec 0 u) as [H0|H0]; [eexists; reflexivity|].
        cbn [rbind]. rewrite wrap_int32_small by lia.
        apply IH; [lia| |]; intros; lia.
      * eexists; reflexivity.
    + destruct (Z.eqb_spec z (-1)) as [->|Hne]; [lia|].
      cbn [rbind]. apply IH; [lia|exact H1|exact H2].
Qed.

Lemma reshape_runs_scan (inp args : PyObject) (l : list Z) (log : list Invocation) :
  denotes_shape args l ->
  Forall (fun z => in_long z = true) l ->
  _reshape_cpp E inp args log =
  bind (lift (rfold (unspec_step E) (enumerate_from 0 (map PyLong l)) (-1)%Z))
       (reshape_lowering E inp (_expand_args args) (PyTuple (map PyLong l)))
       log.
Proof.
  intros Hd Hl. unfold _reshape_cpp.
  rewrite (materialise_ints args l Hd Hl), bind_lift_ok.
  reflexivity.
Qed.

Lemma tuple2vector_ints (l : list Z) :
  Forall (fun z => in_int32 z = true) l ->
  tuple2vector (PyTuple (map PyLong l)) = Ok (l, true).
Proof.
  intros H. cbn [tuple2vector].
  assert (Hg : forall shp, tuple2vector_loop (map PyLong l) shp = Ok (shp ++ l, true)).
  { induction H as [|z l Hz _ IH]; intros shp.
    - cbn. now rewrite app_nil_r.
    - cbn [map tuple2vector_loop PyLong_Check negb cast_int32]. rewrite Hz.
      cbn [rbind]. rewrite IH, <- app_assoc. reflexivity. }
  apply (Hg []).
Qed.

(** Whatever the lowering applies carries the axis found by the scan. *)
Lemma reshape_lowering_axis (inp shape_hdl shape_tup : PyObject) (u : Z)
      (log log' : list Invocation) (r : result PyObject) :
  (0 <= u)%Z ->
  reshape_lowering E inp shape_hdl shape_tup u log = (r, log') ->
  log' = log \/ exists shape p, log' = log ++ [(Reshape u shape, p)].
Proof.
  intros Hu. unfold reshape_lowering.
  replace (0 <=? u)%Z with true by (symmetry; apply Z.leb_le; exact Hu).
  destruct (tuple2vector shape_tup) as [[shape fp]|e];
    [|rewrite bind_lift_raise; intros [= _ <-]; now left].
  rewrite bind_lift_ok.
  destruct (fp && enable_fastpath E inp).
  - rewrite bind_ret. unfold bind, apply_op.
    destruct (py_apply E (Reshape u shape) [inp]); intros [= _ <-];
      right; eexists; eexists; reflexivity.
  - unfold bind, lift, apply_op, ret.
    destruct (attr_get (getattr_device inp)); [|intros [= _ <-]; now left].
    destruct (cpp_astensor1d E shape_hdl (Some inp)) as [st|e]; cbn [unchecked];
      [|intros [= _ <-]; now left].
    destruct (py_apply E (Reshape u []) [inp; st]); intros [= _ <-];
      right; eexists; eexists; reflexivity.
Qed.

(** C9, as the code has it.  For a shape given as integers that fit a C
    long, with at most 2^31 entries, passed as the arguments themselves or
    as one tuple or list: reshape raises a [ValueError], and
    applies nothing, whenever an entry is below -1 or two entries are -1;
    the error comes from the first offending entry: a second -1 is
    reported with the positions of the first two, an entry below -1 with
    its own position and value.  One -1 among non-negative entries is
    accepted and its position is the axis handed to [Reshape]. *)
Theorem reshape_wildcard_rule (inp args : PyObject) (l : list Z)
        (log : list Invocation) :
  denotes_shape args l ->
  Forall (fun z => in_long z = true) l ->
  (Z.of_nat (List.length l) <= 2 ^ 31)%Z ->
  (Exists (fun z => z < -1)%Z l \/ (2 <= wildcard_count l)%nat ->
   exists msg, _reshape_cpp E inp args log = (Raise (value_error msg), log)) /\
  (forall a b c,
      l = a ++ (-1)%Z :: b ++ (-1)%Z :: c ->
      Forall (fun z => 0 <= z)%Z a -> Forall (fun z => 0 <= z)%Z b ->
      _reshape_cpp E inp args log =
      (Raise (value_error
         (multiple_wildcards (size a) (size a + 1 + size b))), log)) /\
  (forall a z c,
      l = a ++ z :: c -> (z < -1)%Z ->
      Forall (fun z => -1 <= z)%Z a -> (wildcard_count a <= 1)%nat ->
      _reshape_cpp E inp args log =
      (Raise (value_error (bad_shape_entry (size a) z)), log)) /\
  (forall a b,
      l = a ++ (-1)%Z :: b ->
      Forall (fun z => 0 <= z)%Z a -> Forall (fun z => 0 <= z)%Z b ->
      let axis := Z.of_N (size a) in
      reshape_unspec_axis E (PyTuple (map PyLong l)) = Ok axis /\
      _reshape_cpp E inp args log =
      reshape_lowering E inp (_expand_args args) (PyTuple (map PyLong l))
                       axis log /\
      (forall r log',
          _reshape_cpp E inp args log = (r, log') ->
          log' = log \/ exists shape p, log' = log ++ [(Reshape axis shape, p)]) /\
      (Forall (fun z => in_int32 z = true) l -> enable_fastpath E inp = true ->
       _reshape_cpp E inp args log =
       (rbind (py_apply E (Reshape axis l) [inp]) (fun out => tuple_item out 0),
        log ++ [(Reshape axis l, [inp])]))).
Proof.
  intros Hden Hlong Hlen. rewrite (reshape_runs_scan inp args l log Hden Hlong).
  split; [|split; [|split]].
  - intros [Hb|H2].
    + destruct (scan_rejects_below l Hb 0%nat (-1)%Z) as (msg & ->).
      exists msg. reflexivity.
    + destruct (scan_rejects_second l 0%nat (-1)%Z) as (msg & ->);
        [exact Hlen | lia | intros _; exact H2 |].
      exists msg. reflexivity.
  - intros a b c -> Ha Hb.
    rewrite length_app in Hlen. cbn [List.length] in Hlen.
    rewrite length_app in Hlen. cbn [List.length] in Hlen.
    rewrite map_app. cbn [map]. rewrite map_app. cbn [map].
    rewrite enumerate_from_app, rfold_app, (scan_nonneg a Ha). cbn [rbind].
    rewrite enumerate_from_cons. cbn [rfold]. rewrite unspec_step_int.
    cbn [Z.ltb Z.compare negb Z.eqb Pos.eqb Z.leb rbind].
    rewrite length_map, Nat.add_0_l, wrap_int32_small by lia.
    rewrite enumerate_from_app, rfold_app, (scan_nonneg b Hb). cbn [rbind].
    rewrite enumerate_from_cons. cbn [rfold]. rewrite unspec_step_int.
    cbn [Z.ltb Z.compare negb Z.eqb Pos.eqb rbind].
    replace (0 <=? Z.of_nat (List.length a))%Z with true
      by (symmetry; apply Z.leb_le; lia).
    cbn [rbind]. rewrite bind_lift_raise. unfold multiple_wildcards, size.
    rewrite length_map, <- nat_N_Z, to_string_Z_of_N.
    replace (N.of_nat (S (List.length a) + List.length b))
      with (N.of_nat (List.length a) + 1 + N.of_nat (List.length b))%N by lia.
    reflexivity.
  - intros a z c -> Hz Ha Hc.
    rewrite length_app in Hlen. cbn [List.length] in Hlen.
    rewrite map_app. cbn [map].
    rewrite enumerate_from_app, rfold_app.
    destruct (scan_quiet a 0%nat (-1)%Z Ha) as (u' & ->); [lia|exact Hc|lia|].
    cbn [rbind]. rewrite enumerate_from_cons. cbn [rfold]. rewrite unspec_step_int.
    replace (z <? 0)%Z with true by (symmetry; apply Z.ltb_lt; lia).
    replace (z =? -1)%Z with false by (symmetry; apply Z.eqb_neq; lia).
    cbn [negb rbind]. rewrite bind_lift_raise. unfold size.
    now rewrite length_map, Nat.add_0_l.
  - intros a b -> Ha Hb axis.
    rewrite length_app in Hlen. cbn [List.length] in Hlen.
    assert (Hscan : rfold (unspec_step E)
                      (enumerate_from 0 (map PyLong (a ++ (-1)%Z :: b))) (-1)%Z =
                    Ok axis).
    { rewrite map_app. cbn [map].
      rewrite enumerate_from_app, rfold_app, (scan_nonneg a Ha). cbn [rbind].
      rewrite enumerate_from_cons. cbn [rfold]. rewrite unspec_step_int.
      cbn [Z.ltb Z.compare negb Z.eqb Pos.eqb Z.leb rbind].
      rewrite length_map, Nat.add_0_l, wrap_int32_small by lia.
      rewrite (scan_nonneg b Hb). unfold axis, size. now rewrite nat_N_Z. }
    split; [exact Hscan|]. rewrite Hscan, bind_lift_ok.
    split; [reflexivity|]. split.
    + intros r log'. apply reshape_lowering_axis. unfold axis. lia.
    + intros H32 Hfast. unfold reshape_lowering.
      rewrite (tuple2vector_ints _ H32), bind_lift_ok, Hfast. cbn [andb].
      replace (0 <=? axis)%Z with true by (symmetry; apply Z.leb_le; unfold axis; lia).
      rewrite bind_ret. unfold bind, apply_op, lift.
      destruct (py_apply E (Reshape axis (a ++ (-1)%Z :: b)) [inp]); reflexivity.
Qed.

End ReshapeFacts.

(* ================================================================== *)
(** ** Runs on concrete inputs *)

(** C10, witness: get with the index (0, None). *)
Lemma newaxis_rejected_witness :
  _getitem_cpp Demo.engine (Demo.tensor 1 [3; 4]%N) (PyTuple [PyLong 0; PyNone]) [] =
  (Raise (index_error "newaxis is not allowed here"), []).
Proof.
  exact (proj1 (proj2 (proj2
    (newaxis_rejected_before_lowering Demo.engine (Demo.tensor 1 [3; 4]%N)
       (PyTuple [PyLong 0; PyNone]) [] (or_intror (or_introl eq_refl)))))).
Defined.

(** C6, witness: get with the index (..., ..., 0). *)
Lemma ellipsis_uniqueness_witness :
  exists msg,
    _getitem_cpp Demo.engine (Demo.tensor 1 [3; 4]%N)
      (PyTuple [PyEllipsis; PyEllipsis; PyLong 0]) [] =
    (Raise (index_error msg), []).
Proof.
  assert (H2 : (2 <= ellipsis_count [PyEllipsis; PyEllipsis; PyLong 0])%nat)
    by (vm_compute; lia).
  destruct (proj1 (ellipsis_uniqueness Demo.engine (Demo.tensor 1 [3; 4]%N)
                     [PyEllipsis; PyEllipsis; PyLong 0] []) H2)
    as (msg & _ & Hg & _).
  exists msg. exact Hg.
Defined.



(** With no rank to read, an index of three integers is not refused by
    index unpacking: the items are built. *)
Lemma unknown_rank_lets_excess_through :
  let inp := PyTensor (mkTensor false NPY_FLOAT32 Demo.cpu0 None false [] 1) in
  exists up log,
    _unpack_indexes Demo.engine inp (PyTuple [PyLong 0; PyLong 0; PyLong 0]) [] =
    (Ok up, log) /\
    List.length (up_items up) = 3%nat.
Proof. eexists. eexists. vm_compute. split; reflexivity. Qed.

(** C9, witness: the shape (2,3,-1) for a tensor of 24 elements. *)
Lemma reshape_wildcard_rule_witness :
  _reshape_cpp Demo.engine (Demo.tensor 1 [24]%N) (shape_args [2; 3; -1]%Z) [] =
  (Ok (PyTensor (mkTensor false NPY_FLOAT32 Demo.cpu0 (Some [2; 3; 4]%N) false [] 1)),
   [(Reshape 2 [2; 3; -1]%Z, [Demo.tensor 1 [24]%N])]).
Proof.
  assert (Hlong : Forall (fun z => in_long z = true) [2; 3; -1]%Z)
    by (repeat constructor).
  assert (Hlen : (Z.of_nat (List.length [2; 3; -1]%Z) <= 2 ^ 31)%Z)
    by (vm_compute; discriminate).
  destruct (reshape_wildcard_rule Demo.engine (Demo.tensor 1 [24]%N)
              (shape_args [2; 3; -1]%Z) [2; 3; -1]%Z [] (or_introl eq_refl)
              Hlong Hlen) as (_ & _ & _ & Hone).
  destruct (Hone [2; 3]%Z [] eq_refl) as (_ & _ & _ & Hfast);
    [repeat constructor; lia | constructor |].
  rewrite Hfast; [reflexivity | repeat constructor | reflexivity].
Defined.

(** C9, as stated, fails when an entry below -1 stands before the second
    -1: for the shape (-1,-5,-1) reshape raises the error about entry 1,
    whose text shows neither 0 nor 2, the positions of the two -1. *)
Lemma two_wildcards_rule_fails_behind_bad_entry : ~ two_wildcards_rule_as_stated.
Proof.
  intros H.
  destruct (H Demo.engine (Demo.tensor 1 [24]%N) [-1; -5; -1]%Z 0%N 2%N []
              eq_refl) as (msg & log' & Hrun & Hp1 & _).
  vm_compute in Hrun. injection Hrun as <- _.
  vm_compute in Hp1. discriminate Hp1.
Qed.

(** With one ellipsis the index (0, ...) on a tensor of rank three becomes
    (0, :, :). *)
Lemma single_ellipsis_expands :
  _remove_ellipsis (Demo.tensor 1 [3; 4; 5]%N) [PyLong 0; PyEllipsis] =
  Ok [PyLong 0; full_slice; full_slice].
Proof. reflexivity. Qed.

(* ================================================================== *)
(** ** Path selection *)

(** Peels the successful binds of a hypothesis [... = Ok _]. *)
Ltac rbind_inv H :=
  repeat match type of H with
         | rbind ?x _ = Ok _ =>
             let a := fresh "a" in
             let He := fresh "He" in
             destruct x as [a|] eqn:He; cbn [rbind] in H; [|discriminate H]
         | (if ?c then _ else _) = Ok _ => destruct c
         end.

Section PathFacts.

Variable E : Engine.

Lemma expand_step_keeps_entry (st st' : expand_state) (i : N) (k : PyObject) :
  expand_step E st (i, k) = Ok st' -> snd st' = snd st ++ [k].
Proof.
  destruct st as [[[[t cs] off] td] acc]. unfold expand_step.
  intros H. rbind_inv H; try discriminate H; injection H as <-; reflexivity.
Qed.

Lemma expand_loop_keeps_entries (l : list PyObject) :
  forall n st st',
    rfold (expand_step E) (enumerate_from n l) st = Ok st' ->
    snd st' = snd st ++ l.
Proof.
  induction l as [|k l IH]; intros n st st' H.
  - injection H as <-. now rewrite app_nil_r.
  - rewrite enumerate_from_cons in H. cbn [rfold] in H.
    destruct (expand_step E st (N.of_nat n, k)) as [st1|] eqn:H1; [|discriminate H].
    cbn [rbind] in H. rewrite (IH _ _ _ H), (expand_step_keeps_entry _ _ _ _ H1).
    now rewrite <- app_assoc.
Qed.

Lemma expand_bool_dim_keeps_entries (inp inp' : PyObject) (l l' : list PyObject) :
  _expand_bool_dim E inp l = Ok (inp', l') -> l' = l.
Proof.
  unfold _expand_bool_dim. intros H.
  destruct (rbind (attr_get (getattr_shape' E inp)) _make_shape_tuple) as [cs|];
    [|discriminate H].
  cbn [rbind] in H. rewrite enumerate_is_from in H.
  destruct (rfold (expand_step E) (enumerate_from 0 l) (inp, cs, 0%N, 0%N, []))
    as [[[[[t cs'] off] td] acc]|] eqn:Hl; [|discriminate H].
  cbn [rbind] in H. injection H as _ <-.
  apply expand_loop_keeps_entries in Hl. exact Hl.
Qed.

Lemma build_items_keeps_subtensor (inp : PyObject) (l : list PyObject) :
  forallb basic_entry l = true ->
  forall cur_axis tensors items log tensors' items' u log',
    build_items E inp l cur_axis (tensors, items, true) log =
    (Ok (tensors', items', u), log') ->
    u = true.
Proof.
  induction l as [|handle l IH]; intros Hb ax ts its log ts' its' u log' H.
  - injection H as _ _ <- _. reflexivity.
  - cbn [forallb] in Hb. apply andb_prop in Hb. destruct Hb as [Hh Hl].
    unfold basic_entry in Hh. cbn [build_items] in H.
    replace (negb (is_scalar handle) && negb (PySlice_Check handle)) with false in H
      by (destruct (is_scalar handle), (PySlice_Check handle);
          try reflexivity; discriminate Hh).
    destruct handle;
      try (unfold bind in H;
           destruct (push E inp _ log) as [[[b4 t4]|e] lg]; [|discriminate H];
           exact (IH Hl _ _ _ _ _ _ _ _ H)).
    destruct (is_None handle1 && is_None handle2 && is_None handle3).
    + exact (IH Hl _ _ _ _ _ _ _ _ H).
    + unfold bind in H.
      destruct (push E inp handle1 log) as [[[b1 t1]|e] lg1]; [|discriminate H].
      destruct (push E inp handle2 lg1) as [[[b2 t2]|e] lg2]; [|discriminate H].
      destruct (push E inp handle3 lg2) as [[[b3 t3]|e] lg3]; [|discriminate H].
      exact (IH Hl _ _ _ _ _ _ _ _ H).
Qed.

Lemma basic_entry_plain (k : PyObject) :
  basic_entry k = true -> k <> PyNone /\ is_Ellipsis k = false.
Proof. destruct k; cbn; intros H; try discriminate H; split; congruence. Qed.

(** An index made only of slices and scalars is lowered on the basic
    path: whenever unpacking succeeds, [use_subtensor] is still set, and
    the index entries reach the item loop unchanged. *)
Lemma basic_entries_select_subtensor (inp idx : PyObject) (up : unpacked)
      (log log' : list Invocation) :
  forallb basic_entry (as_index_tuple idx) = true ->
  _unpack_indexes E inp idx log = (Ok up, log') ->
  up_use_subtensor up = true /\
  forall cpp_items, gather_op up cpp_items = Subtensor cpp_items.
Proof.
  intros Hb H.
  assert (Hu : up_use_subtensor up = true);
    [|split; [exact Hu | intros; unfold gather_op; now rewrite Hu]].
  assert (Hno : ~ In PyNone (as_index_tuple idx)).
  { intros Hin. rewrite forallb_forall in Hb.
    now destruct (basic_entry_plain _ (Hb _ Hin)). }
  assert (Hne : existsb is_Ellipsis (as_index_tuple idx) = false).
  { destruct (existsb is_Ellipsis (as_index_tuple idx)) eqn:Hex; [|reflexivity].
    apply existsb_exists in Hex. destruct Hex as (k & Hin & Hk).
    rewrite forallb_forall in Hb.
    destruct (basic_entry_plain _ (Hb _ Hin)) as [_ Hk']. congruence. }
  destruct (count_loop_ok (as_index_tuple idx) Hno false false 0%N) as (ne & Hc).
  rewrite Hne in Hc. cbn [orb] in Hc.
  unfold _unpack_indexes in H. rewrite Hc, bind_lift_ok in H.
  destruct (rank_check inp (0 + consumed_axes (as_index_tuple idx))%N) as [[]|e];
    [|rewrite bind_lift_raise in H; discriminate H].
  rewrite !bind_lift_ok in H.
  assert (Hbuild : forall inp1 l1 (log1 : list Invocation),
             l1 = as_index_tuple idx ->
             bind (build_items E inp1 l1 (-1) ([], [], true))
                  (fun x => let '(tensors, items, use_subtensor) := x in
                            ret (mkUnpacked inp1 tensors items use_subtensor ne))
                  log1 = (Ok up, log') ->
             up_use_subtensor up = true).
  { intros inp1 l1 log1 -> Hrun. unfold bind in Hrun.
    destruct (build_items E inp1 (as_index_tuple idx) (-1) ([], [], true) log1)
      as [[[[ts its] u]|e] lg] eqn:Hbi; [|discriminate Hrun].
    injection Hrun as <- _. cbn [up_use_subtensor].
    exact (build_items_keeps_subtensor inp1 _ Hb _ _ _ _ _ _ _ _ Hbi). }
  destruct ne.
  - destruct (attr_get (getattr_shape' E inp)) as [shape|e];
      [|cbn [rbind] in H; rewrite bind_lift_raise in H; discriminate H].
    cbn [rbind] in H. destruct (negb (is_None shape)).
    + destruct (_expand_bool_dim E inp (as_index_tuple idx)) as [[inp1 l1]|e] eqn:He;
        [|rewrite bind_lift_raise in H; discriminate H].
      rewrite bind_lift_ok in H.
      apply (Hbuild inp1 l1 log); [|exact H].
      exact (expand_bool_dim_keeps_entries _ _ _ _ He).
    + rewrite bind_lift_ok in H. apply (Hbuild inp _ log eq_refl H).
  - rewrite bind_lift_ok in H. apply (Hbuild inp _ log eq_refl H).
Qed.

End PathFacts.

(* ================================================================== *)
(** ** The comparison loop of one mask *)

Lemma range_split (lo mid hi : N) :
  (lo <= mid < hi)%N -> range lo hi = range lo mid ++ mid :: range (mid + 1) hi.
Proof.
  intros H. unfold range.
  replace (N.to_nat hi - N.to_nat lo)%nat
    with ((N.to_nat mid - N.to_nat lo) + S (N.to_nat hi - N.to_nat (mid + 1)))%nat
    by lia.
  rewrite seq_app, map_app. f_equal.
  replace (N.to_nat lo + (N.to_nat mid - N.to_nat lo))%nat with (N.to_nat mid) by lia.
  cbn [seq map]. rewrite N2Nat.id. f_equal.
  now replace (S (N.to_nat mid)) with (N.to_nat (mid + 1)) by lia.
Qed.

Lemma check_bool_dim_eval (cur mask : list N) (tdim offset j : N) :
  (tdim + j - offset < size cur)%N -> (j < size mask)%N ->
  check_bool_dim (dims cur) (dims mask) tdim offset tt j =
  let c := nth (N.to_nat (tdim + j - offset)) cur 0%N in
  let m := nth (N.to_nat j) mask 0%N in
  if (c =? m)%N then Ok tt
  else Raise (index_error (mask_mismatch (tdim + j) c m)).
Proof.
  intros Hc Hm. unfold check_bool_dim, dims.
  rewrite !shape_tuple_item by assumption. cbn [rbind].
  rewrite !cast_size_t_dim. cbn [rbind].
  destruct (_ =? _)%N; reflexivity.
Qed.

(** The loop over the dimensions of one mask, at the alignment
    [tdim - offset] the caller gives it: it passes when every dimension
    agrees, and otherwise raises for the first one that differs, naming
    the dimension and both sizes. *)
Lemma mask_check_loop (cur mask : list N) (tdim offset : N) :
  (tdim - offset + size mask <= size cur)%N -> (offset <= tdim)%N ->
  ((forall j, (j < size mask)%N ->
      nth (N.to_nat (tdim + j - offset)) cur 0%N = nth (N.to_nat j) mask 0%N) ->
   rfold (check_bool_dim (dims cur) (dims mask) tdim offset)
         (range 0 (size mask)) tt = Ok tt) /\
  (forall j0,
      (j0 < size mask)%N ->
      (forall j, (j < j0)%N ->
         nth (N.to_nat (tdim + j - offset)) cur 0%N = nth (N.to_nat j) mask 0%N) ->
      nth (N.to_nat (tdim + j0 - offset)) cur 0%N <> nth (N.to_nat j0) mask 0%N ->
      rfold (check_bool_dim (dims cur) (dims mask) tdim offset)
            (range 0 (size mask)) tt =
      Raise (index_error
               (mask_mismatch (tdim + j0)
                  (nth (N.to_nat (tdim + j0 - offset)) cur 0%N)
                  (nth (N.to_nat j0) mask 0%N)))).
Proof.
  intros Hfit Hoff. split.
  - intros Hall. apply rfold_unit_ok. intros j Hj. apply in_range in Hj.
    rewrite check_bool_dim_eval by lia. cbv zeta.
    rewrite (Hall j) by lia. now rewrite N.eqb_refl.
  - intros j0 Hj0 Hbefore Hdiff.
    rewrite (range_split 0 j0 (size mask)) by lia.
    rewrite rfold_app, rfold_unit_ok.
    + cbn [rbind rfold]. rewrite check_bool_dim_eval by lia. cbv zeta.
      apply N.eqb_neq in Hdiff. now rewrite Hdiff.
    + intros j Hj. apply in_range in Hj.
      rewrite check_bool_dim_eval by lia. cbv zeta.
      rewrite (Hbefore j) by lia. now rewrite N.eqb_refl.
Qed.

(** Two tensors on different devices: device resolution reports both,
    bare or wrapped alike. *)
Lemma ambiguous_device_reported :
  let ops := [Demo.typed NPY_FLOAT32 Demo.cpu0; Demo.typed NPY_FLOAT32 Demo.gpu0] in
  _get_device Demo.engine ops =
  Raise (value_error "ambiguous device: cpu0:0 (from cpux) vs gpu0:0 (from gpux)") /\
  _get_device Demo.engine [PyList ops] = _get_device Demo.engine ops.
Proof. split; reflexivity. Qed.

(* ================================================================== *)
(** ** Promotion and device resolution: failures *)

Section PromotionErrors.

Variable E : Engine.

Lemma promote_types_at_max (g : list PyArray_Descr) :
  (0 < max_category g)%N -> exists d, promote_types E g (max_category g) = Ok d.
Proof.
  intros Hpos. destruct (max_category_bounds g) as [_ [H0|(d & Hin & Hd)]]; [lia|].
  unfold promote_types.
  destruct (filter (fun desc => (category_priority (kind desc) =? max_category g)%N) g)
    as [|first rest] eqn:Hf.
  - exfalso.
    assert (Hm : In d (filter (fun desc =>
                   (category_priority (kind desc) =? max_category g)%N) g))
      by (apply filter_In; split; [exact Hin | now apply N.eqb_eq]).
    rewrite Hf in Hm. contradiction.
  - eexists. reflexivity.
Qed.

Lemma scalar_group_category (ops : list PyObject) :
  max_category (scalar_group ops) = 0%N <-> scalar_group ops = [].
Proof.
  split; [|intros ->; reflexivity].
  unfold scalar_group, group_of.
  induction ops as [|h ops IH]; [reflexivity|].
  cbn [flat_map]. destruct h; cbn [scalar_descr app]; try exact IH;
    unfold max_category; cbn [fold_right]; intros H; exfalso;
    match type of H with
    | N.max ?a _ = _ => assert (Ha : (0 < a)%N) by (vm_compute; reflexivity)
    end; lia.
Qed.

(** X1.  Dtype promotion fails in one way only: with the [ValueError]
    "invalid input, no dtype avaliable", and exactly when no operand is
    a Python bool, int or float and no tensor, array or numpy scalar
    operand has a boolean, integer or floating dtype.  In every other
    case a dtype is returned; the assertion inside [promote_types] is
    never reached from here. *)
Theorem dtype_promotion_fails_only_without_dtype (args : list PyObject) :
  let ops := unroll_args args in
  let no_dtype := value_error "invalid input, no dtype avaliable" in
  (scalar_group ops = [] /\ max_category (tensor_group ops) = 0%N <->
   _dtype_promotion E args = Raise no_dtype) /\
  (forall e, _dtype_promotion E args = Raise e -> e = no_dtype) /\
  (scalar_group ops <> [] \/ (0 < max_category (tensor_group ops))%N ->
   exists d, _dtype_promotion E args = Ok d).
Proof.
  intros ops no_dtype.
  rewrite dtype_promotion_unfold. cbv zeta. fold ops.
  rewrite !max_priority_is_max_category.
  pose proof (scalar_group_category ops) as Hs.
  destruct (N.leb_spec (max_category (scalar_group ops)) 0) as [HS|HS];
    destruct (N.leb_spec (max_category (tensor_group ops)) 0) as [HT|HT];
    cbn [andb].
  - assert (HS0 : max_category (scalar_group ops) = 0%N) by lia.
    assert (HT0 : max_category (tensor_group ops) = 0%N) by lia.
    split; [|split].
    + split; [reflexivity|]. intros _. split; [now apply Hs|exact HT0].
    + now intros e [= <-].
    + intros [H|H]; [|lia]. elim H. now apply Hs.
  - replace (max_category (tensor_group ops) <? max_category (scalar_group ops))%N
      with false by (symmetry; apply N.ltb_ge; lia).
    destruct (promote_types_at_max (tensor_group ops) HT) as (d & ->).
    split; [|split].
    + split; [intros [_ H]; lia | discriminate].
    + discriminate.
    + intros _. now exists d.
  - replace (max_category (tensor_group ops) <? max_category (scalar_group ops))%N
      with true by (symmetry; apply N.ltb_lt; lia).
    destruct (promote_types_at_max (scalar_group ops) HS) as (d & ->).
    split; [|split].
    + split; [intros [H _]; apply Hs in H; lia | discriminate].
    + discriminate.
    + intros _. now exists d.
  - assert (Hd : exists d,
               (if (max_category (tensor_group ops) <? max_category (scalar_group ops))%N
                then promote_types E (scalar_group ops) (max_category (scalar_group ops))
                else promote_types E (tensor_group ops) (max_category (tensor_group ops)))
               = Ok d).
    { destruct (_ <? _)%N; now apply promote_types_at_max. }
    destruct Hd as (d & ->).
    split; [|split].
    + split; [intros [_ H]; lia | discriminate].
    + discriminate.
    + intros _. now exists d.
Qed.

Lemma device_scan_from (cn : CompNode) (ops : list PyObject) :
  rfold device_step ops (Some cn) =
  match find (fun c => negb (CompNode_eqb c cn)) (tensor_devices ops) with
  | None => Ok (Some cn)
  | Some cn1 => Raise (value_error (ambiguous_device cn cn1))
  end.
Proof.
  induction ops as [|h ops IH]; [reflexivity|].
  cbn [rfold].
  destruct h as [| | | | | | | | | | | |t];
    try (cbn [device_step rbind tensor_devices flat_map app]; exact IH).
  cbn [device_step tensor_devices flat_map app find].
  destruct (CompNode_eqb (t_device t) cn); cbn [negb rbind]; [exact IH|reflexivity].
Qed.

(** X2.  Device resolution in closed form.  Operands that are not
    tensors are ignored; with no tensor operand the default device is
    returned; otherwise the device of the first tensor operand is
    returned when every later tensor operand is on it, and the first one
    that is not makes the call fail with the [ValueError] that names
    both devices. *)
Theorem get_device_closed_form (args : list PyObject) :
  _get_device E args =
  resolve_device (default_comp_node E) (tensor_devices (unroll_args args)).
Proof.
  unfold _get_device. generalize (unroll_args args) as ops.
  induction ops as [|h ops IH]; [reflexivity|].
  destruct h as [| | | | | | | | | | | |t];
    try (cbn [rfold device_step rbind tensor_devices flat_map app]; exact IH).
  cbn [rfold device_step rbind tensor_devices flat_map app resolve_device].
  rewrite device_scan_from.
  destruct (find _ _); reflexivity.
Qed.

End PromotionErrors.

(** X1, witness: a list and a string carry no dtype. *)
Lemma dtype_promotion_fails_only_without_dtype_witness :
  _dtype_promotion Demo.engine [PyList []; PyStr "a"] =
  Raise (value_error "invalid input, no dtype avaliable").
Proof.
  apply (proj1 (dtype_promotion_fails_only_without_dtype Demo.engine
                  [PyList []; PyStr "a"])).
  split; reflexivity.
Defined.

(* ================================================================== *)
(** ** Ellipsis removal: what the ellipsis becomes *)

Lemma consumed_axes_app (x y : list PyObject) :
  consumed_axes (x ++ y) = (consumed_axes x + consumed_axes y)%N.
Proof.
  induction x as [|h x IH]; [reflexivity|].
  cbn [app consumed_axes fold_right]. fold (consumed_axes (x ++ y)).
  fold (consumed_axes x). rewrite IH. lia.
Qed.

Lemma consumed_axes_full_slices (n : nat) :
  consumed_axes (repeat full_slice n) = N.of_nat n.
Proof.
  induction n as [|n IH]; [reflexivity|].
  cbn [repeat consumed_axes fold_right]. fold (consumed_axes (repeat full_slice n)).
  rewrite IH. cbn [entry_axes full_slice is_bool_dtype getattr_dtype]. lia.
Qed.

Lemma scan_step_counts (tv : list PyObject) (pos : Z) (cs : N) (unk : bool)
      (i : N) (h : PyObject) :
  is_Ellipsis h = false -> (entry_axes h < 2 ^ 63)%N ->
  ellipsis_scan_step tv (pos, cs, unk) (i, h) = Ok (pos, (cs + entry_axes h)%N, unk).
Proof.
  intros Hh Hsmall. unfold ellipsis_scan_step. rewrite Hh.
  assert (He : entry_axes h =
               if is_bool_dtype h then
                 match getattr_ndim h with
                 | AttrVal (PyLong n) => Z.to_N n
                 | _ => 1%N
                 end
               else 1%N)
    by (destruct h; try reflexivity; discriminate Hh).
  rewrite He in *. clear He.
  destruct (getattr_dtype h) as [d|] eqn:Hd.
  - destruct (getattr_ndim h) as [msg|v] eqn:Hn.
    + now destruct (is_bool_dtype h).
    + destruct (ndim_cast_ok h v Hn) as (n & -> & _).
      destruct (is_bool_dtype h); [|reflexivity].
      rewrite N2Z.id in *. cbn [PyLong_Check PyLong_AsLong].
      assert (Hz : (Z.of_N n < 2 ^ 63)%Z) by lia.
      replace ((- 2 ^ 63 <=? Z.of_N n)%Z && (Z.of_N n <? 2 ^ 63)%Z) with true
        by (symmetry; apply andb_true_intro; split;
            [apply Z.leb_le | apply Z.ltb_lt]; lia).
      unfold size_t_of_long. rewrite Z.mod_small by lia. now rewrite N2Z.id.
  - unfold is_bool_dtype. rewrite Hd. reflexivity.
Qed.

Lemma scan_counts (tv l : list PyObject) :
  existsb is_Ellipsis l = false ->
  Forall (fun k => (entry_axes k < 2 ^ 63)%N) l ->
  forall n pos cs unk,
    rfold (ellipsis_scan_step tv) (enumerate_from n l) (pos, cs, unk) =
    Ok (pos, (cs + consumed_axes l)%N, unk).
Proof.
  induction l as [|h l IH]; intros Hne Hs n pos cs unk.
  - cbn. now rewrite N.add_0_r.
  - cbn [existsb] in Hne. apply orb_false_elim in Hne. destruct Hne as [Hh Hl].
    inversion Hs as [|? ? Hh' Hl']; subst.
    rewrite enumerate_from_cons. cbn [rfold].
    rewrite scan_step_counts by assumption. cbn [rbind].
    rewrite IH by assumption.
    cbn [consumed_axes fold_right]. fold (consumed_axes l).
    now rewrite N.add_assoc.
Qed.

Lemma fill_keeps (pos : Z) (slices l : list PyObject) :
  forall n,
    (pos < Z.of_nat n \/ Z.of_nat (n + List.length l) <= pos)%Z ->
    flat_map (fun ih : N * PyObject =>
                let '(i, handle) := ih in
                if (Z.of_N i =? pos)%Z then slices else [handle])
             (enumerate_from n l) = l.
Proof.
  induction l as [|h l IH]; intros n Hn; [reflexivity|].
  rewrite enumerate_from_cons. cbn [flat_map List.length] in *.
  replace (Z.of_N (N.of_nat n) =? pos)%Z with false
    by (symmetry; apply Z.eqb_neq; lia).
  cbn [app]. f_equal. apply IH. lia.
Qed.

Lemma full_slices_of_range (lo hi : N) :
  map (fun _ : N => full_slice) (range lo hi) = repeat full_slice (N.to_nat (hi - lo)).
Proof.
  unfold range. rewrite map_map.
  replace (N.to_nat (hi - lo)) with (N.to_nat hi - N.to_nat lo)%nat by lia.
  generalize (N.to_nat hi - N.to_nat lo)%nat as k. generalize (N.to_nat lo) as s.
  intros s k. revert s. induction k as [|k IH]; intros s; [reflexivity|].
  cbn [seq map repeat]. now rewrite IH.
Qed.

Lemma remove_ellipsis_without (inp : PyObject) (l : list PyObject) :
  existsb is_Ellipsis l = false ->
  Forall (fun k => (entry_axes k < 2 ^ 63)%N) l ->
  _remove_ellipsis inp l = Ok l.
Proof.
  intros Hne Hs. unfold _remove_ellipsis. rewrite enumerate_is_from.
  rewrite (scan_counts l l Hne Hs). reflexivity.
Qed.

(** X3.  Ellipsis removal on a tensor of known rank [r].  In an index
    with one ellipsis whose other entries consume [c <= r] axes, the
    ellipsis is replaced, in place, by [r - c] full slices: the result
    has no ellipsis left, keeps the other entries in order, and consumes
    exactly [r] axes.  An index without ellipsis is returned as it is. *)
Theorem remove_ellipsis_fills (inp : PyObject) (a b : list PyObject) (r : N) :
  static_rank inp = Some r ->
  existsb is_Ellipsis (a ++ b) = false ->
  Forall (fun k => (entry_axes k < 2 ^ 63)%N) (a ++ b) ->
  (consumed_axes (a ++ b) <= r)%N ->
  let filled := a ++ repeat full_slice (N.to_nat (r - consumed_axes (a ++ b))) ++ b in
  _remove_ellipsis inp (a ++ PyEllipsis :: b) = Ok filled /\
  existsb is_Ellipsis filled = false /\
  consumed_axes filled = r /\
  _remove_ellipsis inp (a ++ b) = Ok (a ++ b).
Proof.
  intros Hr Hne Hs Hle filled. subst filled.
  assert (Hne' := Hne). rewrite existsb_app in Hne'.
  apply orb_false_elim in Hne'. destruct Hne' as [Hna Hnb].
  apply Forall_app in Hs as Hs'. destruct Hs' as [Hsa Hsb].
  rewrite consumed_axes_app in *.
  split; [|split; [|split]].
  - unfold _remove_ellipsis. rewrite enumerate_is_from, enumerate_from_app, rfold_app.
    rewrite (scan_counts _ a Hna Hsa). cbn [rbind].
    rewrite enumerate_from_cons. cbn [rfold]. rewrite Nat.add_0_l.
    rewrite scan_step_ellipsis by reflexivity.
    rewrite firstn_app_exact, Hna. cbn [rbind].
    rewrite (scan_counts _ b Hnb Hsb). cbn [rbind].
    replace (Z.of_N (N.of_nat (List.length a)) =? -1)%Z with false
      by (symmetry; apply Z.eqb_neq; lia).
    rewrite (static_rank_ndim inp r Hr), cast_size_t_dim. cbn [rbind].
    rewrite flat_map_app. cbn [flat_map].
    rewrite Z.eqb_refl, !fill_keeps by lia.
    rewrite full_slices_of_range, N.add_0_l.
    replace (_ <? 0)%Z with false.
    2:{ symmetry. apply Z.ltb_ge. unfold size. rewrite length_app. cbn [List.length]. lia. }
    replace (_ <? Z.of_N (size _))%Z with false; [reflexivity|].
    symmetry. apply Z.ltb_ge. unfold size.
    rewrite !length_app, repeat_length. cbn [List.length]. lia.
  - rewrite !existsb_app, Hna, Hnb.
    cbn [orb]. rewrite orb_false_r.
    induction (N.to_nat _) as [|k IH]; [reflexivity|exact IH].
  - rewrite !consumed_axes_app, consumed_axes_full_slices. lia.
  - rewrite remove_ellipsis_without; [reflexivity|exact Hne|exact Hs].
Qed.

(** X3, witness: the index (0, ..., 1) on a tensor of rank four. *)
Lemma remove_ellipsis_fills_witness :
  _remove_ellipsis (Demo.tensor 1 [2; 3; 4; 5]%N) [PyLong 0; PyEllipsis; PyLong 1] =
  Ok [PyLong 0; full_slice; full_slice; PyLong 1].
Proof.
  refine (proj1 (remove_ellipsis_fills (Demo.tensor 1 [2; 3; 4; 5]%N)
                   [PyLong 0] [PyLong 1] 4%N eq_refl eq_refl _ _)).
  - repeat constructor.
  - vm_compute. discriminate.
Defined.

(* ================================================================== *)
(** ** Index unpacking: what the items and operands satisfy *)

Section ItemFacts.

Variable E : Engine.

Lemma get_index_log (v inp : PyObject) (log log' : list Invocation)
      (r : result PyObject) :
  _get_index E v inp log = (r, log') ->
  exists extra, log' = log ++ extra /\ Forall self_cond_take extra.
Proof.
  unfold _get_index, bind.
  assert (Hend : forall t lg r' lg',
             (if negb (is_bool_dtype t) then ret t
              else (fun lg0 => match apply_op E CondTake [t; t] lg0 with
                               | (Ok out, lg1) => lift (tuple_item out 1) lg1
                               | (Raise e, lg1) => (Raise e, lg1)
                               end)) lg = (r', lg') ->
             exists extra, lg' = lg ++ extra /\ Forall self_cond_take extra).
  { intros t lg r' lg'. destruct (negb (is_bool_dtype t)).
    - intros [= _ <-]. exists []. split; [now rewrite app_nil_r|constructor].
    - unfold apply_op, lift. destruct (py_apply E CondTake [t; t]);
        intros [= _ <-]; (exists [(CondTake, [t; t])]; split;
          [reflexivity | repeat constructor; now exists t]). }
  destruct (negb (is_tensor_or_symbolvar v)).
  - unfold lift. destruct (attr_get (getattr_device inp)) as [dev|e].
    + destruct (_Const E v _ dev inp) as [t|e].
      * apply Hend.
      * intros [= _ <-]. exists []. split; [now rewrite app_nil_r|constructor].
    + intros [= _ <-]. exists []. split; [now rewrite app_nil_r|constructor].
  - unfold ret at 1. apply Hend.
Qed.

Lemma push_facts (inp v : PyObject) (log log' : list Invocation)
      (b : bool) (t : list PyObject) :
  push E inp v log = (Ok (b, t), log') ->
  List.length t = (if b then 1 else 0)%nat /\
  exists extra, log' = log ++ extra /\ Forall self_cond_take extra.
Proof.
  unfold push. destruct (is_None v).
  - intros [= <- <- <-]. split; [reflexivity|].
    exists []. split; [now rewrite app_nil_r|constructor].
  - unfold bind. destruct (_get_index E v inp log) as [[x|e] lg] eqn:Hg;
      [|discriminate].
    intros [= <- <- <-]. split; [reflexivity|].
    exact (get_index_log _ _ _ _ _ Hg).
Qed.

Lemma operand_count_app (x y : list index_item) :
  operand_count (x ++ y) = (operand_count x + operand_count y)%nat.
Proof. unfold operand_count. now rewrite map_app, list_sum_app. Qed.

Lemma build_items_facts (inp : PyObject) (l : list PyObject) :
  forall ax ts its u log ts' its' u' log',
    build_items E inp l ax (ts, its, u) log = (Ok (ts', its', u'), log') ->
    exists new_ts new_its extra,
      ts' = ts ++ new_ts /\ its' = its ++ new_its /\ log' = log ++ extra /\
      List.length new_ts = operand_count new_its /\
      Forall (fun it => (ax < item_axis it <= ax + Z.of_nat (List.length l))%Z) new_its /\
      StronglySorted Z.lt (map item_axis new_its) /\
      Forall self_cond_take extra.
Proof.
  induction l as [|handle l IH]; intros ax ts its u log ts' its' u' log' H.
  - injection H as <- <- <- <-. exists [], [], [].
    rewrite !app_nil_r. repeat split; constructor.
  - cbn [build_items] in H.
    assert (Hgrow : forall new1 it1 extra1 u1,
               List.length new1 = item_operands it1 ->
               item_axis it1 = (ax + 1)%Z ->
               Forall self_cond_take extra1 ->
               build_items E inp l (ax + 1) (ts ++ new1, its ++ [it1], u1)
                           (log ++ extra1) = (Ok (ts', its', u'), log') ->
               exists new_ts new_its extra,
                 ts' = ts ++ new_ts /\ its' = its ++ new_its /\ log' = log ++ extra /\
                 List.length new_ts = operand_count new_its /\
                 Forall (fun it =>
                   (ax < item_axis it <= ax + Z.of_nat (List.length (handle :: l)))%Z)
                   new_its /\
                 StronglySorted Z.lt (map item_axis new_its) /\
                 Forall self_cond_take extra).
    { intros new1 it1 extra1 u1 Hlen Hax Hex Hb.
      destruct (IH _ _ _ _ _ _ _ _ _ Hb)
        as (nts & nits & ex & -> & -> & -> & Hc & Hr & Hso & Hf).
      exists (new1 ++ nts), (it1 :: nits), (extra1 ++ ex).
      rewrite <- !app_assoc. cbn [app].
      split; [reflexivity|]. split; [reflexivity|]. split; [reflexivity|].
      split; [|split; [|split]].
      - rewrite length_app, Hlen, Hc.
        unfold operand_count. reflexivity.
      - constructor; [rewrite Hax; cbn [List.length]; lia|].
        eapply Forall_impl; [|exact Hr]. cbn [List.length]. intros it Hit. cbv beta in Hit. lia.
      - cbn [map]. constructor; [exact Hso|].
        rewrite Forall_map. eapply Forall_impl; [|exact Hr].
        intros it Hit. cbv beta in Hit. rewrite Hax. lia.
      - apply Forall_app. now split. }
    assert (Hsame : forall u1,
               build_items E inp l (ax + 1) (ts, its, u1) log =
                 (Ok (ts', its', u'), log') ->
               exists new_ts new_its extra,
                 ts' = ts ++ new_ts /\ its' = its ++ new_its /\ log' = log ++ extra /\
                 List.length new_ts = operand_count new_its /\
                 Forall (fun it =>
                   (ax < item_axis it <= ax + Z.of_nat (List.length (handle :: l)))%Z)
                   new_its /\
                 StronglySorted Z.lt (map item_axis new_its) /\
                 Forall self_cond_take extra).
    { intros u1 Hb.
      destruct (IH _ _ _ _ _ _ _ _ _ Hb)
        as (nts & nits & ex & -> & -> & -> & Hc & Hr & Hso & Hf).
      exists nts, nits, ex. repeat split; try assumption.
      eapply Forall_impl; [|exact Hr]. cbn [List.length]. intros it Hit. cbv beta in Hit. lia. }
    assert (Hplain : forall u1,
               bind (push E inp handle)
                    (fun x => let '(b4, t4) := x in
                       build_items E inp l (ax + 1)
                         (ts ++ t4, its ++ [((ax + 1)%Z, false, false, false, b4)], u1))
                    log = (Ok (ts', its', u'), log') ->
               exists new_ts new_its extra,
                 ts' = ts ++ new_ts /\ its' = its ++ new_its /\ log' = log ++ extra /\
                 List.length new_ts = operand_count new_its /\
                 Forall (fun it =>
                   (ax < item_axis it <= ax + Z.of_nat (List.length (handle :: l)))%Z)
                   new_its /\
                 StronglySorted Z.lt (map item_axis new_its) /\
                 Forall self_cond_take extra).
    { intros u1 Hb. unfold bind in Hb.
      destruct (push E inp handle log) as [[[b4 t4]|e] lg] eqn:Hp; [|discriminate Hb].
      destruct (push_facts _ _ _ _ _ _ Hp) as (Hl4 & ex4 & -> & Hf4).
      apply (Hgrow t4 ((ax + 1)%Z, false, false, false, b4) ex4 u1);
        [|reflexivity|exact Hf4|exact Hb].
      rewrite Hl4. destruct b4; reflexivity. }
    destruct handle; try (exact (Hplain _ H)).
    destruct (is_None handle1 && is_None handle2 && is_None handle3).
    + exact (Hsame _ H).
    + unfold bind in H.
      destruct (push E inp handle1 log) as [[[b1 t1]|e] lg1] eqn:H1; [|discriminate H].
      destruct (push E inp handle2 lg1) as [[[b2 t2]|e] lg2] eqn:H2; [|discriminate H].
      destruct (push E inp handle3 lg2) as [[[b3 t3]|e] lg3] eqn:H3; [|discriminate H].
      destruct (push_facts _ _ _ _ _ _ H1) as (Hl1 & ex1 & -> & Hf1).
      destruct (push_facts _ _ _ _ _ _ H2) as (Hl2 & ex2 & -> & Hf2).
      destruct (push_facts _ _ _ _ _ _ H3) as (Hl3 & ex3 & -> & Hf3).
      rewrite <- !app_assoc in H.
      eapply (Hgrow (t1 ++ t2 ++ t3) ((ax + 1)%Z, b1, b2, b3, false)
                    (ex1 ++ ex2 ++ ex3)); [|reflexivity| |exact H].
      * rewrite !length_app, Hl1, Hl2, Hl3.
        destruct b1, b2, b3; reflexivity.
      * apply Forall_app; split; [exact Hf1|]. apply Forall_app; now split.
Qed.

(** What a successful run of index unpacking hands over. *)
Lemma unpack_indexes_ok (inp idx : PyObject) (up : unpacked)
      (log log' : list Invocation) :
  _unpack_indexes E inp idx log = (Ok up, log') ->
  exists inp1 l1 ts its u,
    build_items E inp1 l1 (-1) ([], [], true) log = (Ok (ts, its, u), log') /\
    up_tensors up = ts /\ up_items up = its /\ up_use_subtensor up = u /\
    up_inp up = inp1.
Proof.
  unfold _unpack_indexes. intros H.
  destruct (rfold count_step (as_index_tuple idx) (false, false, 0%N))
    as [[[nr ne] n]|e]; [|rewrite bind_lift_raise in H; discriminate H].
  rewrite bind_lift_ok in H.
  destruct (rank_check inp n) as [[]|e];
    [|rewrite bind_lift_raise in H; discriminate H].
  rewrite bind_lift_ok in H.
  destruct (if nr then _remove_ellipsis inp (as_index_tuple idx)
            else Ok (as_index_tuple idx)) as [l0|e];
    [|rewrite bind_lift_raise in H; discriminate H].
  rewrite bind_lift_ok in H.
  match type of H with
  | bind (lift ?c) _ _ = _ =>
      destruct c as [[inp1 l1]|e];
        [|rewrite bind_lift_raise in H; discriminate H]
  end.
  rewrite bind_lift_ok in H. unfold bind in H.
  destruct (build_items E inp1 l1 (-1) ([], [], true) log)
    as [[[[ts its] u]|e] lg] eqn:Hb; [|discriminate H].
  injection H as <- <-.
  exists inp1, l1, ts, its, u. split; [exact Hb | repeat split; reflexivity].
Qed.

(** X4.  Whenever index unpacking succeeds, the operand list it returns
    has exactly one operand for every flag set in the items (begin, end,
    step and index), so that the operator built from the items and the
    operands passed to it fit together; and the axes of the items are
    non-negative and strictly increasing. *)
Theorem unpack_indexes_invariants (inp idx : PyObject) (up : unpacked)
        (log log' : list Invocation) :
  _unpack_indexes E inp idx log = (Ok up, log') ->
  List.length (up_tensors up) = operand_count (up_items up) /\
  StronglySorted Z.lt (map item_axis (up_items up)) /\
  Forall (fun it => (0 <= item_axis it)%Z) (up_items up).
Proof.
  intros H.
  destruct (unpack_indexes_ok inp idx up log log' H)
    as (inp1 & l1 & ts & its & u & Hb & -> & -> & _ & _).
  destruct (build_items_facts _ _ _ _ _ _ _ _ _ _ _ Hb)
    as (nts & nits & ex & -> & -> & -> & Hc & Hr & Hso & Hf).
  cbn [app]. split; [exact Hc|]. split; [exact Hso|].
  eapply Forall_impl; [|exact Hr]. intros it Hit. cbv beta in Hit. lia.
Qed.



End ItemFacts.

(** X4, witness: the index (0:2, mask, 1) on a tensor of rank three, the
    mask being a boolean tensor of rank one. *)
Lemma unpack_indexes_invariants_witness :
  exists up log',
    _unpack_indexes Demo.engine (Demo.tensor 1 [3; 4; 5]%N)
      (PyTuple [PySlice (PyLong 0) (PyLong 2) PyNone; Demo.mask 2 [4]%N; PyLong 1]) [] =
    (Ok up, log') /\
    List.length (up_tensors up) = 4%nat /\
    operand_count (up_items up) = 4%nat.
Proof.
  eexists. eexists. split; [vm_compute; reflexivity|].
  split; [|symmetry];
  apply (proj1 (unpack_indexes_invariants Demo.engine (Demo.tensor 1 [3; 4; 5]%N)
           (PyTuple [PySlice (PyLong 0) (PyLong 2) PyNone; Demo.mask 2 [4]%N; PyLong 1])
           _ [] _ eq_refl)).
Defined.


(* ================================================================== *)
(** ** Boolean masks: the alignment behind plain entries *)

Section MaskFacts.

Variable E : Engine.

Lemma expand_loop_plain (pre : list PyObject) :
  Forall (fun h => is_bool_dtype h = false) pre ->
  forall n t cs off td acc,
    rfold (expand_step E) (enumerate_from n pre) (t, cs, off, td, acc) =
    Ok (t, cs, off, (td + size pre)%N, acc ++ pre).
Proof.
  induction 1 as [|h pre Hh _ IH]; intros n t cs off td acc.
  - cbn. now rewrite N.add_0_r, app_nil_r.
  - rewrite enumerate_from_cons. cbn [rfold]. unfold expand_step at 1.
    rewrite Hh. cbn [rbind]. rewrite IH. unfold size. cbn [List.length].
    rewrite <- app_assoc. cbn [app]. do 3 f_equal. lia.
Qed.

(** X6.  A boolean mask of rank two or more that follows only
    non-boolean entries is compared with the axes of the tensor that start
    at its own position.  At the first dimension where the two sizes
    differ, [_expand_bool_dim] raises the [IndexError] that names that
    dimension of the tensor, its size, and the size of the mask there; no
    reshape is requested before. *)
Theorem expand_bool_dim_first_mismatch (ti tk : TensorData) (s ms : list N)
        (pre rest : list PyObject) (j0 : N) :
  t_shape ti = Some s -> t_shape tk = Some ms ->
  kind (t_dtype tk) = "b"%char ->
  Forall (fun d => (d < 2 ^ 63)%N) s -> Forall (fun d => (d < 2 ^ 63)%N) ms ->
  Forall (fun h => is_bool_dtype h = false) pre ->
  (1 < size ms)%N -> (size pre + size ms <= size s)%N ->
  (j0 < size ms)%N ->
  (forall j, (j < j0)%N ->
     nth (N.to_nat (size pre + j)) s 0%N = nth (N.to_nat j) ms 0%N) ->
  nth (N.to_nat (size pre + j0)) s 0%N <> nth (N.to_nat j0) ms 0%N ->
  _expand_bool_dim E (PyTensor ti) (pre ++ PyTensor tk :: rest) =
  Raise (index_error
           (mask_mismatch (size pre + j0)
              (nth (N.to_nat (size pre + j0)) s 0%N)
              (nth (N.to_nat j0) ms 0%N))).
Proof.
  intros Hti Htk Hb Hs Hms Hpre Hrank Hfit Hj0 Hbefore Hdiff.
  unfold _expand_bool_dim.
  change (rbind (attr_get (getattr_shape' E (PyTensor ti))) _make_shape_tuple)
    with (shape_of E (PyTensor ti)).
  rewrite (shape_of_tensor E ti s Hti Hs). cbn [rbind].
  rewrite enumerate_is_from, enumerate_from_app, rfold_app.
  rewrite (expand_loop_plain pre Hpre). cbn [rbind].
  rewrite enumerate_from_cons. cbn [rfold]. unfold expand_step at 1.
  assert (Hbk : is_bool_dtype (PyTensor tk) = true)
    by (unfold is_bool_dtype; cbn [getattr_dtype]; rewrite Hb; reflexivity).
  rewrite Hbk. cbn [getattr_ndim]. rewrite Htk. cbn [attr_get rbind].
  change (Z.of_nat (List.length ms)) with (Z.of_nat (List.length ms)).
  rewrite <- nat_N_Z. fold (size ms). rewrite cast_size_t_dim. cbn [rbind].
  replace (1 <? size ms)%N with true by (symmetry; apply N.ltb_lt; exact Hrank).
  change (rbind (attr_get (getattr_shape' E (PyTensor tk))) _make_shape_tuple)
    with (shape_of E (PyTensor tk)).
  rewrite (shape_of_tensor E tk ms Htk Hms). cbn [rbind].
  rewrite N.add_0_l.
  destruct (mask_check_loop s ms (size pre) 0) as [_ Hraise]; [lia|lia|].
  rewrite (Hraise j0 Hj0).
  - rewrite N.sub_0_r. reflexivity.
  - intros j Hj. rewrite N.sub_0_r. now apply Hbefore.
  - rewrite N.sub_0_r. exact Hdiff.
Qed.

End MaskFacts.

(** X6, witness: on a (3,4,5) tensor the index (0, mask) with a mask of
    shape (4,6) is refused at dimension 2, where the tensor has 5. *)
Lemma expand_bool_dim_first_mismatch_witness :
  _expand_bool_dim Demo.engine (Demo.tensor 1 [3; 4; 5]%N)
    [PyLong 0; Demo.mask 2 [4; 6]%N] =
  Raise (index_error
    "boolean index did not match tensor along dimension 2; dimension is 5 but corresponding boolean dimension is 6").
Proof.
  refine (expand_bool_dim_first_mismatch Demo.engine
            (mkTensor false NPY_FLOAT32 Demo.cpu0 (Some [3; 4; 5]%N) false [] 1)
            (mkTensor false NPY_BOOL Demo.cpu0 (Some [4; 6]%N) false [] 2)
            [3; 4; 5]%N [4; 6]%N [PyLong 0] [] 1%N
            eq_refl eq_refl eq_refl _ _ _ eq_refl _ eq_refl _ _).
  - repeat constructor.
  - repeat constructor.
  - repeat constructor.
  - vm_compute. discriminate.
  - intros j Hj. assert (j = 0%N) as -> by lia. reflexivity.
  - vm_compute. discriminate.
Defined.

(* ================================================================== *)
(** ** Sorting *)

Lemma insert_sorted_perm (a : Z) (l : list Z) : Permutation (insert_sorted a l) (a :: l).
Proof.
  induction l as [|b l IH]; [reflexivity|].
  cbn [insert_sorted]. destruct (a <=? b)%Z; [reflexivity|].
  rewrite IH. apply perm_swap.
Qed.

Lemma std_sort_perm (l : list Z) : Permutation (std_sort l) l.
Proof.
  induction l as [|a l IH]; [reflexivity|].
  cbn [std_sort fold_right]. fold (std_sort l).
  rewrite insert_sorted_perm. now constructor.
Qed.

Lemma insert_sorted_sorted (a : Z) (l : list Z) :
  StronglySorted Z.le l -> StronglySorted Z.le (insert_sorted a l).
Proof.
  induction 1 as [|b l Hs IH Hb]; [repeat constructor|].
  cbn [insert_sorted]. destruct (Z.leb_spec a b) as [Hab|Hab].
  - constructor; [now constructor|].
    constructor; [exact Hab|].
    eapply Forall_impl; [|exact Hb]. intros c Hc. cbv beta in Hc. lia.
  - constructor; [exact IH|].
    rewrite (Forall_forall (Z.le b)). intros c Hc.
    apply (Permutation_in _ (insert_sorted_perm a l)) in Hc.
    destruct Hc as [<-|Hc]; [lia|].
    rewrite Forall_forall in Hb. now apply Hb.
Qed.

Lemma std_sort_sorted (l : list Z) : StronglySorted Z.le (std_sort l).
Proof.
  induction l as [|a l IH]; [constructor|].
  cbn [std_sort fold_right]. now apply insert_sorted_sorted.
Qed.

Lemma std_sort_of_sorted (l : list Z) : StronglySorted Z.le l -> std_sort l = l.
Proof.
  induction 1 as [|a l Hs IH Ha]; [reflexivity|].
  cbn [std_sort fold_right]. fold (std_sort l). rewrite IH.
  destruct l as [|b l]; [reflexivity|].
  cbn [insert_sorted]. inversion Ha as [|? ? Hab _]; subst.
  now replace (a <=? b)%Z with true by (symmetry; apply Z.leb_le; exact Hab).
Qed.

Lemma std_sort_length (l : list Z) : List.length (std_sort l) = List.length l.
Proof. apply Permutation_length, std_sort_perm. Qed.

(* ================================================================== *)
(** ** expand_dims *)

Lemma add_ndim_resolves (nd : N) (a : Z) :
  in_int32 a = true -> (Z.of_N nd < 2 ^ 31)%Z ->
  add_ndim nd a = resolve_axis (Z.of_N nd) a.
Proof.
  intros Ha Hn. unfold add_ndim, resolve_axis, in_int32 in *.
  apply andb_prop in Ha. destruct Ha as [Hlo Hhi].
  apply Z.leb_le in Hlo. apply Z.ltb_lt in Hhi.
  destruct (Z.ltb_spec a 0) as [Hneg|_]; [|reflexivity].
  assert (Hw : wrap_int32 (Z.of_N nd) = Z.of_N nd).
  { unfold wrap_int32. rewrite Z.mod_small by lia. lia. }
  rewrite Hw. unfold wrap_int32.
  rewrite Z.mod_small by lia. lia.
Qed.

Section ExpandDimsFacts.

Variable X : AxisEngine.

Lemma list2vector_ints (l : list Z) :
  Forall (fun a => in_int32 a = true) l ->
  list2vector X (PyList (map PyLong l)) = Ok l /\
  list2vector X (PyTuple (map PyLong l)) = Ok l.
Proof.
  intros H.
  assert (Hm : rmap (fun o => rbind (py_int X o) cast_int32) (map PyLong l) = Ok l).
  { induction H as [|a l Ha _ IH]; [reflexivity|].
    cbn [map rmap py_int rbind cast_int32]. rewrite Ha. cbn [rbind].
    rewrite IH. reflexivity. }
  split; unfold list2vector; cbn; exact Hm.
Qed.

Lemma list2vector_one (a : Z) :
  in_int32 a = true -> list2vector X (PyLong a) = Ok [a].
Proof. intros Ha. unfold list2vector. cbn. rewrite Ha. reflexivity. Qed.

(** [list2vector] on Python integers, whatever their size: the integers
    themselves when each fits an [int32_t], and [py::cast_error] from the
    first that does not. *)
Lemma list2vector_any (l : list Z) :
  let outcome := if forallb in_int32 l then Ok l else Raise cast_error in
  list2vector X (PyList (map PyLong l)) = outcome /\
  list2vector X (PyTuple (map PyLong l)) = outcome /\
  (forall a, l = [a] -> list2vector X (PyLong a) = outcome).
Proof.
  intros outcome.
  assert (Hm : rmap (fun o => rbind (py_int X o) cast_int32) (map PyLong l) = outcome).
  { unfold outcome. clear outcome. induction l as [|a l IH]; [reflexivity|].
    cbn [map rmap py_int rbind cast_int32 forallb].
    destruct (in_int32 a); [|reflexivity]. cbn [rbind andb]. rewrite IH.
    destruct (forallb in_int32 l); reflexivity. }
  split; [|split].
  - unfold list2vector. cbn. exact Hm.
  - unfold list2vector. cbn. exact Hm.
  - intros a ->. unfold outcome, list2vector. cbn.
    destruct (in_int32 a); reflexivity.
Qed.

Lemma forallb_in_int32 (l : list Z) :
  forallb in_int32 l = true -> Forall (fun a => in_int32 a = true) l.
Proof. intros H. apply Forall_forall. now apply forallb_forall. Qed.

Lemma resolve_all (nd : N) (l : list Z) :
  Forall (fun a => in_int32 a = true) l -> (Z.of_N nd < 2 ^ 31)%Z ->
  rmap (fun a => @Ok Z (add_ndim nd a)) l = Ok (map (resolve_axis (Z.of_N nd)) l).
Proof.
  intros H Hn. induction H as [|a l Ha _ IH]; [reflexivity|].
  cbn [rmap map rbind]. rewrite IH. cbn [rbind].
  now rewrite add_ndim_resolves.
Qed.

Lemma expand_dims_run (inp axis_hdl : PyObject) (s : list N) (l : list Z) :
  list2vector X axis_hdl = Ok l ->
  static_shape inp = Ok (Some s) ->
  l <> [] ->
  Forall (fun a => in_int32 a = true) l ->
  (Z.of_nat (List.length l + List.length s) < 2 ^ 31)%Z ->
  _expand_dims_cpp X inp axis_hdl =
  first_output
    (py_apply_axis X
       (AddAxis (std_sort (map (resolve_axis (Z.of_nat (List.length l + List.length s))) l)))
       [inp]).
Proof.
  intros Hl Hs Hne H32 Hn. unfold _expand_dims_cpp.
  rewrite Hl, Hs. cbn [rbind].
  assert (Hnd : (size l + size s)%N = N.of_nat (List.length l + List.length s))
    by (unfold size; lia).
  rewrite Hnd, resolve_all; [|exact H32|rewrite nat_N_Z; exact Hn].
  cbn [rbind]. rewrite nat_N_Z.
  destruct l as [|a l]; [contradiction|].
  reflexivity.
Qed.

(** The conversion of the axes comes first: when it fails, so does
    [expand_dims], whatever the handle. *)
Lemma expand_dims_cast_error (inp axis_hdl : PyObject) :
  list2vector X axis_hdl = Raise cast_error ->
  _expand_dims_cpp X inp axis_hdl = Raise cast_error.
Proof. intros Hl. unfold _expand_dims_cpp. now rewrite Hl. Qed.

(** X7.  [expand_dims] on a handle whose shape is known, for axes given
    as one Python integer or as a list or tuple of Python integers, the
    rank of the input plus the number of axes being below 2^31.  When
    every axis fits an [int32_t]: a negative axis is counted from the end
    of the result, whose rank is the rank of the input plus the number of
    axes given; the resolved axes are handed to [AddAxis] in ascending
    order, as a rearrangement of what was given; the first output of the
    operator is returned; nothing checks that the axes are distinct or
    inside the result.  When some axis does not fit an [int32_t], the
    conversion of the axes raises [py::cast_error] and nothing is
    applied. *)
Theorem expand_dims_axes_resolved (inp : PyObject) (s : list N) (l : list Z) :
  static_shape inp = Ok (Some s) ->
  l <> [] ->
  (Z.of_nat (List.length l + List.length s) < 2 ^ 31)%Z ->
  let resolved := map (resolve_axis (Z.of_nat (List.length l + List.length s))) l in
  let outcome :=
    if forallb in_int32 l
    then first_output (py_apply_axis X (AddAxis (std_sort resolved)) [inp])
    else Raise cast_error in
  _expand_dims_cpp X inp (PyList (map PyLong l)) = outcome /\
  _expand_dims_cpp X inp (PyTuple (map PyLong l)) = outcome /\
  (forall a, l = [a] -> _expand_dims_cpp X inp (PyLong a) = outcome) /\
  StronglySorted Z.le (std_sort resolved) /\
  Permutation (std_sort resolved) resolved.
Proof.
  intros Hs Hne Hn resolved outcome.
  destruct (list2vector_any l) as (Hlist & Htuple & Hone).
  unfold outcome. destruct (forallb in_int32 l) eqn:H32.
  - apply forallb_in_int32 in H32.
    split; [|split; [|split; [|split]]].
    + now apply expand_dims_run.
    + now apply expand_dims_run.
    + intros a Ha. apply expand_dims_run; try assumption. now apply Hone.
    + apply std_sort_sorted.
    + apply std_sort_perm.
  - split; [|split; [|split; [|split]]].
    + now apply expand_dims_cast_error.
    + now apply expand_dims_cast_error.
    + intros a Ha. apply expand_dims_cast_error. now apply Hone.
    + apply std_sort_sorted.
    + apply std_sort_perm.
Qed.

Lemma reject_negative (l : list Z) :
  Exists (fun a => a < 0)%Z l ->
  rmap (fun a => if (a <? 0)%Z
                 then Raise (index_error
                        "Does not support negative index when tensor's ndim is unknown")
                 else @Ok Z a) l =
  Raise (index_error "Does not support negative index when tensor's ndim is unknown").
Proof.
  induction l as [|a l IH]; intros Hex; [inversion Hex|].
  cbn [rmap]. destruct (Z.ltb_spec a 0) as [Hneg|Hpos]; [reflexivity|].
  cbn [rbind]. rewrite IH; [reflexivity|].
  inversion Hex as [? ? Ha|? ? Hl]; [lia|exact Hl].
Qed.

Lemma keep_nonnegative (l : list Z) :
  Forall (fun a => 0 <= a)%Z l ->
  rmap (fun a => if (a <? 0)%Z
                 then Raise (index_error
                        "Does not support negative index when tensor's ndim is unknown")
                 else @Ok Z a) l = Ok l.
Proof.
  induction 1 as [|a l Ha _ IH]; [reflexivity|].
  cbn [rmap]. replace (a <? 0)%Z with false by (symmetry; apply Z.ltb_ge; exact Ha).
  cbn [rbind]. rewrite IH. reflexivity.
Qed.

Lemma negative_found (l : list Z) :
  existsb (fun a => (a <? 0)%Z) l = true -> Exists (fun a => a < 0)%Z l.
Proof.
  intros H. apply existsb_exists in H. destruct H as (a & Hin & Ha).
  apply Exists_exists. exists a. split; [exact Hin|]. now apply Z.ltb_lt.
Qed.

Lemma negative_absent (l : list Z) :
  existsb (fun a => (a <? 0)%Z) l = false -> Forall (fun a => 0 <= a)%Z l.
Proof.
  intros H. apply Forall_forall. intros a Hin.
  destruct (Z.ltb_spec a 0) as [Hneg|Hpos]; [|exact Hpos].
  assert (Hex : existsb (fun a => (a <? 0)%Z) l = true)
    by (apply existsb_exists; exists a; split; [exact Hin|now apply Z.ltb_lt]).
  rewrite Hex in H. discriminate H.
Qed.

(** [expand_dims] on a handle whose shape is not known, once the axes
    are converted. *)
Lemma expand_dims_unknown (inp axis_hdl : PyObject) (l : list Z) :
  list2vector X axis_hdl = Ok l ->
  static_shape inp = Ok None ->
  _expand_dims_cpp X inp axis_hdl =
  if existsb (fun a => (a <? 0)%Z) l then
    Raise (index_error "Does not support negative index when tensor's ndim is unknown")
  else
    match l with
    | [] => Raise (index_error "axis could not be empty")
    | _ => first_output (py_apply_axis X (AddAxis (std_sort l)) [inp])
    end.
Proof.
  intros Hl Hs. unfold _expand_dims_cpp. rewrite Hl, Hs. cbn [rbind].
  destruct (existsb (fun a => (a <? 0)%Z) l) eqn:Hneg.
  - now rewrite reject_negative by (now apply negative_found).
  - rewrite keep_nonnegative by (now apply negative_absent). cbn [rbind].
    destruct l; reflexivity.
Qed.

(** X8.  What [expand_dims] refuses.  An empty list or tuple of axes
    raises [IndexError("axis could not be empty")], whatever the shape.
    On a handle whose shape is not known yet, for axes given as one
    Python integer or as a list or tuple of Python integers: an axis that
    does not fit an [int32_t] raises [py::cast_error]; when all fit, any
    negative axis raises the [IndexError] about an unknown ndim; when
    none is negative, the axes are sorted and handed to [AddAxis] as they
    are.  Nothing is applied in the cases that raise. *)
Theorem expand_dims_refusals (inp : PyObject) (shape : option (list N)) :
  static_shape inp = Ok shape ->
  _expand_dims_cpp X inp (PyList []) = Raise (index_error "axis could not be empty") /\
  _expand_dims_cpp X inp (PyTuple []) = Raise (index_error "axis could not be empty") /\
  (shape = None ->
   forall l,
     let outcome :=
       if negb (forallb in_int32 l) then Raise cast_error
       else if existsb (fun a => (a <? 0)%Z) l then
         Raise (index_error
                  "Does not support negative index when tensor's ndim is unknown")
       else
         match l with
         | [] => Raise (index_error "axis could not be empty")
         | _ => first_output (py_apply_axis X (AddAxis (std_sort l)) [inp])
         end in
     _expand_dims_cpp X inp (PyList (map PyLong l)) = outcome /\
     _expand_dims_cpp X inp (PyTuple (map PyLong l)) = outcome /\
     (forall a, l = [a] -> _expand_dims_cpp X inp (PyLong a) = outcome)).
Proof.
  intros Hs. split; [|split].
  - unfold _expand_dims_cpp. cbn. rewrite Hs. cbn [rbind]. now destruct shape.
  - unfold _expand_dims_cpp. cbn. rewrite Hs. cbn [rbind]. now destruct shape.
  - intros -> l outcome.
    destruct (list2vector_any l) as (Hlist & Htuple & Hone).
    unfold outcome. destruct (forallb in_int32 l); cbn [negb].
    + split; [|split].
      * now apply expand_dims_unknown.
      * now apply expand_dims_unknown.
      * intros a Ha. apply expand_dims_unknown; [now apply Hone|exact Hs].
    + split; [|split].
      * now apply expand_dims_cast_error.
      * now apply expand_dims_cast_error.
      * intros a Ha. apply expand_dims_cast_error. now apply Hone.
Qed.

End ExpandDimsFacts.

(** X7, witness: axes (-1, 0) on a tensor of shape (3,4); the result has
    rank four, so -1 is axis 3. *)
Lemma expand_dims_axes_resolved_witness :
  _expand_dims_cpp DemoAxis.engine (Demo.tensor 1 [3; 4]%N) (PyList [PyLong (-1); PyLong 0]) =
  first_output (py_apply_axis DemoAxis.engine (AddAxis [0; 3]%Z) [Demo.tensor 1 [3; 4]%N]).
Proof.
  refine (proj1 (expand_dims_axes_resolved DemoAxis.engine (Demo.tensor 1 [3; 4]%N)
                   [3; 4]%N [-1; 0]%Z eq_refl _ _)).
  - discriminate.
  - vm_compute. reflexivity.
Defined.

(** X8, witness: an empty list of axes on a tensor of shape (3,4). *)
Lemma expand_dims_refusals_witness :
  _expand_dims_cpp DemoAxis.engine (Demo.tensor 1 [3; 4]%N) (PyList []) =
  Raise (index_error "axis could not be empty").
Proof.
  exact (proj1 (expand_dims_refusals DemoAxis.engine (Demo.tensor 1 [3; 4]%N)
                  (Some [3; 4]%N) eq_refl)).
Defined.

(* ================================================================== *)
(** ** squeeze *)

Lemma delete_at_middle {A} (pre : list A) (x : A) (rest : list A) :
  delete_at (List.length pre) (pre ++ x :: rest) = pre ++ rest.
Proof.
  unfold delete_at. rewrite firstn_app, firstn_all, Nat.sub_diag, firstn_O, app_nil_r.
  f_equal. replace (S (List.length pre)) with (List.length pre + 1)%nat by lia.
  rewrite skipn_app, skipn_all2 by lia.
  replace (List.length pre + 1 - List.length pre)%nat with 1%nat by lia.
  reflexivity.
Qed.

Lemma without_positions_below {A} (a : Z) (ps : list Z) (l : list A) :
  forall k, (a < k)%Z -> without_positions k (a :: ps) l = without_positions k ps l.
Proof.
  induction l as [|x l IH]; intros k Hk; [reflexivity|].
  cbn [without_positions existsb].
  replace (k =? a)%Z with false by (symmetry; apply Z.eqb_neq; lia).
  cbn [orb]. rewrite IH by lia. reflexivity.
Qed.

Lemma without_positions_ext {A} (ps qs : list Z) (l : list A) :
  (forall z, In z ps <-> In z qs) ->
  forall k, without_positions k ps l = without_positions k qs l.
Proof.
  intros Hsame. induction l as [|x l IH]; intros k; [reflexivity|].
  cbn [without_positions]. rewrite IH.
  assert (Hm : existsb (Z.eqb k) ps = existsb (Z.eqb k) qs).
  { destruct (existsb (Z.eqb k) ps) eqn:Hp; symmetry.
    - apply existsb_exists in Hp. destruct Hp as (z & Hin & Hz).
      apply existsb_exists. exists z. split; [now apply Hsame|exact Hz].
    - destruct (existsb (Z.eqb k) qs) eqn:Hq; [|reflexivity].
      apply existsb_exists in Hq. destruct Hq as (z & Hin & Hz).
      assert (Ht : existsb (Z.eqb k) ps = true)
        by (apply existsb_exists; exists z; split; [now apply Hsame|exact Hz]).
      congruence. }
  now rewrite Hm.
Qed.

Lemma not_among_later (k : Z) (q : list Z) :
  Forall (fun a => k < a)%Z q -> existsb (Z.eqb k) q = false.
Proof.
  induction 1 as [|a q Ha _ IH]; [reflexivity|].
  cbn [existsb]. rewrite IH.
  now replace (k =? a)%Z with false by (symmetry; apply Z.eqb_neq; lia).
Qed.

(** Successive deletion at the positions [q], each lowered by the number
    of deletions before it, removes exactly the positions [q]. *)
Lemma successive_deletion {A} (s : list A) :
  forall (k j : nat) (pre : list A) (q : list Z),
    (j <= k)%nat -> List.length pre = (k - j)%nat ->
    (Z.of_nat (k + List.length s) < 2 ^ 31)%Z ->
    StronglySorted Z.lt q ->
    Forall (fun a => Z.of_nat k <= a < Z.of_nat (k + List.length s))%Z q ->
    delete_each (sub_position_from j q) (pre ++ s) =
    pre ++ without_positions (Z.of_nat k) q s.
Proof.
  induction s as [|d s IH]; intros k j pre q Hjk Hpre Hn Hq Hb.
  - destruct q as [|a q].
    + reflexivity.
    + inversion Hb as [|? ? Ha _]; subst. cbn [List.length] in Ha. lia.
  - cbn [List.length] in Hn, Hb. cbn [without_positions].
    destruct q as [|a q].
    + cbn [existsb].
      change (pre ++ d :: s) with (pre ++ [d] ++ s). rewrite app_assoc.
      rewrite (IH (S k) j (pre ++ [d]) []);
        [|lia|rewrite length_app; cbn [List.length]; lia|lia|constructor|constructor].
      rewrite <- app_assoc. cbn [app]. do 2 f_equal. f_equal. lia.
    + inversion Hq as [|? ? Hq' Hlt]; subst.
      inversion Hb as [|? ? Ha Hb']; subst.
      destruct (Z.eq_dec a (Z.of_nat k)) as [->|Hne].
      * cbn [existsb]. rewrite Z.eqb_refl. cbn [orb].
        rewrite without_positions_below by lia.
        unfold sub_position_from. rewrite enumerate_from_cons. cbn [map].
        fold (sub_position_from (S j) q).
        rewrite wrap_int32_small by lia.
        assert (Hw : wrap_int32 (Z.of_nat k - Z.of_nat j) = Z.of_nat (k - j)).
        { unfold wrap_int32. rewrite Z.mod_small by lia. lia. }
        rewrite Hw. unfold delete_each. cbn [fold_left]. rewrite Nat2Z.id, <- Hpre.
        rewrite delete_at_middle. fold (delete_each (sub_position_from (S j) q) (pre ++ s)).
        rewrite (IH (S k) (S j) pre q); [|lia|lia|lia|exact Hq'|].
        -- do 2 f_equal. lia.
        -- rewrite Forall_forall in *. intros z Hz.
           specialize (Hlt z Hz). specialize (Hb' z Hz). cbv beta in Hb'. lia.
      * assert (Hall : Forall (fun z => Z.of_nat k < z)%Z (a :: q)).
        { constructor; [lia|]. eapply Forall_impl; [|exact Hlt].
          intros z Hz. cbv beta in Hz. lia. }
        rewrite (not_among_later _ _ Hall).
        change (pre ++ d :: s) with (pre ++ [d] ++ s). rewrite app_assoc.
        rewrite (IH (S k) j (pre ++ [d]) (a :: q));
          [|lia|rewrite length_app; cbn [List.length]; lia|lia|exact Hq|].
        -- rewrite <- app_assoc. cbn [app]. do 2 f_equal. f_equal. lia.
        -- rewrite Forall_forall in *. intros z Hz.
           specialize (Hall z Hz). specialize (Hb z Hz). cbv beta in Hb, Hall. lia.
Qed.

Lemma ones_positions_cons (k : nat) (d : N) (s : list N) :
  (Z.of_nat k < 2 ^ 31)%Z ->
  ones_positions_from k (d :: s) =
  (if (d =? 1)%N then [Z.of_nat k] else []) ++ ones_positions_from (S k) s.
Proof.
  intros Hk. unfold ones_positions_from. rewrite enumerate_from_cons.
  cbn [flat_map]. now rewrite wrap_int32_small.
Qed.

Lemma ones_positions_facts (s : list N) :
  forall k, (Z.of_nat (k + List.length s) < 2 ^ 31)%Z ->
    StronglySorted Z.lt (ones_positions_from k s) /\
    Forall (fun a => Z.of_nat k <= a < Z.of_nat (k + List.length s))%Z
           (ones_positions_from k s) /\
    List.length (ones_positions_from k s) =
      List.length (filter (fun d => (d =? 1)%N) s) /\
    without_positions (Z.of_nat k) (ones_positions_from k s) s =
      filter (fun d => negb (d =? 1)%N) s.
Proof.
  induction s as [|d s IH]; intros k Hn.
  - repeat split; constructor.
  - cbn [List.length] in Hn. rewrite ones_positions_cons by lia.
    destruct (IH (S k)) as (Hso & Hb & Hlen & Hw); [lia|].
    assert (Hb' : Forall (fun a => Z.of_nat k < a < Z.of_nat (k + S (List.length s)))%Z
                         (ones_positions_from (S k) s)).
    { eapply Forall_impl; [|exact Hb]. intros a Ha. cbv beta in Ha. lia. }
    assert (Hlater : Forall (fun a => Z.of_nat k < a)%Z (ones_positions_from (S k) s)).
    { eapply Forall_impl; [|exact Hb']. intros a Ha. cbv beta in Ha. lia. }
    cbn [filter without_positions List.length].
    replace (Z.of_nat k + 1)%Z with (Z.of_nat (S k)) by lia.
    destruct (d =? 1)%N; cbn [app negb List.length existsb].
    + rewrite Z.eqb_refl. cbn [orb].
      rewrite without_positions_below by lia.
      split; [|split; [|split]].
      * constructor; [exact Hso|exact Hlater].
      * constructor; [lia|]. eapply Forall_impl; [|exact Hb'].
        intros a Ha. cbv beta in Ha. lia.
      * now rewrite Hlen.
      * exact Hw.
    + rewrite (not_among_later _ _ Hlater).
      split; [|split; [|split]].
      * exact Hso.
      * eapply Forall_impl; [|exact Hb']. intros a Ha. cbv beta in Ha. lia.
      * exact Hlen.
      * now rewrite Hw.
Qed.

Lemma sorted_lt_le (q : list Z) : StronglySorted Z.lt q -> StronglySorted Z.le q.
Proof.
  induction 1 as [|a q _ IH Ha]; constructor; [exact IH|].
  eapply Forall_impl; [|exact Ha]. intros z Hz. cbv beta in Hz. lia.
Qed.

Lemma sorted_nodup_lt (q : list Z) :
  StronglySorted Z.le q -> NoDup q -> StronglySorted Z.lt q.
Proof.
  induction 1 as [|a q _ IH Ha]; intros Hnd; constructor.
  - apply IH. now inversion Hnd.
  - inversion Hnd as [|? ? Hnotin _]; subst.
    rewrite Forall_forall in *. intros z Hz. specialize (Ha z Hz).
    assert (z <> a) by (intros ->; contradiction). lia.
Qed.

Lemma add_ndim_nonneg (nd : N) (l : list Z) :
  Forall (fun a => 0 <= a)%Z l -> map (add_ndim nd) l = l.
Proof.
  induction 1 as [|a l Ha _ IH]; [reflexivity|].
  cbn [map]. rewrite IH. unfold add_ndim.
  now replace (a <? 0)%Z with false by (symmetry; apply Z.ltb_ge; exact Ha).
Qed.

Lemma sub_position_length (j : nat) (q : list Z) :
  List.length (sub_position_from j q) = List.length q.
Proof.
  unfold sub_position_from, enumerate_from.
  now rewrite length_map, length_combine, length_map, length_seq, Nat.min_id.
Qed.

Section SqueezeFacts.

Variable X : AxisEngine.

(** X9.  [squeeze] without an axis, on a handle whose shape is known.
    The operator applied is [RemoveAxis] with one axis for every dimension
    of size one; each axis is the position of such a dimension lowered by
    the number of axes before it, so that deleting at these axes one
    after the other leaves exactly the dimensions that are not one, in
    order. *)
Theorem squeeze_removes_unit_dims (inp : PyObject) (s : list N) :
  static_shape inp = Ok (Some s) ->
  (Z.of_nat (List.length s) < 2 ^ 31)%Z ->
  exists axes,
    _squeeze_cpp X inp PyNone =
      Some (first_output (py_apply_axis X (RemoveAxis axes) [inp])) /\
    delete_each axes s = filter (fun d => negb (d =? 1)%N) s /\
    List.length axes = List.length (filter (fun d => (d =? 1)%N) s).
Proof.
  intros Hs Hn.
  destruct (ones_positions_facts s 0) as (Hso & Hb & Hlen & Hw); [exact Hn|].
  exists (sub_position_from 0 (ones_positions_from 0 s)).
  split; [|split].
  - unfold _squeeze_cpp. cbn [is_None negb]. rewrite Hs. cbn [app].
    change (ones_positions s) with (ones_positions_from 0 s).
    rewrite add_ndim_nonneg.
    + rewrite std_sort_of_sorted by (apply sorted_lt_le; exact Hso). reflexivity.
    + eapply Forall_impl; [|exact Hb]. intros a Ha. cbv beta in Ha. lia.
  - rewrite <- Hw.
    exact (successive_deletion s 0 0 [] _ (le_n 0) eq_refl Hn Hso Hb).
  - now rewrite sub_position_length.
Qed.

(** X10.  [squeeze] with axes given, on a handle whose shape is known.
    The axes may come in any order and count from the end when negative;
    when they name distinct dimensions, deleting at the axes handed to
    [RemoveAxis], one after the other, removes exactly the dimensions
    named.  Their sizes are not looked at, and an empty list of axes
    applies the operator with no axis. *)
Theorem squeeze_removes_given_axes (inp : PyObject) (s : list N) (l : list Z) :
  static_shape inp = Ok (Some s) ->
  (Z.of_nat (List.length s) < 2 ^ 31)%Z ->
  Forall (fun a => - Z.of_nat (List.length s) <= a < Z.of_nat (List.length s))%Z l ->
  NoDup (map (resolve_axis (Z.of_nat (List.length s))) l) ->
  let named := map (resolve_axis (Z.of_nat (List.length s))) l in
  exists axes,
    _squeeze_cpp X inp (PyList (map PyLong l)) =
      Some (first_output (py_apply_axis X (RemoveAxis axes) [inp])) /\
    _squeeze_cpp X inp (PyTuple (map PyLong l)) =
      Some (first_output (py_apply_axis X (RemoveAxis axes) [inp])) /\
    delete_each axes s = without_positions 0 named s /\
    List.length axes = List.length l.
Proof.
  intros Hs Hn Hrange Hnd named.
  assert (H32 : Forall (fun a => in_int32 a = true) l).
  { eapply Forall_impl; [|exact Hrange]. intros a Ha. cbv beta in Ha.
    unfold in_int32. apply andb_true_intro.
    split; [apply Z.leb_le | apply Z.ltb_lt]; lia. }
  assert (Hres : map (add_ndim (size s)) l = named).
  { unfold named. apply map_ext_in. intros a Ha.
    rewrite add_ndim_resolves.
    - unfold size. now rewrite nat_N_Z.
    - rewrite Forall_forall in H32. now apply H32.
    - unfold size. now rewrite nat_N_Z. }
  assert (Hbound : Forall (fun a => Z.of_nat 0 <= a < Z.of_nat (0 + List.length s))%Z
                          (std_sort named)).
  { rewrite Forall_forall. intros z Hz.
    apply (Permutation_in _ (std_sort_perm named)) in Hz.
    unfold named in Hz. apply in_map_iff in Hz. destruct Hz as (a & <- & Ha).
    rewrite Forall_forall in Hrange. specialize (Hrange a Ha). cbv beta in Hrange.
    unfold resolve_axis. destruct (Z.ltb_spec a 0); lia. }
  assert (Hsorted : StronglySorted Z.lt (std_sort named)).
  { apply sorted_nodup_lt; [apply std_sort_sorted|].
    apply (Permutation_NoDup (Permutation_sym (std_sort_perm named))). exact Hnd. }
  destruct (list2vector_ints X l H32) as [Hlist Htuple].
  exists (sub_position_from 0 (std_sort named)).
  split; [|split; [|split]].
  - unfold _squeeze_cpp. cbn [is_None negb]. rewrite Hlist, Hs, Hres. reflexivity.
  - unfold _squeeze_cpp. cbn [is_None negb]. rewrite Htuple, Hs, Hres. reflexivity.
  - pose proof (successive_deletion s 0 0 [] _ (le_n 0) eq_refl Hn Hsorted Hbound)
      as Hd.
    cbn [app Z.of_nat] in Hd. rewrite Hd. apply without_positions_ext. intros z. split; intros Hz.
    + exact (Permutation_in _ (std_sort_perm named) Hz).
    + exact (Permutation_in _ (Permutation_sym (std_sort_perm named)) Hz).
  - rewrite sub_position_length, std_sort_length. unfold named. apply length_map.
Qed.

End SqueezeFacts.

(** X9, witness: a tensor of shape (1,3,1,4). *)
Lemma squeeze_removes_unit_dims_witness :
  exists axes,
    _squeeze_cpp DemoAxis.engine (Demo.tensor 1 [1; 3; 1; 4]%N) PyNone =
      Some (first_output
              (py_apply_axis DemoAxis.engine (RemoveAxis axes)
                 [Demo.tensor 1 [1; 3; 1; 4]%N])) /\
    delete_each axes [1; 3; 1; 4]%N = [3; 4]%N.
Proof.
  destruct (squeeze_removes_unit_dims DemoAxis.engine (Demo.tensor 1 [1; 3; 1; 4]%N)
              [1; 3; 1; 4]%N eq_refl eq_refl) as (axes & Hrun & Hdel & _).
  exists axes. split; [exact Hrun|exact Hdel].
Defined.

(** X10, witness: the axes (-1, 0) of a tensor of shape (1,3,1). *)
Lemma squeeze_removes_given_axes_witness :
  exists axes,
    _squeeze_cpp DemoAxis.engine (Demo.tensor 1 [1; 3; 1]%N)
      (PyList [PyLong (-1); PyLong 0]) =
      Some (first_output
              (py_apply_axis DemoAxis.engine (RemoveAxis axes)
                 [Demo.tensor 1 [1; 3; 1]%N])) /\
    delete_each axes [1; 3; 1]%N = [3]%N.
Proof.
  assert (Hrange : Forall (fun a => - Z.of_nat (List.length [1; 3; 1]%N) <= a
                                    < Z.of_nat (List.length [1; 3; 1]%N))%Z [-1; 0]%Z)
    by (repeat constructor; cbn; lia).
  assert (Hnd : NoDup (map (resolve_axis (Z.of_nat (List.length [1; 3; 1]%N)))
                           [-1; 0]%Z)).
  { cbn. constructor; [intros [H|[]]; discriminate H|].
    constructor; [intros []|constructor]. }
  destruct (squeeze_removes_given_axes DemoAxis.engine (Demo.tensor 1 [1; 3; 1]%N)
              [1; 3; 1]%N [-1; 0]%Z eq_refl eq_refl Hrange Hnd)
    as (axes & Hrun & _ & Hdel & _).
  exists axes. split; [exact Hrun|exact Hdel].
Defined.

(* ================================================================== *)
(** ** transpose *)

Lemma reversed_axes_nth (n i : nat) :
  (i < n)%nat -> nth i (reversed_axes n) 0%Z = Z.of_nat (n - 1 - i).
Proof.
  intros Hi. unfold reversed_axes.
  rewrite rev_nth by (rewrite length_map, length_seq; exact Hi).
  rewrite length_map, length_seq.
  change 0%Z with (Z.of_nat 0). rewrite map_nth, seq_nth by lia.
  f_equal. lia.
Qed.

Lemma reversed_axes_length (n : nat) : List.length (reversed_axes n) = n.
Proof. unfold reversed_axes. now rewrite length_rev, length_map, length_seq. Qed.

Lemma default_pattern (n : nat) :
  (Z.of_nat n < 2 ^ 31)%Z ->
  map (fun i => wrap_int32 (Z.of_N (N.of_nat n - i - 1))) (range 0 (N.of_nat n)) =
  reversed_axes n.
Proof.
  intros Hn. apply (nth_ext _ _ 0%Z 0%Z).
  - unfold range. rewrite !length_map, length_seq, reversed_axes_length. lia.
  - intros i Hi. unfold range in *. rewrite !length_map, length_seq in Hi.
    assert (Hin : (i < n)%nat) by lia.
    rewrite reversed_axes_nth by exact Hin.
    rewrite map_map.
    replace (N.to_nat (N.of_nat n) - N.to_nat 0)%nat with n by lia.
    change (N.to_nat 0) with 0%nat.
    rewrite (nth_indep _ 0%Z
               ((fun x => wrap_int32 (Z.of_N (N.of_nat n - N.of_nat x - 1))) 0%nat))
      by (rewrite length_map, length_seq; exact Hin).
    rewrite (map_nth (fun x => wrap_int32 (Z.of_N (N.of_nat n - N.of_nat x - 1)))).
    rewrite seq_nth by exact Hin. cbn [Nat.add].
    replace (N.of_nat n - N.of_nat i - 1)%N with (N.of_nat (n - 1 - i)) by lia.
    apply wrap_int32_small. lia.
Qed.

Lemma fast_ndim_known (t : TensorData) (s : list N) :
  t_shape t = Some s -> fast_ndim (PyTensor t) = Some (Ok (size s)).
Proof.
  intros Hs. unfold fast_ndim. cbn [TensorWrapper_try_cast].
  destruct (t_symvar t).
  - cbn [getattr_ndim]. rewrite Hs. cbn [attr_get rbind].
    rewrite <- nat_N_Z. now rewrite cast_size_t_dim.
  - now rewrite Hs.
Qed.

(** The pattern loop on any entries: every entry is read when each is a
    Python integer that fits an [int32_t] or a string; the first entry
    that is neither raises [py::cast_error]. *)
Lemma pattern_loop (es : list PyObject) :
  forall acc,
    rfold pattern_step es acc =
    if forallb pattern_entry es then Ok (acc ++ flat_map entry_pattern es)
    else Raise cast_error.
Proof.
  induction es as [|o es IH]; intros acc.
  - cbn. now rewrite app_nil_r.
  - cbn [rfold flat_map forallb].
    assert (Hstep : pattern_step acc o =
                    if pattern_entry o then Ok (acc ++ entry_pattern o)
                    else Raise cast_error).
    { destruct o; unfold pattern_step;
        cbn [PyLong_Check cast_int32 entry_pattern pattern_entry rbind];
        try reflexivity.
      - destruct (in_int32 z); reflexivity.
      - destruct (String.eqb s "x"); [reflexivity|now rewrite app_nil_r]. }
    rewrite Hstep. destruct (pattern_entry o); [|reflexivity].
    cbn [rbind andb]. rewrite IH.
    destruct (forallb pattern_entry es); [|reflexivity]. now rewrite app_assoc.
Qed.

Section TransposeFacts.

Variable X : AxisEngine.

Lemma transpose_run (t : TensorData) (s : list N) (args : PyObject)
      (lis : list PyObject) :
  t_shape t = Some s ->
  transpose_list X (_expand_args args) = Ok lis ->
  _transpose_cpp X (PyTensor t) args =
  Some
    (if (size s =? 0)%N then
       if negb (size lis =? 0)%N then
         Raise (index_error "transpose for scalar does not accept additional args")
       else call_to X (PyTensor t) (PyCompNode (t_device t))
     else
       rbind (if (size lis =? 0)%N then
                Ok (map (fun i => wrap_int32 (Z.of_N (size s - i - 1)))
                        (range 0 (size s)))
              else rfold pattern_step lis [])
         (fun pattern =>
            first_output (py_apply_axis X (Dimshuffle pattern) [PyTensor t]))).
Proof.
  intros Hs Hl. unfold _transpose_cpp. rewrite Hl, (fast_ndim_known t s Hs).
  cbn [getattr_device attr_get rbind getattr_ndim]. rewrite Hs.
  cbn [attr_get rbind]. rewrite <- nat_N_Z. fold (size s).
  rewrite cast_size_t_dim. cbn [rbind]. reflexivity.
Qed.

Lemma transpose_list_sequence (args : PyObject) (es : list PyObject) :
  one_sequence args es -> transpose_list X (_expand_args args) = Ok es.
Proof. intros [->| ->]; reflexivity. Qed.

Lemma transpose_list_spread (es : list PyObject) :
  spread es -> transpose_list X (_expand_args (PyTuple es)) = Ok es.
Proof.
  intros Hsp. destruct es as [|a [|b es]]; try reflexivity.
  cbn [_expand_args]. now rewrite (Hsp a eq_refl).
Qed.

(** X11.  [transpose] without a pattern, on a tensor of known rank
    [n >= 1]: the operator applied is [Dimshuffle] with the axes
    [n-1, ..., 1, 0].  Entry [i] of that pattern is [n-1-i], so the
    pattern is its own inverse: following it twice leads back to [i]. *)
Theorem transpose_default_reverses (t : TensorData) (s : list N) :
  t_shape t = Some s ->
  s <> [] ->
  (Z.of_nat (List.length s) < 2 ^ 31)%Z ->
  let n := List.length s in
  let pattern := reversed_axes n in
  (forall args,
      args = PyTuple [] \/ one_sequence args [] ->
      _transpose_cpp X (PyTensor t) args =
      Some (first_output (py_apply_axis X (Dimshuffle pattern) [PyTensor t]))) /\
  (forall i, (i < n)%nat -> nth i pattern 0%Z = Z.of_nat (n - 1 - i)) /\
  (forall i, (i < n)%nat ->
     nth (Z.to_nat (nth i pattern 0%Z)) pattern 0%Z = Z.of_nat i).
Proof.
  intros Hs Hne Hn n pattern. split; [|split].
  - intros args Hargs.
    assert (Hl : transpose_list X (_expand_args args) = Ok [])
      by (destruct Hargs as [->|[->| ->]]; reflexivity).
    rewrite (transpose_run t s args [] Hs Hl).
    replace (size s =? 0)%N with false
      by (symmetry; apply N.eqb_neq; unfold size; destruct s;
          [contradiction | cbn [List.length]; lia]).
    cbn [size List.length N.of_nat N.eqb rbind].
    unfold size. rewrite default_pattern by exact Hn. reflexivity.
  - intros i Hi. now apply reversed_axes_nth.
  - intros i Hi. unfold pattern.
    rewrite (reversed_axes_nth n i Hi), Nat2Z.id.
    rewrite reversed_axes_nth by lia. f_equal. lia.
Qed.

(** X12.  [transpose] on a tensor of rank zero.  Any pattern with at
    least one entry, valid or not, is refused with
    [IndexError("transpose for scalar does not accept additional args")];
    without a pattern no operator is applied and the result is the
    tensor's own [to] called with its device. *)
Theorem transpose_of_scalar (t : TensorData) :
  t_shape t = Some [] ->
  let refused :=
    Some (@Raise PyObject
            (index_error "transpose for scalar does not accept additional args")) in
  (forall es args, es <> [] -> one_sequence args es ->
     _transpose_cpp X (PyTensor t) args = refused) /\
  (forall a b es, _transpose_cpp X (PyTensor t) (PyTuple (a :: b :: es)) = refused) /\
  (forall z, _transpose_cpp X (PyTensor t) (PyTuple [PyLong z]) = refused) /\
  (forall args, args = PyTuple [] \/ one_sequence args [] ->
     _transpose_cpp X (PyTensor t) args =
     Some (call_to X (PyTensor t) (PyCompNode (t_device t)))).
Proof.
  intros Hs refused. split; [|split; [|split]].
  - intros es args Hne Hargs.
    rewrite (transpose_run t [] args es Hs (transpose_list_sequence args es Hargs)).
    destruct es; [contradiction|reflexivity].
  - intros a b es.
    now rewrite (transpose_run t [] (PyTuple (a :: b :: es)) (a :: b :: es) Hs eq_refl).
  - intros z.
    now rewrite (transpose_run t [] (PyTuple [PyLong z]) [PyLong z] Hs eq_refl).
  - intros args Hargs.
    assert (Hl : transpose_list X (_expand_args args) = Ok [])
      by (destruct Hargs as [->|[->| ->]]; reflexivity).
    now rewrite (transpose_run t [] args [] Hs Hl).
Qed.

(** X13.  [transpose] with a pattern, on a tensor of known rank at least
    one; the pattern is passed as one list or tuple, or as separate
    arguments.  When every entry is a Python integer that fits an
    [int32_t] or a string, the pattern handed to [Dimshuffle] is read off
    the entries one by one: an integer stands for itself, the string "x"
    for -1, and any other string is skipped without an error; the result
    is not compared with the rank of the tensor, and the integers need not
    be a permutation.  An integer that does not fit an [int32_t], and an
    entry that is neither an integer nor a string, raises
    [py::cast_error], and nothing is applied. *)
Theorem transpose_pattern_as_given (t : TensorData) (s : list N)
        (es : list PyObject) (args : PyObject) :
  t_shape t = Some s ->
  s <> [] ->
  es <> [] ->
  one_sequence args es \/ (args = PyTuple es /\ spread es) ->
  _transpose_cpp X (PyTensor t) args =
  Some (if forallb pattern_entry es
        then first_output
               (py_apply_axis X (Dimshuffle (flat_map entry_pattern es)) [PyTensor t])
        else Raise cast_error) /\
  (forall a b str, es = a ++ PyStr str :: b -> str <> "x" ->
     flat_map entry_pattern es = flat_map entry_pattern (a ++ b)).
Proof.
  intros Hs Hne Hes Hargs. split.
  - assert (Hl : transpose_list X (_expand_args args) = Ok es).
    { destruct Hargs as [Hseq|[-> Hsp]];
        [now apply transpose_list_sequence | now apply transpose_list_spread]. }
    rewrite (transpose_run t s args es Hs Hl).
    replace (size s =? 0)%N with false
      by (symmetry; apply N.eqb_neq; unfold size; destruct s;
          [contradiction | cbn [List.length]; lia]).
    replace (size es =? 0)%N with false
      by (symmetry; apply N.eqb_neq; unfold size; destruct es;
          [contradiction | cbn [List.length]; lia]).
    rewrite (pattern_loop es []).
    destruct (forallb pattern_entry es); reflexivity.
  - intros a b str -> Hstr. rewrite !flat_map_app. cbn [flat_map entry_pattern].
    apply String.eqb_neq in Hstr. now rewrite Hstr.
Qed.

End TransposeFacts.

(** X11, witness: a tensor of shape (2,3,4). *)
Lemma transpose_default_reverses_witness :
  _transpose_cpp DemoAxis.engine (Demo.tensor 1 [2; 3; 4]%N) (PyTuple []) =
  Some (first_output
          (py_apply_axis DemoAxis.engine (Dimshuffle [2; 1; 0]%Z)
             [Demo.tensor 1 [2; 3; 4]%N])).
Proof.
  refine (proj1 (transpose_default_reverses DemoAxis.engine
                   (mkTensor false NPY_FLOAT32 Demo.cpu0 (Some [2; 3; 4]%N) false [] 1)
                   [2; 3; 4]%N eq_refl _ eq_refl) (PyTuple []) (or_introl eq_refl)).
  discriminate.
Defined.

(** X12, witness: a pattern given to a tensor of rank zero. *)
Lemma transpose_of_scalar_witness :
  _transpose_cpp DemoAxis.engine (Demo.tensor 1 []) (PyTuple [PyList [PyLong 0]]) =
  Some (Raise (index_error "transpose for scalar does not accept additional args")).
Proof.
  refine (proj1 (transpose_of_scalar DemoAxis.engine
                   (mkTensor false NPY_FLOAT32 Demo.cpu0 (Some []) true [] 1) eq_refl)
                [PyLong 0] (PyTuple [PyList [PyLong 0]]) _ (or_introl eq_refl)).
  discriminate.
Defined.

(** X13, witness: the pattern (1, "x", "y", 0) on a tensor of rank two. *)
Lemma transpose_pattern_as_given_witness :
  _transpose_cpp DemoAxis.engine (Demo.tensor 1 [2; 3]%N)
    (PyTuple [PyList [PyLong 1; PyStr "x"; PyStr "y"; PyLong 0]]) =
  Some (first_output
          (py_apply_axis DemoAxis.engine (Dimshuffle [1; -1; 0]%Z)
             [Demo.tensor 1 [2; 3]%N])).
Proof.
  refine (proj1 (transpose_pattern_as_given DemoAxis.engine
                   (mkTensor false NPY_FLOAT32 Demo.cpu0 (Some [2; 3]%N) false [] 1)
                   [2; 3]%N [PyLong 1; PyStr "x"; PyStr "y"; PyLong 0]
                   (PyTuple [PyList [PyLong 1; PyStr "x"; PyStr "y"; PyLong 0]])
                   eq_refl _ _ (or_introl (or_introl eq_refl)))).
  - discriminate.
  - discriminate.
Defined.

(* ================================================================== *)
(** ** split *)

Lemma last_default (l : list Z) (y d1 d2 : Z) : last (y :: l) d1 = last (y :: l) d2.
Proof.
  revert y. induction l as [|z l IH]; intros y; [reflexivity|].
  change (last (y :: z :: l) d1) with (last (z :: l) d1).
  change (last (y :: z :: l) d2) with (last (z :: l) d2).
  apply IH.
Qed.

Lemma gaps_sum (l : list Z) (x : Z) : Z_sum (gaps (x :: l)) = (last (x :: l) x - x)%Z.
Proof.
  unfold Z_sum. revert x. induction l as [|y l IH]; intros x; [cbn; lia|].
  change (gaps (x :: y :: l)) with ((y - x)%Z :: gaps (y :: l)).
  cbn [fold_right]. rewrite IH.
  change (last (x :: y :: l) x) with (last (y :: l) x).
  rewrite (last_default l y x y). lia.
Qed.

Lemma gaps_length (l : list Z) (x : Z) : List.length (gaps (x :: l)) = List.length l.
Proof.
  revert x. induction l as [|y l IH]; intros x; [reflexivity|].
  change (gaps (x :: y :: l)) with ((y - x)%Z :: gaps (y :: l)).
  cbn [List.length]. now rewrite IH.
Qed.

Lemma gaps_nonneg (l : list Z) (x : Z) :
  nondecreasing (x :: l) = true -> Forall (fun g => 0 <= g)%Z (gaps (x :: l)).
Proof.
  revert x. induction l as [|y l IH]; intros x H; [constructor|].
  change (nondecreasing (x :: y :: l))
    with ((x <=? y)%Z && nondecreasing (y :: l)) in H.
  apply andb_prop in H. destruct H as [Hxy Hrest].
  apply Z.leb_le in Hxy.
  change (gaps (x :: y :: l)) with ((y - x)%Z :: gaps (y :: l)).
  constructor; [lia|now apply IH].
Qed.

Lemma tuple_subscript (s : list N) (i : nat) :
  (i < List.length s)%nat ->
  tuple_item (map (fun d => PyLong (Z.of_N d)) s) (Z.to_N (Z.of_nat i)) =
  Ok (PyLong (Z.of_N (nth i s 0%N))).
Proof.
  intros Hi. rewrite shape_tuple_item by (unfold size; lia).
  now replace (N.to_nat (Z.to_N (Z.of_nat i))) with i by lia.
Qed.

Section SplitFacts.

Variable E : Engine.
Variable X : AxisEngine.

(** The start of [_split_cpp] on a shape that is a tuple: the axis is
    looked up in the tuple before it is compared with the rank. *)
Lemma split_reads_axis (inp nsplits : PyObject) (s : list N) (a : Z) :
  getattr_shape' E inp = AttrVal (shape_tuple s) ->
  (Z.of_nat (List.length s) < 2 ^ 31)%Z ->
  in_int32 a = true ->
  let rank := Z.of_nat (List.length s) in
  ((a < - rank \/ rank <= a)%Z ->
   _split_cpp E X inp nsplits (PyLong a) =
   Raise (error_already_set "IndexError: tuple index out of range")) /\
  ((- rank <= a < rank)%Z ->
   _split_cpp E X inp nsplits (PyLong a) =
   let n_total := PyLong (Z.of_N (nth (Z.to_nat (resolve_axis rank a)) s 0%N)) in
   if is_py_sequence nsplits then
     rbind (PySequence_List X nsplits) (fun sections =>
     rbind (split_partitions E X inp nsplits (PyLong 0) (sections ++ [n_total]))
       (fun partitions =>
          all_outputs (py_apply_axis X (Split a 0) (inp :: partitions))))
   else
     rbind (rbind (py_int X nsplits) cast_int32) (fun n_sections =>
       if (n_sections <=? 0)%Z then
         Raise (value_error "Number sections must be larger than 0")
       else
         rbind (py_gt X (PyLong n_sections) n_total) (fun too_many =>
           if too_many then
             Raise (value_error
               ("The size " +++ py_repr E n_total +++ " at dim " +++
                to_string_Z a +++ " cannot be split into " +++
                to_string_Z n_sections +++ " sections"))
           else all_outputs (py_apply_axis X (Split a n_sections) [inp])))).
Proof.
  intros Hshape Hn Ha rank.
  assert (Hss : in_ssize_t a = true).
  { unfold in_int32 in Ha. unfold in_ssize_t.
    apply andb_prop in Ha. destruct Ha as [Hlo Hhi].
    apply Z.leb_le in Hlo. apply Z.ltb_lt in Hhi.
    apply andb_true_intro. split; [apply Z.leb_le | apply Z.ltb_lt]; lia. }
  unfold _split_cpp. rewrite Hshape. cbn [attr_get rbind].
  unfold shape_tuple, py_subscript. cbn [int_value]. rewrite Hss. cbn [negb].
  rewrite length_map. fold rank.
  split.
  - intros Hout.
    replace ((0 <=? (if (a <? 0)%Z then (a + rank)%Z else a))%Z &&
             ((if (a <? 0)%Z then (a + rank)%Z else a) <? rank)%Z) with false.
    + reflexivity.
    + symmetry. apply andb_false_iff.
      destruct (Z.ltb_spec a 0); [left; apply Z.leb_gt | right; apply Z.ltb_ge]; lia.
  - intros Hin.
    replace ((0 <=? (if (a <? 0)%Z then (a + rank)%Z else a))%Z &&
             ((if (a <? 0)%Z then (a + rank)%Z else a) <? rank)%Z) with true.
    + fold (resolve_axis rank a).
      assert (Hres : (0 <= resolve_axis rank a < rank)%Z)
        by (unfold resolve_axis; destruct (Z.ltb_spec a 0); lia).
      rewrite <- (Z2Nat.id (resolve_axis rank a)) at 1 by lia.
      rewrite tuple_subscript by lia. cbn [rbind py_len].
      rewrite length_map. fold rank. cbn [cast_int32].
      replace (in_int32 rank) with true
        by (symmetry; unfold in_int32; apply andb_true_intro;
            split; [apply Z.leb_le | apply Z.ltb_lt]; lia).
      cbn [rbind cast_int cast_int32]. rewrite Ha. cbn [rbind].
      replace (rank <=? a)%Z with false by (symmetry; apply Z.leb_gt; lia).
      reflexivity.
    + symmetry. apply andb_true_intro.
      destruct (Z.ltb_spec a 0); split; try apply Z.leb_le; try apply Z.ltb_lt; lia.
Qed.

(** An axis outside the range of the shape tuple stops [_split_cpp] in
    the tuple lookup, whatever the size of the integer. *)
Lemma split_axis_outside (inp nsplits : PyObject) (s : list N) (a : Z) :
  getattr_shape' E inp = AttrVal (shape_tuple s) ->
  let rank := Z.of_nat (List.length s) in
  (a < - rank \/ rank <= a)%Z ->
  _split_cpp E X inp nsplits (PyLong a) =
  Raise (error_already_set
           (if in_ssize_t a then "IndexError: tuple index out of range"
            else "IndexError: cannot fit 'int' into an index-sized integer")).
Proof.
  intros Hshape rank Hout.
  unfold _split_cpp. rewrite Hshape. cbn [attr_get rbind].
  unfold shape_tuple, py_subscript. cbn [int_value].
  destruct (in_ssize_t a); cbn [negb]; [|reflexivity].
  rewrite length_map. fold rank.
  replace ((0 <=? (if (a <? 0)%Z then (a + rank)%Z else a))%Z &&
           ((if (a <? 0)%Z then (a + rank)%Z else a) <? rank)%Z) with false.
  - reflexivity.
  - symmetry. apply andb_false_iff.
    destruct (Z.ltb_spec a 0); [left; apply Z.leb_gt | right; apply Z.ltb_ge]; lia.
Qed.

(** X14.  [split] into a number [n] of sections, axis and [n] being
    Python integers, on a tensor whose shape is a tuple of rank below
    2^31.  An axis outside [-rank, rank) fails in the tuple lookup with
    Python's [IndexError]; the test that would raise "Invalid axis" comes
    after it and cannot fire.  An axis inside the range may be negative
    and is handed on as given.  A count [n] that does not fit a C [int]
    raises [py::cast_error].  A count that fits is refused with a
    [ValueError] when it is not positive, and when it exceeds the size [d]
    of the axis; every other count is accepted, whether it divides [d] or
    not, and the whole tuple of outputs of [Split(axis, n)] is
    returned. *)
Theorem split_by_count (inp : PyObject) (s : list N) (a n : Z) :
  getattr_shape' E inp = AttrVal (shape_tuple s) ->
  (Z.of_nat (List.length s) < 2 ^ 31)%Z ->
  let rank := Z.of_nat (List.length s) in
  let run := _split_cpp E X inp (PyLong n) (PyLong a) in
  ((a < - rank \/ rank <= a)%Z ->
   run = Raise (error_already_set
                  (if in_ssize_t a then "IndexError: tuple index out of range"
                   else "IndexError: cannot fit 'int' into an index-sized integer"))) /\
  ((- rank <= a < rank)%Z ->
   let d := nth (Z.to_nat (resolve_axis rank a)) s 0%N in
   (in_int32 n = false -> run = Raise cast_error) /\
   (in_int32 n = true ->
    ((n <= 0)%Z ->
     run = Raise (value_error "Number sections must be larger than 0")) /\
    ((0 < n)%Z -> (Z.of_N d < n)%Z ->
     run = Raise (value_error (cannot_split d a n))) /\
    ((0 < n <= Z.of_N d)%Z ->
     run = all_outputs (py_apply_axis X (Split a n) [inp])))).
Proof.
  intros Hshape Hrank rank run.
  split; [now apply split_axis_outside|].
  intros Hrange d.
  assert (Ha : in_int32 a = true).
  { unfold in_int32. apply andb_true_intro.
    split; [apply Z.leb_le | apply Z.ltb_lt]; lia. }
  destruct (split_reads_axis inp (PyLong n) s a Hshape Hrank Ha) as [_ Hin].
  unfold run. rewrite (Hin Hrange). cbv zeta. fold rank. fold d.
  cbn [is_py_sequence PyArray_Check TensorWrapper_try_cast isinstance_PySymbolVar
       orb PySequence_Check py_int rbind cast_int32].
  split; [intros Hn; now rewrite Hn|].
  intros Hn. rewrite Hn. cbn [rbind py_gt int_value py_repr].
  split; [|split].
  - intros Hle.
    now replace (n <=? 0)%Z with true by (symmetry; apply Z.leb_le; exact Hle).
  - intros Hpos Hmany.
    replace (n <=? 0)%Z with false by (symmetry; apply Z.leb_gt; exact Hpos).
    replace (Z.of_N d <? n)%Z with true by (symmetry; apply Z.ltb_lt; exact Hmany).
    unfold cannot_split. now rewrite to_string_Z_of_N.
  - intros [Hpos Hfit].
    replace (n <=? 0)%Z with false by (symmetry; apply Z.leb_gt; exact Hpos).
    now replace (Z.of_N d <? n)%Z with false by (symmetry; apply Z.ltb_ge; exact Hfit).
Qed.

Lemma split_partitions_ints (inp nsplits dev : PyObject) (mk : Z -> PyObject)
      (l : list Z) :
  getattr_device inp = AttrVal dev ->
  (forall z, _Const E (PyLong z) NPY_INT32 dev inp = Ok (mk z)) ->
  forall prev,
    split_partitions E X inp nsplits (PyLong prev) (map PyLong l) =
    if nondecreasing (prev :: l) then Ok (map mk (gaps (prev :: l)))
    else Raise (value_error ("Invalid nsplits_or_secions: " +++ py_repr E nsplits)).
Proof.
  intros Hdev Hmk. induction l as [|cur l IH]; intros prev; [reflexivity|].
  cbn [map split_partitions py_gt int_value rbind].
  change (nondecreasing (prev :: cur :: l))
    with ((prev <=? cur)%Z && nondecreasing (cur :: l)).
  rewrite Z.ltb_antisym.
  destruct (prev <=? cur)%Z; cbn [negb andb]; [|reflexivity].
  cbn [py_sub int_value rbind is_tensor_or_symbolvar]. rewrite Hdev.
  cbn [attr_get rbind]. rewrite Hmk. cbn [rbind]. rewrite IH.
  destruct (nondecreasing (cur :: l)); reflexivity.
Qed.

(** X15.  [split] at division points, given as a list or tuple of
    integers, along an axis of size [d] of a tensor whose shape is a
    tuple.  The points are accepted exactly when
    [0 <= p1 <= ... <= pk <= d]; then [Split(axis, 0)] is applied to the
    tensor followed by one constant per section, [k+1] of them, holding
    the section lengths; the lengths are non-negative and add up to [d].
    Otherwise the call fails with the [ValueError] that prints the
    points, and the operator is not applied. *)
Theorem split_at_points (inp dev nsplits : PyObject) (mk : Z -> PyObject)
        (s : list N) (a : Z) (pts : list Z) :
  getattr_shape' E inp = AttrVal (shape_tuple s) ->
  getattr_device inp = AttrVal dev ->
  (forall z, _Const E (PyLong z) NPY_INT32 dev inp = Ok (mk z)) ->
  (Z.of_nat (List.length s) < 2 ^ 31)%Z ->
  in_int32 a = true ->
  (- Z.of_nat (List.length s) <= a < Z.of_nat (List.length s))%Z ->
  nsplits = PyList (map PyLong pts) \/ nsplits = PyTuple (map PyLong pts) ->
  let d := Z.of_N (nth (Z.to_nat (resolve_axis (Z.of_nat (List.length s)) a)) s 0%N) in
  let bounds := (0 :: pts ++ [d])%Z in
  (nondecreasing bounds = true ->
   _split_cpp E X inp nsplits (PyLong a) =
   all_outputs (py_apply_axis X (Split a 0) (inp :: map mk (gaps bounds))) /\
   List.length (gaps bounds) = S (List.length pts) /\
   Forall (fun g => 0 <= g)%Z (gaps bounds) /\
   Z_sum (gaps bounds) = d) /\
  (nondecreasing bounds = false ->
   _split_cpp E X inp nsplits (PyLong a) =
   Raise (value_error ("Invalid nsplits_or_secions: " +++ py_repr E nsplits))).
Proof.
  intros Hshape Hdev Hmk Hrank Ha Hrange Hns d bounds.
  destruct (split_reads_axis inp nsplits s a Hshape Hrank Ha) as [_ Hin].
  assert (Hrun : _split_cpp E X inp nsplits (PyLong a) =
                 rbind (if nondecreasing bounds then Ok (map mk (gaps bounds))
                        else Raise (value_error
                               ("Invalid nsplits_or_secions: " +++ py_repr E nsplits)))
                   (fun partitions =>
                      all_outputs (py_apply_axis X (Split a 0) (inp :: partitions)))).
  { rewrite (Hin Hrange). cbv zeta. fold d.
    assert (Hseq : is_py_sequence nsplits = true /\
                   PySequence_List X nsplits = Ok (map PyLong pts))
      by (destruct Hns as [->| ->]; split; reflexivity).
    destruct Hseq as [-> ->]. cbn [rbind].
    change [PyLong d] with (map PyLong [d]). rewrite <- map_app.
    now rewrite (split_partitions_ints inp nsplits dev mk (pts ++ [d]) Hdev Hmk 0%Z). }
  rewrite Hrun. split.
  - intros Hok. rewrite Hok. cbn [rbind]. split; [reflexivity|].
    split; [|split].
    + unfold bounds. rewrite gaps_length, length_app. cbn [List.length]. lia.
    + now apply gaps_nonneg.
    + unfold bounds. rewrite gaps_sum.
      change (0 :: pts ++ [d])%Z with ((0 :: pts) ++ [d])%Z.
      rewrite last_last. lia.
  - intros Hbad. now rewrite Hbad.
Qed.

End SplitFacts.

(** X14, witness: a tensor of shape (4,6) split into 4 along axis -1. *)
Lemma split_by_count_witness :
  _split_cpp Demo.engine DemoAxis.engine (Demo.tensor 1 [4; 6]%N) (PyLong 4) (PyLong (-1)) =
  all_outputs (py_apply_axis DemoAxis.engine (Split (-1) 4) [Demo.tensor 1 [4; 6]%N]).
Proof.
  refine (proj2 (proj2 (proj2 (proj2 (split_by_count Demo.engine DemoAxis.engine
            (Demo.tensor 1 [4; 6]%N) [4; 6]%N (-1) 4 eq_refl eq_refl) _) eq_refl)) _).
  all: vm_compute; split; first [reflexivity | discriminate].
Defined.

(** X15, witness: a tensor of shape (10) split at 3 and 7. *)
Lemma split_at_points_witness :
  let bounds := [0; 3; 7; 10]%Z in
  _split_cpp Demo.engine DemoAxis.engine (Demo.tensor 1 [10]%N)
    (PyList [PyLong 3; PyLong 7]) (PyLong 0) =
  all_outputs
    (py_apply_axis DemoAxis.engine (Split 0 0)
       (Demo.tensor 1 [10]%N ::
        map (fun z => PyTensor (mkTensor false NPY_INT32 Demo.cpu0 (Some []) true
                               [PyLong_AsLong (PyLong z)] 0))
            (gaps bounds))).
Proof.
  refine (proj1 (proj1 (split_at_points Demo.engine DemoAxis.engine
            (Demo.tensor 1 [10]%N) (PyCompNode Demo.cpu0)
            (PyList [PyLong 3; PyLong 7])
            (fun z => PyTensor (mkTensor false NPY_INT32 Demo.cpu0 (Some []) true
                               [PyLong_AsLong (PyLong z)] 0))
            [10]%N 0 [3; 7]%Z eq_refl eq_refl _ eq_refl eq_refl _ (or_introl eq_refl))
            eq_refl)).
  - intros z. reflexivity.
  - vm_compute; split; first [reflexivity | discriminate].
Defined.

(* ================================================================== *)
(** ** broadcast *)

Lemma resolve_entries_set (s : list N) (es : list (option Z)) :
  existsb is_unset es = false ->
  forall r, map shape_entry es = map PyLong (resolve_entries s r es).
Proof.
  induction es as [|o es IH]; intros Hno r; [reflexivity|].
  cbn [existsb] in Hno. apply orb_false_elim in Hno. destruct Hno as [Ho Hes].
  destruct o as [z|]; [|discriminate Ho].
  cbn [map resolve_entries shape_entry]. f_equal. now apply IH.
Qed.

Lemma resolve_entries_small (s : list N) (es : list (option Z)) :
  Forall (fun d => (Z.of_N d < 2 ^ 31)%Z) s ->
  forall r, target_ok s r es = true ->
    Forall (fun z => 0 <= z < 2 ^ 31)%Z (resolve_entries s r es).
Proof.
  intros Hs. induction es as [|o es IH]; intros r Hok; [constructor|].
  cbn [target_ok] in Hok. apply andb_prop in Hok. destruct Hok as [Ho Hes].
  cbn [resolve_entries]. constructor; [|now apply IH].
  destruct o as [z|].
  - apply andb_prop in Ho. destruct Ho as [H0 H1].
    apply Z.leb_le in H0. apply Z.ltb_lt in H1. lia.
  - split; [lia|].
    destruct (nth_in_or_default (List.length s - r) s 0%N) as [Hin|Hdef]; [|rewrite Hdef; cbn; lia].
    rewrite Forall_forall in Hs. now apply Hs.
Qed.

Section BroadcastFacts.

Variable E : Engine.
Variable X : AxisEngine.

Lemma broadcast_step_int (inp : PyObject) (n i : N) (z : Z)
      (lis ns : list PyObject) (auto : bool) :
  in_int32 z = true ->
  broadcast_step E inp n (lis, ns, auto) (i, PyLong z) =
  if (z <? 0)%Z then Raise (value_error (negative_entry i z))
  else Ok (lis ++ [PyLong z], ns ++ [PyLong z], auto).
Proof.
  intros Hz. unfold broadcast_step. cbn [is_None PyLong_Check cast_int32].
  rewrite Hz. cbn [rbind]. destruct (z <? 0)%Z; reflexivity.
Qed.

Lemma broadcast_step_none (t : TensorData) (s : list N) (n i : N)
      (lis ns : list PyObject) (auto : bool) :
  t_symvar t = false -> t_shape t = Some s -> tracing E = false ->
  (i < n)%N ->
  broadcast_step E (PyTensor t) n (lis, ns, auto) (i, PyNone) =
  if (n - i <=? size s)%N then
    let d := PyLong (Z.of_N (nth (N.to_nat (size s - (n - i))) s 0%N)) in
    Ok (lis ++ [d], ns ++ [d], true)
  else Raise (value_error "invalid broadcast shape").
Proof.
  intros Hsym Hs Htr Hi. unfold broadcast_step. cbn [is_None getattr__tuple_shape].
  rewrite Hs. cbn [attr_get rbind]. unfold shape_tuple.
  assert (Hsz : size (map (fun d => PyLong (Z.of_N d)) s) = size s)
    by (unfold size; now rewrite length_map).
  rewrite Hsz. destruct (N.leb_spec (n - i) (size s)) as [Hfit|Hno]; [|reflexivity].
  rewrite shape_tuple_item by lia. cbn [rbind].
  unfold enable_fastpath. cbn [TensorWrapper_try_cast]. rewrite Hsym, Htr.
  reflexivity.
Qed.

Lemma broadcast_loop_ok (t : TensorData) (s : list N) :
  t_symvar t = false -> t_shape t = Some s -> tracing E = false ->
  forall es r k lis ns auto,
    (List.length es <= r)%nat ->
    target_ok s r es = true ->
    rfold (broadcast_step E (PyTensor t) (N.of_nat (k + r)))
          (enumerate_from k (map shape_entry es)) (lis, ns, auto) =
    Ok (lis ++ map PyLong (resolve_entries s r es),
        ns ++ map PyLong (resolve_entries s r es),
        auto || existsb is_unset es).
Proof.
  intros Hsym Hs Htr. induction es as [|o es IH]; intros r k lis ns auto Hr Hok.
  - cbn. now rewrite !app_nil_r, orb_false_r.
  - cbn [List.length] in Hr. cbn [target_ok] in Hok.
    apply andb_prop in Hok. destruct Hok as [Ho Hes].
    cbn [map]. rewrite enumerate_from_cons. cbn [rfold resolve_entries existsb].
    assert (Hnext : (N.of_nat (k + r) = N.of_nat (S k + (r - 1)))%N) by lia.
    destruct o as [z|]; cbn [shape_entry is_unset].
    + apply andb_prop in Ho. destruct Ho as [H0 H1].
      apply Z.leb_le in H0. apply Z.ltb_lt in H1.
      rewrite broadcast_step_int
        by (unfold in_int32; apply andb_true_intro;
            split; [apply Z.leb_le | apply Z.ltb_lt]; lia).
      replace (z <? 0)%Z with false by (symmetry; apply Z.ltb_ge; exact H0).
      cbn [rbind]. rewrite Hnext, IH by (assumption || lia).
      cbn [map orb]. now rewrite <- !app_assoc.
    + apply Nat.leb_le in Ho.
      rewrite (broadcast_step_none t s) by (assumption || lia).
      replace (N.of_nat (k + r) - N.of_nat k <=? size s)%N with true
        by (symmetry; apply N.leb_le; unfold size; lia).
      cbv zeta. cbn [rbind].
      replace (N.to_nat (size s - (N.of_nat (k + r) - N.of_nat k)))
        with (List.length s - r)%nat by (unfold size; lia).
      rewrite Hnext, IH by (assumption || lia).
      cbn [map orb]. rewrite <- !app_assoc, orb_true_r. cbn [app]. reflexivity.
Qed.

(** The loop over an acceptable prefix of the target, for any handle of
    known shape, in or outside tracing: it runs through, and [new_shape]
    grows by the resolved entries. *)
Lemma broadcast_loop_runs (t : TensorData) (s : list N) :
  t_shape t = Some s ->
  forall es r k lis ns auto,
    (List.length es <= r)%nat ->
    target_ok s r es = true ->
    exists lis',
      rfold (broadcast_step E (PyTensor t) (N.of_nat (k + r)))
            (enumerate_from k (map shape_entry es)) (lis, ns, auto) =
      Ok (lis', ns ++ map PyLong (resolve_entries s r es),
          auto || existsb is_unset es).
Proof.
  intros Hs. induction es as [|o es IH]; intros r k lis ns auto Hr Hok.
  - exists lis. cbn. now rewrite !app_nil_r, orb_false_r.
  - cbn [List.length] in Hr. cbn [target_ok] in Hok.
    apply andb_prop in Hok. destruct Hok as [Ho Hes].
    cbn [map]. rewrite enumerate_from_cons. cbn [rfold resolve_entries existsb].
    assert (Hnext : (N.of_nat (k + r) = N.of_nat (S k + (r - 1)))%N) by lia.
    destruct o as [z|]; cbn [shape_entry is_unset].
    + apply andb_prop in Ho. destruct Ho as [H0 H1].
      apply Z.leb_le in H0. apply Z.ltb_lt in H1.
      rewrite broadcast_step_int
        by (unfold in_int32; apply andb_true_intro;
            split; [apply Z.leb_le | apply Z.ltb_lt]; lia).
      replace (z <? 0)%Z with false by (symmetry; apply Z.ltb_ge; exact H0).
      cbn [rbind]. rewrite Hnext.
      destruct (IH (r - 1)%nat (S k) (lis ++ [PyLong z]) (ns ++ [PyLong z]) auto)
        as (lis' & ->); [lia|exact Hes|].
      exists lis'. cbn [map orb]. now rewrite <- !app_assoc.
    + apply Nat.leb_le in Ho.
      unfold broadcast_step at 1. cbn [is_None getattr__tuple_shape].
      rewrite Hs. cbn [attr_get rbind]. unfold shape_tuple.
      assert (Hsz : size (map (fun d => PyLong (Z.of_N d)) s) = size s)
        by (unfold size; now rewrite length_map).
      rewrite Hsz.
      replace (N.of_nat (k + r) - N.of_nat k <=? size s)%N with true
        by (symmetry; apply N.leb_le; unfold size; lia).
      rewrite shape_tuple_item by (unfold size; lia). cbn [rbind].
      replace (N.to_nat (size s - (N.of_nat (k + r) - N.of_nat k)))
        with (List.length s - r)%nat by (unfold size; lia).
      rewrite Hnext.
      match goal with
      | |- context [rfold _ _ (?l1, ?n1, true)] =>
          destruct (IH (r - 1)%nat (S k) l1 n1 true) as (lis' & ->);
            [lia|exact Hes|]
      end.
      exists lis'. cbn [map orb]. rewrite <- !app_assoc, orb_true_r. reflexivity.
Qed.

(** The loop over a prefix of integers in [0, 2^31), for any handle. *)
Lemma broadcast_loop_ints (inp : PyObject) (n : N) :
  forall es k r lis ns,
    target_ok [] r es = true -> existsb is_unset es = false ->
    rfold (broadcast_step E inp n)
          (enumerate_from k (map shape_entry es)) (lis, ns, false) =
    Ok (lis ++ map shape_entry es, ns ++ map shape_entry es, false).
Proof.
  induction es as [|o es IH]; intros k r lis ns Hk Hu.
  - cbn. now rewrite !app_nil_r.
  - cbn [target_ok] in Hk. apply andb_prop in Hk. destruct Hk as [Ho Hes].
    cbn [existsb] in Hu. apply orb_false_elim in Hu. destruct Hu as [Hu1 Hu2].
    destruct o as [z|]; [|discriminate Hu1].
    apply andb_prop in Ho. destruct Ho as [H0 H1].
    apply Z.leb_le in H0. apply Z.ltb_lt in H1.
    cbn [map shape_entry]. rewrite enumerate_from_cons. cbn [rfold].
    rewrite broadcast_step_int
      by (unfold in_int32; apply andb_true_intro;
          split; [apply Z.leb_le | apply Z.ltb_lt]; lia).
    replace (z <? 0)%Z with false by (symmetry; apply Z.ltb_ge; exact H0).
    cbn [rbind]. rewrite (IH _ (r - 1)%nat) by assumption.
    now rewrite <- !app_assoc.
Qed.

(** An integer entry, whatever it is, against any state of the loop. *)
Lemma broadcast_step_any_int (inp : PyObject) (n i : N) (z : Z)
      (st : list PyObject * list PyObject * bool) :
  (in_int32 z = false -> broadcast_step E inp n st (i, PyLong z) = Raise cast_error) /\
  (in_int32 z = true -> (z < 0)%Z ->
   broadcast_step E inp n st (i, PyLong z) = Raise (value_error (negative_entry i z))).
Proof.
  destruct st as [[lis ns] auto]. split.
  - intros Hz. unfold broadcast_step. cbn [is_None PyLong_Check cast_int32].
    now rewrite Hz.
  - intros Hz Hneg. rewrite broadcast_step_int by exact Hz.
    now replace (z <? 0)%Z with true by (symmetry; apply Z.ltb_lt; exact Hneg).
Qed.

Lemma broadcast_finish (t : TensorData) (shape_hdl : PyObject) (zs : list Z) :
  t_symvar t = false -> tracing E = false ->
  shape_hdl = PyList (map PyLong zs) \/ shape_hdl = PyTuple (map PyLong zs) ->
  Forall (fun z => 0 <= z < 2 ^ 31)%Z zs ->
  rbind (match _make_shape_tuple shape_hdl with
         | Ok l => Ok (PyTuple l)
         | Raise (error_already_set _) => Ok shape_hdl
         | Raise e => Raise e
         end) (fun shape_tuple =>
  rbind (tuple2vector shape_tuple) (fun '(shape, fastpath) =>
  let fastpath := fastpath && enable_fastpath E (PyTensor t) in
  rbind (if fastpath then Ok (Broadcast shape, [PyTensor t])
         else
           rbind (attr_get (getattr_device (PyTensor t))) (fun _ =>
           rbind (unchecked "PyObject_Call"
                    (cpp_astensor1d E shape_hdl (Some (PyTensor t)))) (fun shape_tensor =>
             Ok (Broadcast [], [PyTensor t; shape_tensor])))) (fun '(op, p) =>
  rbind (py_apply_axis X op p) (fun ret => tuple_item ret 0)))) =
  first_output (py_apply_axis X (Broadcast zs) [PyTensor t]).
Proof.
  intros Hsym Htr Hsh Hz.
  assert (Hlong : Forall (fun z => in_long z = true) zs).
  { eapply Forall_impl; [|exact Hz]. intros z Hzz. cbv beta in Hzz.
    unfold in_long. apply andb_true_intro.
    split; [apply Z.leb_le | apply Z.ltb_lt]; lia. }
  assert (H32 : Forall (fun z => in_int32 z = true) zs).
  { eapply Forall_impl; [|exact Hz]. intros z Hzz. cbv beta in Hzz.
    unfold in_int32. apply andb_true_intro.
    split; [apply Z.leb_le | apply Z.ltb_lt]; lia. }
  assert (Hm : _make_shape_tuple shape_hdl = Ok (map PyLong zs))
    by (destruct Hsh as [->| ->]; cbn [_make_shape_tuple]; now apply solve_all_longs).
  rewrite Hm. cbn [rbind]. rewrite (tuple2vector_ints zs H32). cbn [rbind].
  unfold enable_fastpath. cbn [TensorWrapper_try_cast]. rewrite Hsym, Htr.
  reflexivity.
Qed.

(** X16.  [broadcast] of a tensor (no symbolic variable) of known shape
    [s], every dimension below 2^31, outside tracing, to a target given
    as one list or tuple of integers in [0, 2^31) and [None] entries.
    Every [None] is replaced by the dimension of [s] that stands at the
    same distance from the end of [s] as the [None] stands from the end of
    the target; the integers are kept; and [Broadcast] is applied with the
    resulting shape to the tensor alone, no shape tensor being built. *)
Theorem broadcast_infers_unset (t : TensorData) (s : list N)
        (es : list (option Z)) (args : PyObject) :
  t_symvar t = false -> t_shape t = Some s -> tracing E = false ->
  Forall (fun d => (Z.of_N d < 2 ^ 31)%Z) s ->
  target_ok s (List.length es) es = true ->
  one_sequence args (map shape_entry es) ->
  _broadcast_cpp E X (PyTensor t) args =
  first_output
    (py_apply_axis X (Broadcast (resolve_entries s (List.length es) es)) [PyTensor t]).
Proof.
  intros Hsym Hs Htr Hdims Hok Hargs.
  pose proof (broadcast_loop_ok t s Hsym Hs Htr es (List.length es) 0 [] [] false
                (le_n _) Hok) as Hloop.
  cbn [app orb Nat.add] in Hloop.
  pose proof (resolve_entries_small s es Hdims _ Hok) as Hsmall.
  unfold _broadcast_cpp.
  assert (Hexp : _expand_args args = PyList (map shape_entry es) \/
                 _expand_args args = PyTuple (map shape_entry es))
    by (destruct Hargs as [->| ->]; [left|right]; reflexivity).
  assert (Hrun : match _expand_args args with
                 | PyList items | PyTuple items =>
                     rfold (broadcast_step E (PyTensor t) (size items))
                           (enumerate items) ([], [], false)
                 | _ => Ok ([], [], false)
                 end =
                 Ok (map PyLong (resolve_entries s (List.length es) es),
                     map PyLong (resolve_entries s (List.length es) es),
                     existsb is_unset es)).
  { destruct Hexp as [->| ->]; rewrite enumerate_is_from; unfold size;
      rewrite length_map; exact Hloop. }
  rewrite Hrun. cbn [rbind].
  unfold enable_fastpath at 1. cbn [TensorWrapper_try_cast].
  rewrite Hsym, Htr. cbn [negb].
  destruct (existsb is_unset es) eqn:Hauto; cbn [rbind].
  - apply broadcast_finish; try assumption. now right.
  - apply broadcast_finish; try assumption.
    rewrite <- (resolve_entries_set s es Hauto). exact Hexp.
Qed.

(** X17.  What [broadcast] refuses, on a tensor or symbolic variable, in
    or outside tracing, for a target given as one list or tuple.  The
    entries before position [i] are acceptable: integers in [0, 2^31) and,
    when the shape of the input is known, [None] entries that have a
    dimension of the input to stand for.  At [i]: an integer that does not
    fit an [int32_t] raises [py::cast_error]; a negative integer that fits
    raises the [ValueError] that prints [i] and the integer; a [None] that
    stands further from the end of the target than the input has
    dimensions raises [ValueError("invalid broadcast shape")]; and on an
    input whose shape is not known, a [None] raises the [IndexError] about
    an unknown shape.  In each case the first entry that is refused
    decides, and no operator is applied. *)
Theorem broadcast_refusals (t : TensorData) (a b : list (option Z)) :
  let n := S (List.length a + List.length b) in
  let target (bad : option Z) := map shape_entry (a ++ bad :: b) in
  let accepted :=
    (exists s, t_shape t = Some s /\ target_ok s n a = true) \/
    (t_shape t = None /\ target_ok [] n a = true /\ existsb is_unset a = false) in
  (forall z args,
     accepted -> in_int32 z = false ->
     one_sequence args (target (Some z)) ->
     _broadcast_cpp E X (PyTensor t) args = Raise cast_error) /\
  (forall z args,
     accepted -> in_int32 z = true -> (z < 0)%Z ->
     one_sequence args (target (Some z)) ->
     _broadcast_cpp E X (PyTensor t) args =
     Raise (value_error (negative_entry (size a) z))) /\
  (forall s args,
     t_shape t = Some s -> target_ok s n a = true ->
     (List.length s < S (List.length b))%nat ->
     one_sequence args (target None) ->
     _broadcast_cpp E X (PyTensor t) args =
     Raise (value_error "invalid broadcast shape")) /\
  (forall args,
     t_shape t = None -> target_ok [] n a = true -> existsb is_unset a = false ->
     one_sequence args (target None) ->
     _broadcast_cpp E X (PyTensor t) args =
     Raise (index_error "does not support `None` with unknown shape")).
Proof.
  intros n target accepted.
  assert (Hstart : forall args bad e,
             one_sequence args (target bad) ->
             rfold (broadcast_step E (PyTensor t) (N.of_nat n))
                   (enumerate_from 0 (map shape_entry (a ++ bad :: b)))
                   ([], [], false) = Raise e ->
             _broadcast_cpp E X (PyTensor t) args = Raise e).
  { intros args bad e Hargs Hloop. unfold _broadcast_cpp.
    assert (Hlen : size (target bad) = N.of_nat n).
    { unfold size, target, n. rewrite length_map, length_app. cbn [List.length]. lia. }
    destruct Hargs as [->| ->]; cbn [_expand_args PySequence_Check orb];
      rewrite enumerate_is_from, Hlen; unfold target; rewrite Hloop; reflexivity. }
  assert (Hstop : forall bad e,
             accepted ->
             (forall st, broadcast_step E (PyTensor t) (N.of_nat n) st
                           (N.of_nat (List.length a), shape_entry bad) = Raise e) ->
             rfold (broadcast_step E (PyTensor t) (N.of_nat n))
                   (enumerate_from 0 (map shape_entry (a ++ bad :: b)))
                   ([], [], false) = Raise e).
  { intros bad e Hacc Hbad.
    rewrite map_app, enumerate_from_app, rfold_app. cbn [map].
    rewrite length_map, Nat.add_0_l, enumerate_from_cons.
    destruct Hacc as [(s & Hs & Hok)|(Hs & Hok & Hset)].
    - destruct (broadcast_loop_runs t s Hs a n 0 [] [] false) as (lis' & Hloop);
        [unfold n; lia|exact Hok|].
      cbn [Nat.add] in Hloop. rewrite Hloop. cbn [rbind rfold].
      now rewrite Hbad.
    - rewrite (broadcast_loop_ints (PyTensor t) (N.of_nat n) a 0%nat n [] [] Hok Hset).
      cbn [rbind rfold]. now rewrite Hbad. }
  split; [|split; [|split]].
  - intros z args Hacc Hz Hargs.
    apply (Hstart args (Some z) _ Hargs). apply Hstop; [exact Hacc|].
    intros st. now apply broadcast_step_any_int.
  - intros z args Hacc Hz Hneg Hargs.
    apply (Hstart args (Some z) _ Hargs). apply Hstop; [exact Hacc|].
    intros st. unfold size. now apply broadcast_step_any_int.
  - intros s args Hs Hok Hfar Hargs.
    apply (Hstart args None _ Hargs).
    apply Hstop; [left; now exists s|].
    intros [[lis ns] auto]. unfold broadcast_step.
    cbn [shape_entry is_None getattr__tuple_shape]. rewrite Hs.
    cbn [attr_get rbind]. unfold shape_tuple.
    assert (Hsz : size (map (fun d => PyLong (Z.of_N d)) s) = size s)
      by (unfold size; now rewrite length_map).
    rewrite Hsz.
    replace (N.of_nat n - N.of_nat (List.length a) <=? size s)%N with false
      by (symmetry; apply N.leb_gt; unfold size, n; lia).
    reflexivity.
  - intros args Hs Hok Hset Hargs.
    apply (Hstart args None _ Hargs).
    apply Hstop; [right; now repeat split|].
    intros [[lis ns] auto]. unfold broadcast_step.
    cbn [shape_entry is_None getattr__tuple_shape]. rewrite Hs. reflexivity.
Qed.

End BroadcastFacts.

(** X16, witness: a (3,1,5) tensor broadcast to (2, None, 4, None). *)
Lemma broadcast_infers_unset_witness :
  _broadcast_cpp Demo.engine DemoAxis.engine (Demo.tensor 1 [3; 1; 5]%N)
    (PyTuple [PyList [PyLong 2; PyNone; PyLong 4; PyNone]]) =
  first_output
    (py_apply_axis DemoAxis.engine (Broadcast [2; 3; 4; 5]%Z)
       [Demo.tensor 1 [3; 1; 5]%N]).
Proof.
  refine (broadcast_infers_unset Demo.engine DemoAxis.engine
            (mkTensor false NPY_FLOAT32 Demo.cpu0 (Some [3; 1; 5]%N) false [] 1)
            [3; 1; 5]%N [Some 2%Z; None; Some 4%Z; None]
            (PyTuple [PyList [PyLong 2; PyNone; PyLong 4; PyNone]])
            eq_refl eq_refl eq_refl _ eq_refl (or_introl eq_refl)).
  repeat constructor.
Defined.

(** X17, witness: the target (2, -3) has a negative entry at position 1. *)
Lemma broadcast_refusals_witness :
  _broadcast_cpp Demo.engine DemoAxis.engine (Demo.tensor 1 [3; 1; 5]%N)
    (PyTuple [PyList [PyLong 2; PyLong (-3)]]) =
  Raise (value_error "expect shape[1] >= 0 or use `None` to auto infer, got -3").
Proof.
  refine (proj1 (proj2 (broadcast_refusals Demo.engine DemoAxis.engine
                   (mkTensor false NPY_FLOAT32 Demo.cpu0 (Some [3; 1; 5]%N) false [] 1)
                   [Some 2%Z] []))
                (-3)%Z (PyTuple [PyList [PyLong 2; PyLong (-3)]])
                _ eq_refl _ (or_introl eq_refl)).
  - left. exists [3; 1; 5]%N. split; reflexivity.
  - reflexivity.
Defined.

(* ================================================================== *)
(** ** Operands that take no part, and Python scalars that decide *)




Section OperandFacts.

Variable E : Engine.


Lemma scalar_group_floats (ops : list PyObject) :
  filter (fun desc => (category_priority (kind desc) =? 3)%N) (scalar_group ops) =
  repeat NPY_FLOAT32 (List.length (filter is_PyFloat ops)).
Proof.
  unfold scalar_group, group_of.
  induction ops as [|h ops IH]; [reflexivity|].
  cbn [flat_map]. rewrite filter_app, IH.
  destruct h; reflexivity.
Qed.

Lemma scalar_group_ints (ops : list PyObject) :
  filter is_PyFloat ops = [] ->
  filter (fun desc => (category_priority (kind desc) =? 2)%N) (scalar_group ops) =
  repeat NPY_INT32 (List.length (filter is_PyLong ops)) /\
  (max_category (scalar_group ops) <= 2)%N.
Proof.
  unfold scalar_group, group_of.
  induction ops as [|h ops IH]; intros Hf; [split; [reflexivity|cbn; lia]|].
  cbn [flat_map]. rewrite filter_app.
  destruct h; cbn [filter is_PyFloat] in Hf; try discriminate Hf;
    destruct (IH Hf) as [IH1 IH2]; rewrite IH1;
    (split; [reflexivity|]); cbn [scalar_descr app]; try exact IH2;
    unfold max_category in *; cbn [fold_right];
    match goal with
    | |- (N.max ?c _ <= 2)%N =>
        let v := eval vm_compute in c in change c with v
    end; lia.
Qed.

Lemma max_category_reached (g : list PyArray_Descr) (d : PyArray_Descr) :
  In d g -> (category_priority (kind d) <= max_category g)%N.
Proof.
  intros Hin. destruct (max_category_bounds g) as [Hall _].
  rewrite Forall_forall in Hall. now apply Hall.
Qed.

Lemma max_category_top (g : list PyArray_Descr) : (max_category g <= 3)%N.
Proof.
  induction g as [|d g IH]; [cbn; lia|].
  cbn [max_category fold_right]. fold (max_category g).
  assert (category_priority (kind d) <= 3)%N.
  { unfold category_priority. repeat destruct (Ascii.eqb _ _); lia. }
  lia.
Qed.

(** X19.  When exactly one operand is a Python float and every tensor,
    array or numpy-scalar operand is below the floating category, the
    promoted dtype is float32, the default of the Python float: numpy's
    promotion is not consulted.  Likewise, with no Python float, exactly
    one Python int, and every such operand below the integer category,
    the promoted dtype is int32. *)
Theorem lone_python_scalar_decides (args : list PyObject) :
  let ops := unroll_args args in
  (List.length (filter is_PyFloat ops) = 1%nat ->
   (max_category (tensor_group ops) < 3)%N ->
   _dtype_promotion E args = Ok NPY_FLOAT32) /\
  (filter is_PyFloat ops = [] ->
   List.length (filter is_PyLong ops) = 1%nat ->
   (max_category (tensor_group ops) < 2)%N ->
   _dtype_promotion E args = Ok NPY_INT32).
Proof.
  intros ops. split.
  - intros Hone Hbelow. rewrite dtype_promotion_unfold. cbv zeta. fold ops.
    rewrite !max_priority_is_max_category.
    pose proof (scalar_group_floats ops) as Hf. rewrite Hone in Hf. cbn [repeat] in Hf.
    assert (Hmax : max_category (scalar_group ops) = 3%N).
    { assert (Hin : In NPY_FLOAT32 (scalar_group ops)).
      { assert (Hin' : In NPY_FLOAT32
                         (filter (fun desc => (category_priority (kind desc) =? 3)%N)
                                 (scalar_group ops)))
          by (rewrite Hf; now left).
        apply filter_In in Hin'. tauto. }
      pose proof (max_category_reached _ _ Hin) as Hle.
      pose proof (max_category_top (scalar_group ops)) as Htop.
      change (category_priority (kind NPY_FLOAT32)) with 3%N in Hle. lia. }
    rewrite Hmax.
    replace (3 <=? 0)%N with false by reflexivity. cbn [andb].
    replace (max_category (tensor_group ops) <? 3)%N with true
      by (symmetry; apply N.ltb_lt; exact Hbelow).
    unfold promote_types. rewrite Hf. reflexivity.
  - intros Hnof Hone Hbelow. rewrite dtype_promotion_unfold. cbv zeta. fold ops.
    rewrite !max_priority_is_max_category.
    destruct (scalar_group_ints ops Hnof) as [Hi Hle2]. rewrite Hone in Hi.
    cbn [repeat] in Hi.
    assert (Hmax : max_category (scalar_group ops) = 2%N).
    { assert (Hin : In NPY_INT32 (scalar_group ops)).
      { assert (Hin' : In NPY_INT32
                         (filter (fun desc => (category_priority (kind desc) =? 2)%N)
                                 (scalar_group ops)))
          by (rewrite Hi; now left).
        apply filter_In in Hin'. tauto. }
      pose proof (max_category_reached _ _ Hin) as Hle.
      change (category_priority (kind NPY_INT32)) with 2%N in Hle. lia. }
    rewrite Hmax.
    replace (2 <=? 0)%N with false by reflexivity. cbn [andb].
    replace (max_category (tensor_group ops) <? 2)%N with true
      by (symmetry; apply N.ltb_lt; exact Hbelow).
    unfold promote_types. rewrite Hi. reflexivity.
Qed.

End OperandFacts.


(** X19, witness: an int32 tensor and a Python float. *)
Lemma lone_python_scalar_decides_witness :
  _dtype_promotion Demo.engine [Demo.typed NPY_INT32 Demo.cpu0; PyFloat 0] =
  Ok NPY_FLOAT32.
Proof.
  apply (proj1 (lone_python_scalar_decides Demo.engine
                  [Demo.typed NPY_INT32 Demo.cpu0; PyFloat 0])); reflexivity.
Defined.

(* ================================================================== *)
(** ** Arguments spread out or passed as one list *)

(** X20.  [reshape], [broadcast] and [transpose] do not tell arguments
    spread out from the same arguments passed as one list, as long as
    the spread arguments are not one lone sequence or handle (which would
    itself be taken for the list). *)
Theorem spread_arguments_as_one_list (E : Engine) (X : AxisEngine)
        (inp : PyObject) (l : list PyObject) :
  spread l ->
  _reshape_cpp E inp (PyTuple l) = _reshape_cpp E inp (PyTuple [PyList l]) /\
  _broadcast_cpp E X inp (PyTuple l) = _broadcast_cpp E X inp (PyTuple [PyList l]) /\
  _transpose_cpp X inp (PyTuple l) = _transpose_cpp X inp (PyTuple [PyList l]).
Proof.
  intros Hl.
  assert (He : _expand_args (PyTuple l) = _expand_args (PyTuple [PyList l])).
  { cbn [_expand_args PySequence_Check orb].
    destruct l as [|a [|b l]]; try reflexivity.
    now rewrite (Hl a eq_refl). }
  unfold _reshape_cpp, _broadcast_cpp, _transpose_cpp. rewrite He.
  repeat split; reflexivity.
Qed.

(** X20, witness: reshape(2, 3) and reshape([2, 3]). *)
Lemma spread_arguments_as_one_list_witness :
  _reshape_cpp Demo.engine (Demo.tensor 1 [6]%N) (PyTuple [PyLong 2; PyLong 3]) =
  _reshape_cpp Demo.engine (Demo.tensor 1 [6]%N) (PyTuple [PyList [PyLong 2; PyLong 3]]).
Proof.
  refine (proj1 (spread_arguments_as_one_list Demo.engine DemoAxis.engine
                   (Demo.tensor 1 [6]%N) [PyLong 2; PyLong 3] _)).
  intros a H. discriminate H.
Defined.

(* ================================================================== *)
(** ** Index unpacking: which operator is chosen *)

Lemma scan_keeps_position (tv l : list PyObject) :
  existsb is_Ellipsis l = false ->
  forall n pos cs unk,
    exists cs', rfold (ellipsis_scan_step tv) (enumerate_from n l) (pos, cs, unk) =
                Ok (pos, cs', unk).
Proof.
  induction l as [|h l IH]; intros Hne n pos cs unk; [now exists cs|].
  cbn [existsb] in Hne. apply orb_false_elim in Hne. destruct Hne as [Hh Hl].
  rewrite enumerate_from_cons. cbn [rfold].
  destruct (scan_step_other tv pos cs unk (N.of_nat n) h Hh) as (cs1 & ->).
  cbn [rbind]. apply IH, Hl.
Qed.





Section PathChoice.

Variable E : Engine.



End PathChoice.


(* ================================================================== *)
(** ** squeeze on a shape that is not known *)

(** X22.  [squeeze] on a handle whose shape is not known yet.  Without an
    axis it applies [RemoveAxis] with no axis at all.  With axes given as
    one Python integer or as a list or tuple of Python integers: an axis
    that does not fit an [int32_t] raises [py::cast_error]; when all fit
    and none is negative, it sorts them, lowers each by its position and
    applies [RemoveAxis], with no test against any rank; when all fit and
    one is negative, it adds [ndim] to it although [ndim] was never
    assigned, so the run has no defined outcome.  For the same axes
    [expand_dims] raises [py::cast_error] in the first case and the
    [IndexError] about an unknown ndim in the last. *)
Theorem squeeze_of_unknown_shape (X : AxisEngine) (inp : PyObject) :
  static_shape inp = Ok None ->
  _squeeze_cpp X inp PyNone =
    Some (first_output (py_apply_axis X (RemoveAxis []) [inp])) /\
  (forall l,
     let outcome :=
       if negb (forallb in_int32 l) then Some (Raise cast_error)
       else if existsb (fun a => (a <? 0)%Z) l then None
       else Some (first_output
                    (py_apply_axis X (RemoveAxis (sub_position (std_sort l))) [inp])) in
     _squeeze_cpp X inp (PyList (map PyLong l)) = outcome /\
     _squeeze_cpp X inp (PyTuple (map PyLong l)) = outcome /\
     (forall a, l = [a] -> _squeeze_cpp X inp (PyLong a) = outcome) /\
     (forallb in_int32 l = false ->
      _expand_dims_cpp X inp (PyList (map PyLong l)) = Raise cast_error) /\
     (forallb in_int32 l = true -> existsb (fun a => (a <? 0)%Z) l = true ->
      _expand_dims_cpp X inp (PyList (map PyLong l)) =
      Raise (index_error
               "Does not support negative index when tensor's ndim is unknown"))).
Proof.
  intros Hs. split.
  - unfold _squeeze_cpp. cbn [is_None negb]. rewrite Hs. reflexivity.
  - intros l outcome.
    destruct (list2vector_any X l) as (Hlist & Htuple & Hone).
    assert (Hrun : forall axis_hdl,
               is_None axis_hdl = false ->
               list2vector X axis_hdl =
               (if forallb in_int32 l then Ok l else Raise cast_error) ->
               _squeeze_cpp X inp axis_hdl = outcome).
    { intros axis_hdl Hnone Hl. unfold _squeeze_cpp, outcome.
      rewrite Hnone. cbn [negb]. rewrite Hl.
      destruct (forallb in_int32 l); cbn [negb]; [|reflexivity].
      rewrite Hs. destruct (existsb (fun a => (a <? 0)%Z) l); reflexivity. }
    split; [|split; [|split; [|split]]].
    + now apply Hrun.
    + now apply Hrun.
    + intros a Ha. apply Hrun; [reflexivity|now apply Hone].
    + intros H32. rewrite H32 in Hlist.
      now apply expand_dims_cast_error.
    + intros H32 Hneg. rewrite H32 in Hlist.
      rewrite (expand_dims_unknown X inp _ l Hlist Hs). now rewrite Hneg.
Qed.

(** X22, witness: a tensor handle whose shape is not known, and the
    axis -1. *)
Lemma squeeze_of_unknown_shape_witness :
  _squeeze_cpp DemoAxis.engine
    (PyTensor (mkTensor false NPY_FLOAT32 Demo.cpu0 None false [] 1))
    (PyList [PyLong (-1)]) = None.
Proof.
  exact (proj1 (proj2 (squeeze_of_unknown_shape DemoAxis.engine
            (PyTensor (mkTensor false NPY_FLOAT32 Demo.cpu0 None false [] 1)) eq_refl)
            [-1]%Z)).
Defined.

(* ================================================================== *)
(** ** The ellipsis on a tensor whose rank cannot be read *)

Lemma remove_ellipsis_unknown_rank (inp : PyObject) (a b : list PyObject)
      (msg : string) :
  getattr_ndim inp = AttrError msg ->
  existsb is_Ellipsis (a ++ b) = false ->
  _remove_ellipsis inp (a ++ PyEllipsis :: b) =
  Raise (index_error "does not support Ellipsis when tensor's ndim is unknown.").
Proof.
  intros Hn Hne. rewrite existsb_app in Hne.
  apply orb_false_elim in Hne. destruct Hne as [Ha Hb].
  unfold _remove_ellipsis.
  rewrite enumerate_is_from, enumerate_from_app, rfold_app.
  destruct (scan_keeps_position (a ++ PyEllipsis :: b) a Ha 0 (-1)%Z 0%N false)
    as (cs1 & ->).
  cbn [rbind]. rewrite enumerate_from_cons. cbn [rfold]. rewrite Nat.add_0_l.
  rewrite scan_step_ellipsis by reflexivity.
  rewrite firstn_app_exact, Ha. cbn [rbind].
  destruct (scan_keeps_position (a ++ PyEllipsis :: b) b Hb (S (List.length a))
              (Z.of_N (N.of_nat (List.length a))) cs1 false) as (cs2 & ->).
  cbn [rbind].
  replace (Z.of_N (N.of_nat (List.length a)) =? -1)%Z with false
    by (symmetry; apply Z.eqb_neq; lia).
  rewrite Hn. reflexivity.
Qed.

(** X23.  An ellipsis needs a rank that can be read.  On a tensor whose
    [ndim] cannot be read, where the test for too many indices is
    skipped, an index with one ellipsis and no None is refused by index
    unpacking with
    [IndexError("does not support Ellipsis when tensor's ndim is unknown.")];
    get and set fail with it and nothing is applied. *)
Theorem ellipsis_needs_known_rank (E : Engine) (inp : PyObject)
        (a b : list PyObject) (msg : string) (log : list Invocation) :
  getattr_ndim inp = AttrError msg ->
  existsb is_Ellipsis (a ++ b) = false ->
  ~ In PyNone (a ++ b) ->
  let idx := PyTuple (a ++ PyEllipsis :: b) in
  let e := index_error "does not support Ellipsis when tensor's ndim is unknown." in
  _unpack_indexes E inp idx log = (Raise e, log) /\
  _getitem_cpp E inp idx log = (Raise e, log) /\
  (forall val_hdl org val,
      attr_get (getattr_shape' E inp) = Ok org ->
      setitem_value E inp val_hdl = Ok val ->
      _setitem_cpp E inp idx val_hdl log = (Raise e, log)).
Proof.
  intros Hn Hne Hno idx e.
  assert (Hno' : ~ In PyNone (a ++ PyEllipsis :: b)).
  { intros Hin. apply in_app_or in Hin. apply Hno. apply in_or_app.
    destruct Hin as [Hin|[Hin|Hin]]; [now left|discriminate Hin|now right]. }
  destruct (count_loop_ok (a ++ PyEllipsis :: b) Hno' false false 0%N) as (ne & Hc).
  assert (Hex : existsb is_Ellipsis (a ++ PyEllipsis :: b) = true).
  { rewrite existsb_app. cbn [existsb is_Ellipsis]. now rewrite orb_true_r. }
  rewrite Hex in Hc. cbn [orb] in Hc.
  assert (Hu : _unpack_indexes E inp idx log = (Raise e, log)).
  { apply (unpack_stops_in_ellipsis E inp idx ne _ e log Hc).
    - now apply (rank_check_unknown inp msg).
    - now apply (remove_ellipsis_unknown_rank inp a b msg). }
  split; [exact Hu|].
  now apply unpack_failure_spreads.
Qed.

(** X23, witness: the index (0, ...) on a tensor whose shape is not
    known. *)
Lemma ellipsis_needs_known_rank_witness :
  _getitem_cpp Demo.engine
    (PyTensor (mkTensor false NPY_FLOAT32 Demo.cpu0 None false [] 1))
    (PyTuple [PyLong 0; PyEllipsis]) [] =
  (Raise (index_error "does not support Ellipsis when tensor's ndim is unknown."), []).
Proof.
  refine (proj1 (proj2 (ellipsis_needs_known_rank Demo.engine
            (PyTensor (mkTensor false NPY_FLOAT32 Demo.cpu0 None false [] 1))
            [PyLong 0] [] "ValueError: unknown ndim" [] eq_refl eq_refl _))).
  intros [H|[]]. discriminate H.
Defined.
